(** * Trend / trete_backtest: the data-ingestion layer

    A shallow embedding of [trete_backtest/data/tiingo_loader.py]
    ([fetch_ticker_from_tiingo], [load_ticker], [fetch_vix], [load_vix])
    and of the part of [trete_backtest/config.py] it reads, with the
    properties of the retrying fetch, the cache-aside protocol and the
    schema normalisation.

    The pandas operations the loader calls are modelled on column-typed
    frames; the network, the clock, the logger and the file system are
    threaded through a state-and-exception monad. *)

From Stdlib Require Import SpecFloat.
From stdpp Require Import base tactics option list sorting strings pretty gmap.

Open Scope string_scope.
Open Scope list_scope.
Open Scope Z_scope.

(** ** float64 and the column types *)

(** A [float64] is an IEEE 754 binary64 datum, in the Standard Library's
    specification of floats (one NaN, signed zeros and infinities). *)
Abbreviation float64 := spec_float.

Definition NaN : float64 := S754_nan.

Definition is_nan (f : float64) : bool :=
  match f with S754_nan => true | _ => false end.

Definition is_finite (f : float64) : bool :=
  match f with S754_zero _ | S754_finite _ _ _ => true | _ => false end.

(** int64 -> float64, rounding to nearest even. *)
Definition float_of_int (z : Z) : float64 := binary_normalize 53 1024 z 0 false.

(** float64 -> int64, truncating toward zero.  numpy leaves the cast of a
    value outside the int64 range to the platform; x86-64 gives the least
    int64, which is what is written here. *)
Definition int64_min : Z := - 2 ^ 63.
Definition int64_max : Z := 2 ^ 63 - 1.

Definition int_of_float (f : float64) : Z :=
  match f with
  | S754_finite s m e =>
      let a := if 0 <=? e then Z.pos m * 2 ^ e else Z.pos m / 2 ^ (- e) in
      let z := if s then - a else a in
      if (int64_min <=? z) && (z <=? int64_max) then z else int64_min
  | _ => 0
  end.

(** A cell of a CSV text: an integer literal, a decimal literal (identified
    with the float64 it denotes; the decimal text itself is not modelled),
    or any other text, the empty cell being [CsvText ""]. *)
Inductive csv_cell :=
| CsvInt (z : Z)
| CsvFloat (f : float64)
| CsvText (s : string).

(** A pandas column.  An [Object] column holds Python objects: here NaN
    ([None]) or a str, given by the cell it was read from. *)
Inductive Series :=
| Int64 (xs : list Z)
| Float64 (xs : list float64)
| Object (xs : list (option csv_cell)).

Inductive dtype := int64 | float64_ | object_.

Definition dtype_of (s : Series) : dtype :=
  match s with Int64 _ => int64 | Float64 _ => float64_ | Object _ => object_ end.


(** Timezone-naive timestamps, in seconds since the epoch. *)
Abbreviation Timestamp := Z (only parsing).

Definition seconds_per_day : Z := 86400.

(** A frame: a named DatetimeIndex and labelled columns, in order. *)
Record DataFrame := mkDataFrame {
  index_name : string;
  index : list Timestamp;
  columns : list (string * Series);
}.

(** ** Exceptions *)

Inductive Exception :=
| ValueError (msg : string)
| ConnectionError (msg : string) (cause : option string)
    (* the builtin; [cause] is the [raise ... from exc] chain *)
| HTTPError (status : Z)             (* requests: raise_for_status *)
| RequestException (exc : string)    (* requests: any failure but ConnectionError *)
| JSONDecodeError
| KeyError (key : string)
| IndexError
| IntCastingNaNError
| EmptyDataError
| ParserError
| FileExistsError (path : string)
| IsADirectoryError (path : string).

Inductive Result (A : Type) :=
| Ok (a : A)
| Raise (e : Exception).
Arguments Ok {A} a.
Arguments Raise {A} e.

Definition and_then {A B} (r : Result A) (k : A -> Result B) : Result B :=
  match r with
  | Ok a => k a
  | Raise e => Raise e
  end.

(** ** pandas on one column *)

Definition is_None {A} (o : option A) : bool :=
  match o with None => true | Some _ => false end.

(** [s.isna()] *)
Definition isna (s : Series) : list bool :=
  match s with
  | Int64 xs => (fun _ => false) <$> xs
  | Float64 xs => is_nan <$> xs
  | Object xs => is_None <$> xs
  end.

(** [mask.any()] *)
Definition any (m : list bool) : bool := existsb id m.

(** [s.astype("float64")]: a str of an [Object] column is no number (a
    column of numerals is never read as [Object]), so the cast raises. *)
Definition astype_float64 (s : Series) : Result Series :=
  match s with
  | Int64 xs => Ok (Float64 (float_of_int <$> xs))
  | Float64 xs => Ok (Float64 xs)
  | Object xs =>
      if forallb is_None xs
      then Ok (Float64 ((fun _ => NaN) <$> xs))
      else Raise (ValueError "could not convert string to float")
  end.

(** [s.astype("int64")] *)
Definition astype_int64 (s : Series) : Result Series :=
  match s with
  | Int64 xs => Ok (Int64 xs)
  | Float64 xs =>
      if forallb is_finite xs then Ok (Int64 (int_of_float <$> xs))
      else Raise IntCastingNaNError
  | Object xs =>
      match xs with
      | [] => Ok (Int64 [])
      | _ => Raise (ValueError "invalid literal for int()")
      end
  end.

(** ** pandas on rows *)

(** Positional selection [xs[p]]. *)
Definition reindex {A} (p : list nat) (xs : list A) : list A :=
  omap (fun i => xs !! i) p.

(** Boolean-mask selection [xs[m]]. *)
Fixpoint select_rows {A} (m : list bool) (xs : list A) : list A :=
  match m, xs with
  | b :: m', x :: xs' => if b then x :: select_rows m' xs' else select_rows m' xs'
  | _, _ => []
  end.

Definition series_rows (f : forall A, list A -> list A) (s : Series) : Series :=
  match s with
  | Int64 xs => Int64 (f _ xs)
  | Float64 xs => Float64 (f _ xs)
  | Object xs => Object (f _ xs)
  end.

Definition frame_rows (f : forall A, list A -> list A) (df : DataFrame) : DataFrame :=
  {| index_name := index_name df;
     index := f _ (index df);
     columns := prod_map id (series_rows f) <$> columns df |}.

(** An insertion sort of positions by their keys, a position going in front
    of the first one whose key is not smaller, so that equal keys keep the
    order they come in. *)
Fixpoint insert_key (x : Timestamp * nat) (l : list (Timestamp * nat)) :
    list (Timestamp * nat) :=
  match l with
  | [] => [x]
  | y :: r => if x.1 <=? y.1 then x :: l else y :: insert_key x r
  end.

Definition sort_keys (l : list (Timestamp * nat)) : list (Timestamp * nat) :=
  foldr insert_key [] l.

(** numpy's quicksort is not stable: the order it leaves among equal keys
    is the implementation's (an introsort, or a vectorised sorting
    network) and depends on the whole array.  [ties ks i] is the rank the
    implementation gives position [i] among the positions of [ks] that
    hold the same key, equal ranks falling back on the positions;
    [by_rank] lists the positions in the order of their ranks. *)
Definition by_rank (ties : list Timestamp -> nat -> Z) (ks : list Timestamp) : list nat :=
  let positions := seq 0 (length ks) in
  (sort_keys (zip (ties ks <$> positions) positions)).*2.

(** [ks.argsort(kind="quicksort")], the sorting permutation of the keys:
    the positions, in the order of their ranks, sorted by their keys. *)
Definition argsort (ties : list Timestamp -> nat -> Z) (ks : list Timestamp) : list nat :=
  (sort_keys (zip (reindex (by_rank ties ks) ks) (by_rank ties ks))).*2.

(** [index.is_monotonic_increasing] *)
Fixpoint is_monotonic_increasing (ks : list Timestamp) : bool :=
  match ks with
  | k :: r =>
      match r with
      | k' :: _ => (k <=? k') && is_monotonic_increasing r
      | [] => true
      end
  | [] => true
  end.

(** [df.sort_index()]: pandas returns a frame whose index is monotonic as
    it is, and takes the rows in the order of [argsort] otherwise. *)
Definition sort_index (ties : list Timestamp -> nat -> Z) (df : DataFrame) : DataFrame :=
  if is_monotonic_increasing (index df)
  then df
  else frame_rows (fun A => reindex (argsort ties (index df))) df.

(** [index.duplicated(keep="first")] *)
Fixpoint duplicated_from (seen : list Timestamp) (ks : list Timestamp) : list bool :=
  match ks with
  | [] => []
  | k :: r => bool_decide (k ∈ seen) :: duplicated_from (k :: seen) r
  end.

Definition duplicated (ks : list Timestamp) : list bool := duplicated_from [] ks.

(** [index.has_duplicates] *)
Definition has_duplicates (ks : list Timestamp) : bool := any (duplicated ks).

(** [df[mask]] *)
Definition boolean_mask (m : list bool) (df : DataFrame) : DataFrame :=
  frame_rows (fun A => select_rows m) df.

(** ** pandas on columns of a frame *)

(** [cols[k]] *)
Fixpoint getitem (k : string) (cols : list (string * Series)) : Result Series :=
  match cols with
  | [] => Raise (KeyError k)
  | (k', s) :: r => if decide (k = k') then Ok s else getitem k r
  end.

(** [cols[k] = v]: in place when the label exists, appended otherwise. *)
Fixpoint setitem (k : string) (v : Series) (cols : list (string * Series)) :
    list (string * Series) :=
  match cols with
  | [] => [(k, v)]
  | (k', s) :: r => if decide (k = k') then (k, v) :: r else (k', s) :: setitem k v r
  end.

(** [cols[[k1, ..., kn]]] *)
Fixpoint getitems (ks : list string) (cols : list (string * Series)) :
    Result (list (string * Series)) :=
  match ks with
  | [] => Ok []
  | k :: r =>
      match getitem k cols with
      | Raise e => Raise e
      | Ok s =>
          match getitems r cols with
          | Raise e => Raise e
          | Ok l => Ok ((k, s) :: l)
          end
      end
  end.

(** [s.ffill()] *)
Fixpoint ffill_from {A} (missing : A -> bool) (last : option A) (xs : list A) : list A :=
  match xs with
  | [] => []
  | x :: r =>
      if missing x
      then default x last :: ffill_from missing last r
      else x :: ffill_from missing (Some x) r
  end.

Definition ffill (s : Series) : Series :=
  match s with
  | Int64 xs => Int64 xs
  | Float64 xs => Float64 (ffill_from is_nan None xs)
  | Object xs => Object (ffill_from is_None None xs)
  end.

(** ** Tables and CSV texts *)

(** A frame before [set_index]: a column of datetimes (possibly
    timezone-aware, the offset in seconds) among the columns.  The text of
    a date is identified with the wall-clock time it denotes. *)
Record Table := mkTable {
  date_label : string;
  date_values : list Timestamp;
  date_tz : option Z;
  value_columns : list (string * Series);
}.

(** A CSV text with a header row: a column of calendar dates (days since
    the epoch, written YYYY-MM-DD) and columns of cells. *)
Record CsvTable := mkCsvTable {
  csv_date_label : string;
  csv_dates : list Z;
  csv_columns : list (string * list csv_cell);
}.

(** The content of a file or of a response body. *)
Inductive File :=
| FileEmpty                  (* no bytes *)
| FileGarbage                (* not a CSV text *)
| FileCsv (t : CsvTable).

(** The strings pandas reads as missing, besides those of [na_values]. *)
Definition default_na_values : list string :=
  [""; "#N/A"; "#N/A N/A"; "#NA"; "-1.#IND"; "-1.#QNAN"; "-NaN"; "-nan";
   "1.#IND"; "1.#QNAN"; "<NA>"; "N/A"; "NA"; "NULL"; "NaN"; "None"; "n/a";
   "nan"; "null"].

Definition cell_is_na (na_values : list string) (c : csv_cell) : bool :=
  match c with
  | CsvText s => bool_decide (s ∈ (na_values ++ default_na_values)%list)
  | CsvFloat f => is_nan f
  | CsvInt _ => false
  end.

Definition cell_is_int (c : csv_cell) : bool :=
  match c with CsvInt _ => true | _ => false end.

Definition cell_is_text (na_values : list string) (c : csv_cell) : bool :=
  match c with CsvText _ => negb (cell_is_na na_values c) | _ => false end.

Definition cell_to_float (c : csv_cell) : float64 :=
  match c with
  | CsvInt z => float_of_int z
  | CsvFloat f => f
  | CsvText _ => NaN
  end.

Definition cell_to_int (c : csv_cell) : Z :=
  match c with CsvInt z => z | _ => 0 end.

(** The column type [read_csv] infers: no row gives [object]; any text that
    is not a missing marker gives [object]; integer literals alone give
    int64; anything else float64, a missing cell read as NaN. *)
Definition infer_column (na_values : list string) (cells : list csv_cell) : Series :=
  match cells with
  | [] => Object []
  | _ =>
      if existsb (cell_is_text na_values) cells
      then Object ((fun c => if cell_is_na na_values c then None else Some c) <$> cells)
      else if forallb cell_is_int cells
      then Int64 (cell_to_int <$> cells)
      else Float64 (cell_to_float <$> cells)
  end.

(** [pd.read_csv(text, na_values=..., parse_dates=[label])] *)
Definition read_csv (na_values : list string) (label : string) (f : File) : Result Table :=
  match f with
  | FileEmpty => Raise EmptyDataError
  | FileGarbage => Raise ParserError
  | FileCsv t =>
      if decide (csv_date_label t = label)
      then Ok {| date_label := label;
                 date_values := (fun d => d * seconds_per_day) <$> csv_dates t;
                 date_tz := None;
                 value_columns := prod_map id (infer_column na_values) <$> csv_columns t |}
      else Raise (ValueError "Missing column provided to 'parse_dates'")
  end.

(** [df.set_index(label)], on a table whose dates are timezone-naive. *)
Definition set_index (label : string) (t : Table) : Result DataFrame :=
  if decide (date_label t = label)
  then Ok {| index_name := label; index := date_values t; columns := value_columns t |}
  else Raise (KeyError label).

(** The cell [to_csv] writes for a value: nothing for NaN. *)
Definition series_cells (s : Series) : list csv_cell :=
  match s with
  | Int64 xs => CsvInt <$> xs
  | Float64 xs => (fun f => if is_nan f then CsvText "" else CsvFloat f) <$> xs
  | Object xs => (fun o => default (CsvText "") o) <$> xs
  end.

(** The text [df.to_csv(path, date_format="%Y-%m-%d")] writes: the
    time of day of an index entry is not written. *)
Definition csv_of_frame (df : DataFrame) : CsvTable :=
  {| csv_date_label := index_name df;
     csv_dates := (fun t => t `div` seconds_per_day) <$> index df;
     csv_columns := prod_map id series_cells <$> columns df |}.

(** ** The world: network, clock, logger, file system *)

Record Request := mkRequest {
  url : string;
  params : list (string * string);
  headers : list (string * string);
  timeout : Z;
}.

(** What [response.json()] gives: a failure to decode, a falsy value
    (empty list, empty object, null), or the records, as the table
    [pd.DataFrame] builds from them. *)
Inductive JsonBody :=
| JsonInvalid
| JsonFalsy
| JsonRecords (t : Table).

Record Response := mkResponse {
  status_code : Z;
  json : JsonBody;
  text : File;
}.

(** What a [requests.get] meets: a response, a
    [requests.exceptions.ConnectionError], or another failure of the
    request (a read timeout, an invalid URL, ...). *)
Inductive Outcome :=
| Responded (r : Response)
| ConnectionFailed (exc : string)
| RequestFailed (exc : string).

Inductive Event :=
| HttpGet (r : Request)
| Sleep (seconds : Z)
| LogWarning (msg : string)
| MakeDirs (dir : string)
| OpenForWriting (path : string)
| WriteAndClose (path : string).

(** [network n r] is what the [n]-th request of the run meets when it is
    [r]; [trace] lists the effects so far, oldest first; [snapshots] lists
    the states the files went through, oldest first; [tie_order] is the
    order the platform's quicksort leaves among equal keys (see
    [argsort]), which the loader has no say in. *)
Record World := mkWorld {
  network : nat -> Request -> Outcome;
  trace : list Event;
  files : gmap string File;
  dirs : gset string;
  snapshots : list (gmap string File);
  tie_order : list Timestamp -> nat -> Z;
}.

Definition is_HttpGet (e : Event) : bool :=
  match e with HttpGet _ => true | _ => false end.

Definition requests_made (w : World) : nat :=
  length (filter (fun e => is_HttpGet e = true) (trace w)).

Definition emit (e : Event) (w : World) : World :=
  {| network := network w; trace := trace w ++ [e]; files := files w;
     dirs := dirs w; snapshots := snapshots w; tie_order := tie_order w |}.

Definition set_file (path : string) (f : File) (w : World) : World :=
  let fs := <[path := f]> (files w) in
  {| network := network w; trace := trace w; files := fs;
     dirs := dirs w; snapshots := snapshots w ++ [fs]; tie_order := tie_order w |}.

(** Computations: a result or an exception, and the world after. *)
Definition M (A : Type) : Type := World -> Result A * World.

Definition ret {A} (a : A) : M A := fun w => (Ok a, w).
Definition raise {A} (e : Exception) : M A := fun w => (Raise e, w).
Definition bind {A B} (m : M A) (k : A -> M B) : M B :=
  fun w => match m w with
           | (Ok a, w') => k a w'
           | (Raise e, w') => (Raise e, w')
           end.
Definition lift {A} (r : Result A) : M A := fun w => (r, w).

Notation "x <- m ;; k" := (bind m (fun x => k))
  (at level 100, m at next level, right associativity).
Notation "m ;;; k" := (bind m (fun _ => k))
  (at level 100, right associativity).

(** [requests.get(url, params=..., headers=..., timeout=...)], the
    exception, if any, returned as a value for the [try] to inspect. *)
Definition requests_get (r : Request) : M Outcome :=
  fun w => (Ok (network w (requests_made w) r), emit (HttpGet r) w).

(** [time.sleep(seconds)] *)
Definition time_sleep (seconds : Z) : M unit :=
  fun w => (Ok tt, emit (Sleep seconds) w).

(** [logger.warning(msg)] *)
Definition logger_warning (msg : string) : M unit :=
  fun w => (Ok tt, emit (LogWarning msg) w).

(** [df.sort_index()], on the platform of the run. *)
Definition df_sort_index (df : DataFrame) : M DataFrame :=
  fun w => (Ok (sort_index (tie_order w) df), w).

(** [path.exists()] *)
Definition path_exists (path : string) : M bool :=
  fun w => (Ok (bool_decide (is_Some (files w !! path) \/ path ∈ dirs w)), w).

(** [os.makedirs(dir, exist_ok=True)] *)
Definition os_makedirs (dir : string) : M unit :=
  fun w =>
    match files w !! dir with
    | Some _ => (Raise (FileExistsError dir), w)
    | None =>
        (Ok tt, emit (MakeDirs dir)
                  {| network := network w; trace := trace w; files := files w;
                     dirs := {[dir]} ∪ dirs w; snapshots := snapshots w;
                     tie_order := tie_order w |})
    end.

(** The content of the file at [path], for [pd.read_csv(path, ...)], which
    the loader calls on a path that exists. *)
Definition read_file (path : string) : M File :=
  fun w =>
    match files w !! path with
    | Some f => (Ok f, w)
    | None => (Raise (IsADirectoryError path), w)
    end.

(** [df.to_csv(path, date_format="%Y-%m-%d")]: the file is opened for
    writing at [path] itself, which creates or empties it, then the text
    is written and the file closed. *)
Definition to_csv (path : string) (df : DataFrame) : M unit :=
  fun w =>
    let w1 := emit (OpenForWriting path) (set_file path FileEmpty w) in
    (Ok tt, emit (WriteAndClose path) (set_file path (FileCsv (csv_of_frame df)) w1)).

(** ** config.py *)

(** [DataConfig], the fields the loader reads. *)
Record DataConfig := mkDataConfig {
  tiingo_api_key : string;
  tiingo_base_url : string;
  start_date : string;
  end_date : string;
  cache_dir : string;
  use_cache : bool;
}.

(** ** Strings and paths *)

Definition upper_ascii (c : Ascii.ascii) : Ascii.ascii :=
  let n := Ascii.N_of_ascii c in
  if ((97 <=? n) && (n <=? 122))%N then Ascii.ascii_of_N (n - 32) else c.

(** [s.upper()], on ASCII. *)
Fixpoint upper (s : string) : string :=
  match s with
  | EmptyString => EmptyString
  | String c r => String (upper_ascii c) (upper r)
  end.

(** [Path(dir) / name] *)
Definition path_join (dir name : string) : string := dir +:+ "/" +:+ name.

(** ** data/tiingo_loader.py *)

Definition _MAX_RETRIES : nat := 3.
Definition _BACKOFF_SECONDS : list Z := [1; 2; 4].

(** [_BACKOFF_SECONDS[attempt]] *)
Definition backoff (attempt : nat) : Result Z :=
  match _BACKOFF_SECONDS !! attempt with
  | Some s => Ok s
  | None => Raise IndexError
  end.

(** [response.raise_for_status()] *)
Definition raise_for_status (response : Response) : M unit :=
  if (400 <=? status_code response) && (status_code response <? 600)
  then raise (HTTPError (status_code response))
  else ret tt.

Definition attempts_text : string := pretty (_MAX_RETRIES + 1)%nat.

(** The [for attempt in range(_MAX_RETRIES + 1)] loop of
    [fetch_ticker_from_tiingo], over the attempts still to make; the empty
    list is the loop's [else] branch, and returning the response is its
    [break]. *)
Fixpoint request_loop (attempts : list nat) (last_exception : option string)
    (ticker : string) (req : Request) : M Response :=
  match attempts with
  | [] =>
      raise (ConnectionError
               ("Request failed after " +:+ attempts_text +:+ " attempts for " +:+ ticker)
               last_exception)
  | attempt :: rest =>
      outcome <- requests_get req ;;
      match outcome with
      | Responded response =>
          if (status_code response =? 429) || (500 <=? status_code response)
          then
            if (attempt <? _MAX_RETRIES)%nat
            then
              seconds <- lift (backoff attempt) ;;
              time_sleep seconds ;;;
              request_loop rest last_exception ticker req
            else
              raise (ConnectionError
                       ("HTTP " +:+ pretty (status_code response) +:+ " after "
                        +:+ attempts_text +:+ " attempts for " +:+ ticker)
                       None)
          else if status_code response =? 404
          then raise (ValueError ("Ticker '" +:+ ticker +:+ "' not found on Tiingo (404)"))
          else
            raise_for_status response ;;;
            ret response
      | ConnectionFailed exc =>
          if (attempt <? _MAX_RETRIES)%nat
          then
            seconds <- lift (backoff attempt) ;;
            time_sleep seconds ;;;
            request_loop rest (Some exc) ticker req
          else
            raise (ConnectionError
                     ("Connection failed after " +:+ attempts_text
                      +:+ " attempts for " +:+ ticker)
                     (Some exc))
      | RequestFailed exc => raise (RequestException exc)
      end
  end.

(** [df[k] = df[k].astype("float64")] *)
Definition enforce_float64 (k : string) (df : DataFrame) : Result DataFrame :=
  match getitem k (columns df) with
  | Raise e => Raise e
  | Ok s =>
      match astype_float64 s with
      | Raise e => Raise e
      | Ok s' => Ok {| index_name := index_name df; index := index df;
                       columns := setitem k s' (columns df) |}
      end
  end.

(** The [if df[k].isna().any(): ... float64 else: ... int64] statement. *)
Definition enforce_int64_unless_nan (k : string) (df : DataFrame) : Result DataFrame :=
  match getitem k (columns df) with
  | Raise e => Raise e
  | Ok s =>
      match (if any (isna s) then astype_float64 s else astype_int64 s) with
      | Raise e => Raise e
      | Ok s' => Ok {| index_name := index_name df; index := index df;
                       columns := setitem k s' (columns df) |}
      end
  end.

(** The three "Enforce data types" statements, which
    [fetch_ticker_from_tiingo] and the cache branch of [load_ticker] both
    have. *)
Definition enforce_dtypes (df : DataFrame) : Result DataFrame :=
  match enforce_float64 "adjOpen" df with
  | Raise e => Raise e
  | Ok df1 =>
      match enforce_float64 "adjClose" df1 with
      | Raise e => Raise e
      | Ok df2 => enforce_int64_unless_nan "adjVolume" df2
      end
  end.

Definition tiingo_request (ticker start_date end_date api_key base_url : string) : Request :=
  {| url := base_url +:+ "/" +:+ ticker +:+ "/prices";
     params := [("startDate", start_date); ("endDate", end_date); ("format", "json");
                ("resampleFreq", "daily"); ("token", api_key)];
     headers := [("Content-Type", "application/json");
                 ("Authorization", "Token " +:+ api_key)];
     timeout := 30 |}.

(** The part of [fetch_ticker_from_tiingo] after the loop: from
    [data = response.json()] to [return df]. *)
Definition frame_of_response (ticker : string) (response : Response) : M DataFrame :=
  match json response with
  | JsonInvalid => raise JSONDecodeError
  | JsonFalsy => raise (ValueError ("Empty response for ticker '" +:+ ticker +:+ "'"))
  | JsonRecords data =>
      (* Parse date, strip timezone, set as index *)
      if decide (date_label data = "date")
      then
        df <- lift (set_index "date"
                      {| date_label := date_label data; date_values := date_values data;
                         date_tz := None; value_columns := value_columns data |}) ;;
        (* Keep only required columns *)
        cols <- lift (getitems ["adjOpen"; "adjClose"; "adjVolume"] (columns df)) ;;
        (* Enforce data types *)
        df <- lift (enforce_dtypes
                      {| index_name := index_name df; index := index df; columns := cols |}) ;;
        (* Sort and validate *)
        df <- df_sort_index df ;;
        if has_duplicates (index df)
        then
          let df := boolean_mask (negb <$> duplicated (index df)) df in
          logger_warning ("Duplicate dates removed for " +:+ ticker) ;;;
          ret df
        else ret df
      else raise (KeyError "date")
  end.

Definition fetch_ticker_from_tiingo
    (ticker start_date end_date api_key base_url : string) : M DataFrame :=
  if decide (api_key = "")
  then raise (ValueError "API key must not be empty")
  else
    response <- request_loop (seq 0 (_MAX_RETRIES + 1)) None ticker
                  (tiingo_request ticker start_date end_date api_key base_url) ;;
    frame_of_response ticker response.

Definition load_ticker (ticker : string) (config : DataConfig) : M DataFrame :=
  let cache_path := path_join (cache_dir config) (upper ticker +:+ ".csv") in
  hit <- (if use_cache config then path_exists cache_path else ret false) ;;
  if hit
  then
    f <- read_file cache_path ;;
    t <- lift (read_csv [] "date" f) ;;
    df <- lift (set_index "date" t) ;;
    lift (enforce_dtypes df)
  else
    df <- fetch_ticker_from_tiingo ticker (start_date config) (end_date config)
            (tiingo_api_key config) (tiingo_base_url config) ;;
    (* Save to cache *)
    os_makedirs (cache_dir config) ;;;
    to_csv cache_path df ;;;
    ret df.

Definition vix_request (start_date end_date : string) : Request :=
  {| url := "https://fred.stlouisfed.org/graph/fredgraph.csv"
            +:+ "?id=VIXCLS&cosd=" +:+ start_date +:+ "&coed=" +:+ end_date;
     params := [];
     headers := [];
     timeout := 30 |}.

(** [df.rename(columns={"DATE": "date", "VIXCLS": "vix_close"})] *)
Definition rename_label (k : string) : string :=
  if decide (k = "DATE") then "date"
  else if decide (k = "VIXCLS") then "vix_close"
  else k.

Definition rename (t : Table) : Table :=
  {| date_label := rename_label (date_label t);
     date_values := date_values t;
     date_tz := date_tz t;
     value_columns := prod_map rename_label id <$> value_columns t |}.

(** [df.dropna(subset=[k])] *)
Definition dropna (k : string) (df : DataFrame) : Result DataFrame :=
  match getitem k (columns df) with
  | Raise e => Raise e
  | Ok s => Ok (boolean_mask (negb <$> isna s) df)
  end.

Definition fetch_vix (start_date end_date : string) : M DataFrame :=
  outcome <- requests_get (vix_request start_date end_date) ;;
  match outcome with
  | ConnectionFailed exc => raise (RequestException exc)
  | RequestFailed exc => raise (RequestException exc)
  | Responded response =>
      raise_for_status response ;;;
      t <- lift (read_csv ["."] "DATE" (text response)) ;;
      df <- lift (set_index "date" (rename t)) ;;
      (* Forward-fill missing values *)
      s <- lift (getitem "vix_close" (columns df)) ;;
      let df := {| index_name := index_name df; index := index df;
                   columns := setitem "vix_close" (ffill s) (columns df) |} in
      (* Drop any remaining NaN at the start (before first valid observation) *)
      df <- lift (dropna "vix_close" df) ;;
      df <- lift (enforce_float64 "vix_close" df) ;;
      df_sort_index df
  end.

Definition load_vix (config : DataConfig) : M DataFrame :=
  let cache_path := path_join (cache_dir config) "VIX.csv" in
  hit <- (if use_cache config then path_exists cache_path else ret false) ;;
  if hit
  then
    f <- read_file cache_path ;;
    t <- lift (read_csv [] "date" f) ;;
    df <- lift (set_index "date" t) ;;
    lift (enforce_float64 "vix_close" df)
  else
    df <- fetch_vix (start_date config) (end_date config) ;;
    (* Save to cache *)
    os_makedirs (cache_dir config) ;;;
    to_csv cache_path df ;;;
    ret df.

(** The artifact locations. *)
Definition ticker_cache_path (ticker : string) (config : DataConfig) : string :=
  path_join (cache_dir config) (upper ticker +:+ ".csv").

Definition vix_cache_path (config : DataConfig) : string :=
  path_join (cache_dir config) "VIX.csv".

(** What the cache branch of [load_ticker] computes from the artifact. *)
Definition read_ticker_artifact (f : File) : Result DataFrame :=
  and_then (read_csv [] "date" f) (fun t =>
  and_then (set_index "date" t) enforce_dtypes).

(** What the cache branch of [load_vix] computes from the artifact. *)
Definition read_vix_artifact (f : File) : Result DataFrame :=
  and_then (read_csv [] "date" f) (fun t =>
  and_then (set_index "date" t) (enforce_float64 "vix_close")).

(** ** Fixtures *)

(** Calendar dates, in days since the epoch. *)
Definition d_2024_01_01 : Z := 19723.
Definition d_2024_01_02 : Z := 19724.
Definition d_2024_01_03 : Z := 19725.
Definition d_2024_01_04 : Z := 19726.
Definition d_2024_01_05 : Z := 19727.
Definition d_2024_01_08 : Z := 19730.

Definition midnight (day : Z) : Timestamp := day * seconds_per_day.

(** A network that is never reached. *)
Definition offline : nat -> Request -> Outcome :=
  fun _ _ => ConnectionFailed "offline".

(** [DataConfig(tiingo_api_key="", use_cache=True)] *)
Definition offline_config : DataConfig :=
  {| tiingo_api_key := "";
     tiingo_base_url := "https://api.tiingo.com/tiingo/daily";
     start_date := "2007-06-01";
     end_date := "2025-12-31";
     cache_dir := "data/cache";
     use_cache := true |}.

(** The MGK fixture of tests/test_tiingo_loader.py, as [to_csv] writes it. *)
Definition mgk_fixture : CsvTable :=
  {| csv_date_label := "date";
     csv_dates := [d_2024_01_02; d_2024_01_03; d_2024_01_04; d_2024_01_05; d_2024_01_08];
     csv_columns :=
       [("adjOpen", CsvFloat <$> (float_of_int <$> [470; 471; 472; 473; 474]));
        ("adjClose", CsvFloat <$> (float_of_int <$> [471; 472; 473; 474; 475]));
        ("adjVolume", CsvInt <$> [50000000; 51000000; 52000000; 53000000; 54000000])] |}.

Definition mgk_frame : DataFrame :=
  {| index_name := "date";
     index := midnight <$> [d_2024_01_02; d_2024_01_03; d_2024_01_04; d_2024_01_05; d_2024_01_08];
     columns :=
       [("adjOpen", Float64 (float_of_int <$> [470; 471; 472; 473; 474]));
        ("adjClose", Float64 (float_of_int <$> [471; 472; 473; 474; 475]));
        ("adjVolume", Int64 [50000000; 51000000; 52000000; 53000000; 54000000])] |}.

(** A cached VIX artifact. *)
Definition vix_fixture : CsvTable :=
  {| csv_date_label := "date";
     csv_dates := [d_2024_01_02; d_2024_01_03];
     csv_columns := [("vix_close", [CsvFloat (float_of_int 15); CsvInt 16])] |}.

Definition vix_frame : DataFrame :=
  {| index_name := "date";
     index := midnight <$> [d_2024_01_02; d_2024_01_03];
     columns := [("vix_close", Float64 (float_of_int <$> [15; 16]))] |}.

(** A sort that leaves equal keys in the order they come in. *)
Definition in_order : list Timestamp -> nat -> Z := fun _ _ => 0.

Definition world_of (net : nat -> Request -> Outcome) (fs : gmap string File) : World :=
  {| network := net; trace := []; files := fs; dirs := ∅; snapshots := [];
     tie_order := in_order |}.

Definition offline_world : World :=
  world_of offline
    (<["data/cache/MGK.csv" := FileCsv mgk_fixture]>
       (<["data/cache/VIX.csv" := FileCsv vix_fixture]> ∅)).

(** Five business days of provider records, dated at midnight UTC. *)
Definition mgk_records : Table :=
  {| date_label := "date";
     date_values := midnight <$> [d_2024_01_02; d_2024_01_03; d_2024_01_04; d_2024_01_05; d_2024_01_08];
     date_tz := Some 0;
     value_columns :=
       [("close", Float64 (float_of_int <$> [471; 472; 473; 474; 475]));
        ("adjClose", Float64 (float_of_int <$> [471; 472; 473; 474; 475]));
        ("adjOpen", Float64 (float_of_int <$> [470; 471; 472; 473; 474]));
        ("adjVolume", Int64 [50000000; 51000000; 52000000; 53000000; 54000000])] |}.

Definition response_with (status : Z) (body : JsonBody) : Response :=
  {| status_code := status; json := body; text := FileEmpty |}.

Definition mgk_response : Response := response_with 200 (JsonRecords mgk_records).

(** A provider that answers 503 twice, then 200. *)
Definition flaky : nat -> Request -> Outcome :=
  fun n _ =>
    match n with
    | 0%nat | 1%nat => Responded (response_with 503 JsonInvalid)
    | _ => Responded mgk_response
    end.

(** A provider that is down: 503, a connection reset, 429, 500, ... *)
Definition down : nat -> Request -> Outcome :=
  fun n _ =>
    match n with
    | 0%nat => Responded (response_with 503 JsonInvalid)
    | 1%nat => ConnectionFailed "Connection reset by peer"
    | 2%nat => Responded (response_with 429 JsonInvalid)
    | _ => Responded (response_with 500 JsonInvalid)
    end.

(** [DataConfig(tiingo_api_key="TEST_KEY", start_date="2024-01-02",
    end_date="2024-01-08")] *)
Definition test_config : DataConfig :=
  {| tiingo_api_key := "TEST_KEY";
     tiingo_base_url := "https://api.tiingo.com/tiingo/daily";
     start_date := "2024-01-02";
     end_date := "2024-01-08";
     cache_dir := "data/cache";
     use_cache := true |}.

Definition mgk_request : Request :=
  tiingo_request "MGK" "2024-01-02" "2024-01-08" "TEST_KEY"
    "https://api.tiingo.com/tiingo/daily".

(** A provider that answers at once. *)
Definition healthy : nat -> Request -> Outcome := fun _ _ => Responded mgk_response.

(** The FRED feed of the forward-fill example: 15.0, a missing value, 16.0. *)
Definition vix_feed : CsvTable :=
  {| csv_date_label := "DATE";
     csv_dates := [d_2024_01_02; d_2024_01_03; d_2024_01_04];
     csv_columns := [("VIXCLS", [CsvFloat (float_of_int 15); CsvText ".";
                                 CsvFloat (float_of_int 16)])] |}.

Definition fred_response (feed : File) : Response :=
  {| status_code := 200; json := JsonInvalid; text := feed |}.

Definition fred (feed : File) : nat -> Request -> Outcome :=
  fun _ _ => Responded (fred_response feed).

Definition vix_filled_frame : DataFrame :=
  {| index_name := "date";
     index := midnight <$> [d_2024_01_02; d_2024_01_03; d_2024_01_04];
     columns := [("vix_close", Float64 (float_of_int <$> [15; 15; 16]))] |}.

(** Provider records in which 2024-01-02 comes twice, the second time
    with no volume. *)
Definition spy_records : Table :=
  {| date_label := "date";
     date_values := midnight <$> [d_2024_01_02; d_2024_01_02; d_2024_01_03];
     date_tz := Some 0;
     value_columns :=
       [("adjOpen", Float64 (float_of_int <$> [100; 100; 101]));
        ("adjClose", Float64 (float_of_int <$> [101; 101; 102]));
        ("adjVolume", Float64 [float_of_int 1000000; NaN; float_of_int 1100000])] |}.

Definition spy_provider : nat -> Request -> Outcome :=
  fun _ _ => Responded (response_with 200 (JsonRecords spy_records)).

(** What [fetch_ticker_from_tiingo] makes of [spy_records]. *)
Definition spy_frame : DataFrame :=
  {| index_name := "date";
     index := midnight <$> [d_2024_01_02; d_2024_01_03];
     columns :=
       [("adjOpen", Float64 (float_of_int <$> [100; 101]));
        ("adjClose", Float64 (float_of_int <$> [101; 102]));
        ("adjVolume", Float64 (float_of_int <$> [1000000; 1100000]))] |}.

(** What [load_ticker] reads back from the artifact of [spy_frame]. *)
Definition spy_frame_reloaded : DataFrame :=
  {| index_name := "date";
     index := midnight <$> [d_2024_01_02; d_2024_01_03];
     columns :=
       [("adjOpen", Float64 (float_of_int <$> [100; 101]));
        ("adjClose", Float64 (float_of_int <$> [101; 102]));
        ("adjVolume", Int64 [1000000; 1100000])] |}.




(** A FRED feed with its header and no record. *)
Definition empty_feed : CsvTable :=
  {| csv_date_label := "DATE"; csv_dates := []; csv_columns := [("VIXCLS", [])] |}.

Definition empty_vix_frame : DataFrame :=
  {| index_name := "date"; index := []; columns := [("vix_close", Float64 [])] |}.




(** The FRED feed of the leading-gap example: a missing value, then 15.0. *)
Definition vix_gap_feed : CsvTable :=
  {| csv_date_label := "DATE";
     csv_dates := [d_2024_01_01; d_2024_01_02];
     csv_columns := [("VIXCLS", [CsvText "."; CsvFloat (float_of_int 15)])] |}.

Definition vix_gap_frame : DataFrame :=
  {| index_name := "date";
     index := midnight <$> [d_2024_01_02];
     columns := [("vix_close", Float64 [float_of_int 15])] |}.

(** A provider that answers 200 with an empty list of records. *)
Definition empty_provider : nat -> Request -> Outcome :=
  fun _ _ => Responded (response_with 200 JsonFalsy).

(** ** Retry policy, as the specification words it *)

(** The outcomes the specification calls retryable: HTTP 429, any HTTP
    5xx, a transport-level connection failure. *)
Definition retryable (o : Outcome) : Prop :=
  match o with
  | Responded r => status_code r = 429 \/ 500 <= status_code r < 600
  | ConnectionFailed _ => True
  | RequestFailed _ => False
  end.

(** The effects of [k] retried attempts: a request, then the backoff sleep. *)
Definition retries (req : Request) (k : nat) : list Event :=
  concat ((fun s => [HttpGet req; Sleep s]) <$> take k _BACKOFF_SECONDS).

(** The failure after the last attempt, with the attempt count and the last
    status or exception. *)
Definition unavailable (ticker : string) (last : Outcome) : option Exception :=
  match last with
  | Responded r =>
      Some (ConnectionError
              ("HTTP " +:+ pretty (status_code r) +:+ " after 4 attempts for " +:+ ticker)
              None)
  | ConnectionFailed exc =>
      Some (ConnectionError ("Connection failed after 4 attempts for " +:+ ticker) (Some exc))
  | RequestFailed _ => None
  end.

(** ** Write-through, as the specification words it *)

(** [w'] differs from [w] by effects that leave the files alone. *)
Definition same_files (w w' : World) : Prop :=
  network w' = network w /\ files w' = files w /\ dirs w' = dirs w /\
  snapshots w' = snapshots w.

(** The call takes the miss branch: the cache is not to be used, or nothing
    is at the artifact location. *)
Definition cache_miss (path : string) (config : DataConfig) (w : World) : Prop :=
  use_cache config = false \/ (files w !! path = None /\ path ∉ dirs w).

(** In the specification's words (atomic replace, or write to
    a temporary file then rename): of the states the files go through
    during the call, each holds at the artifact location what was there
    before the call or the whole text of the returned series. *)
Definition written_atomically (path : string) (w : World) (df : DataFrame) (w' : World) : Prop :=
  forall fs,
    fs ∈ drop (length (snapshots w)) (snapshots w') ->
    fs !! path = files w !! path \/ fs !! path = Some (FileCsv (csv_of_frame df)).

(** ** Normalisation, for the statements below *)

(** The order of the sorted keys. *)
Definition key_le (x y : Timestamp * nat) : Prop := x.1 <= y.1.

(** The "Sort and validate" statements of [fetch_ticker_from_tiingo], the
    warning apart. *)
Definition sort_and_validate (ties : list Timestamp -> nat -> Z) (df : DataFrame) :
    DataFrame :=
  let df := sort_index ties df in
  if has_duplicates (index df)
  then boolean_mask (negb <$> duplicated (index df)) df
  else df.

(** The column types of a price frame: adjOpen and adjClose float64;
    adjVolume int64 exactly when the column it was coerced from has no
    missing value, float64 otherwise. *)
Definition has_price_dtypes (source_volume : Series) (df : DataFrame) : Prop :=
  exists o c v,
    getitem "adjOpen" (columns df) = Ok o /\
    getitem "adjClose" (columns df) = Ok c /\
    getitem "adjVolume" (columns df) = Ok v /\
    dtype_of o = float64_ /\
    dtype_of c = float64_ /\
    (dtype_of v = int64 <-> any (isna source_volume) = false) /\
    (any (isna source_volume) = true -> dtype_of v = float64_).

(** The warning of [fetch_ticker_from_tiingo], logged when the sorted frame
    has duplicate dates. *)
Definition duplicate_warning (ties : list Timestamp -> nat -> Z) (ticker : string)
    (df : DataFrame) : list Event :=
  if has_duplicates (index (sort_index ties df))
  then [LogWarning ("Duplicate dates removed for " +:+ ticker)]
  else [].


(** ** Forward fill, as the specification words it *)

(** In the specification's words: a missing value takes the
    most recent valid value before it; a date with no valid value yet is
    dropped. *)
Fixpoint forward_filled (last : option float64) (feed : list (Timestamp * float64)) :
    list (Timestamp * float64) :=
  match feed with
  | [] => []
  | (d, x) :: rest =>
      if is_nan x
      then match last with
           | Some v => (d, v) :: forward_filled last rest
           | None => forward_filled None rest
           end
      else (d, x) :: forward_filled (Some x) rest
  end.

(** ** Effort, as the statements below count it *)

(** The requests among some effects, and the seconds slept. *)
Definition http_gets (evs : list Event) : nat :=
  length (filter (fun e => is_HttpGet e = true) evs).

Fixpoint sleep_seconds (evs : list Event) : Z :=
  match evs with
  | [] => 0
  | Sleep s :: r => s + sleep_seconds r
  | _ :: r => sleep_seconds r
  end.

(** The backoff due after each of the attempts. *)
Fixpoint backoff_budget (attempts : list nat) : Z :=
  match attempts with
  | [] => 0
  | a :: r => default 0 (_BACKOFF_SECONDS !! a) + backoff_budget r
  end.

(** The effects a price fetch may have. *)
Definition fetch_effect (ticker : string) (req : Request) (e : Event) : Prop :=
  e = HttpGet req \/
  (exists s, e = Sleep s /\ s ∈ _BACKOFF_SECONDS) \/
  e = LogWarning ("Duplicate dates removed for " +:+ ticker).

(** What building the frame from a response may raise, and what the whole
    fetch may. *)
Definition frame_failure (e : Exception) : bool :=
  match e with
  | JSONDecodeError | ValueError _ | KeyError _ | IntCastingNaNError => true
  | _ => false
  end.

Definition fetch_failure (e : Exception) : bool :=
  match e with
  | ConnectionError _ _ | HTTPError _ | RequestException _ => true
  | _ => frame_failure e
  end.

(** ** Frames, for the statements below *)

(** A frame whose index has a date and no time of day. *)
Definition daily (df : DataFrame) : Prop :=
  Forall (fun t => t `mod` seconds_per_day = 0) (index df).

(** The cell [to_csv] writes for a float. *)
Definition float_cell (f : float64) : csv_cell :=
  if is_nan f then CsvText "" else CsvFloat f.

(** The frames the price fetch returns. *)
Definition price_frame (ix : list Timestamp) (o c : list float64) (v : Series) : DataFrame :=
  {| index_name := "date"; index := ix;
     columns := [("adjOpen", Float64 o); ("adjClose", Float64 c); ("adjVolume", v)] |}.

(** ** More fixtures *)

(** A world some effects away from [world_of net fs], its files as they
    were. *)
Definition world_after (net : nat -> Request -> Outcome) (fs : gmap string File)
    (evs : list Event) : World :=
  {| network := net; trace := evs; files := fs; dirs := ∅; snapshots := [];
     tie_order := in_order |}.

(** The same on a platform whose sort orders equal keys by [ties]. *)
Definition world_on (ties : list Timestamp -> nat -> Z) (net : nat -> Request -> Outcome)
    (fs : gmap string File) : World :=
  {| network := net; trace := []; files := fs; dirs := ∅; snapshots := [];
     tie_order := ties |}.

Definition world_after_on (ties : list Timestamp -> nat -> Z)
    (net : nat -> Request -> Outcome) (fs : gmap string File) (evs : list Event) : World :=
  {| network := net; trace := evs; files := fs; dirs := ∅; snapshots := [];
     tie_order := ties |}.

(** Eighteen provider records: the first dated 2024-01-03, the seventeen
    others 2024-01-02; the volume of a record is its position. *)
Definition dup_volumes : list Z := Z.of_nat <$> seq 0 18.

Definition dup_records : Table :=
  {| date_label := "date";
     date_values := midnight d_2024_01_03 :: replicate 17 (midnight d_2024_01_02);
     date_tz := Some 0;
     value_columns :=
       [("adjOpen", Float64 (replicate 18 (float_of_int 100)));
        ("adjClose", Float64 (replicate 18 (float_of_int 101)));
        ("adjVolume", Int64 dup_volumes)] |}.

Definition dup_provider : nat -> Request -> Outcome :=
  fun _ _ => Responded (response_with 200 (JsonRecords dup_records)).

(** What [fetch_ticker_from_tiingo] makes of [dup_records] when the sort
    puts the record with [volume] first among those dated 2024-01-02. *)
Definition dup_frame (volume : Z) : DataFrame :=
  {| index_name := "date";
     index := midnight <$> [d_2024_01_02; d_2024_01_03];
     columns :=
       [("adjOpen", Float64 (float_of_int <$> [100; 100]));
        ("adjClose", Float64 (float_of_int <$> [101; 101]));
        ("adjVolume", Int64 [volume; 0])] |}.

(** The order numpy's introsort ([argsort(kind="quicksort")], the scalar
    implementation) leaves the positions of eighteen keys in when the
    key at position 0 is the greatest and the others are equal: the
    median of three, of the positions 0, 8 and 17, brings position 8 to
    the front and position 0 to the end, and the partition exchanges the
    positions in between pairwise. *)
Definition introsort_18 : list nat :=
  [8; 15; 14; 13; 12; 11; 10; 9; 17; 7; 6; 5; 4; 3; 2; 1; 16; 0]%nat.

Definition introsort_order : list Timestamp -> nat -> Z :=
  fun _ i =>
    match list_find (fun j => j = i) introsort_18 with
    | Some (rank, _) => Z.of_nat rank
    | None => 0
    end.

(** A provider that answers 503, then 404. *)
Definition unknown_ticker : nat -> Request -> Outcome :=
  fun n _ =>
    match n with
    | 0%nat => Responded (response_with 503 JsonInvalid)
    | _ => Responded (response_with 404 JsonInvalid)
    end.

(** A provider that refuses the key, and a request that cannot be sent. *)
Definition forbidden : nat -> Request -> Outcome :=
  fun _ _ => Responded (response_with 403 JsonInvalid).

Definition malformed : nat -> Request -> Outcome :=
  fun _ _ => RequestFailed "Invalid URL".

(** [DataConfig(tiingo_api_key="TEST_KEY", ..., use_cache=False)] *)
Definition uncached_config : DataConfig :=
  {| tiingo_api_key := "TEST_KEY";
     tiingo_base_url := "https://api.tiingo.com/tiingo/daily";
     start_date := "2024-01-02";
     end_date := "2024-01-08";
     cache_dir := "data/cache";
     use_cache := false |}.

Definition vix_request_2024 : Request := vix_request "2024-01-02" "2024-01-08".

(** Records whose prices are whole numbers, the second volume missing. *)
Definition whole_prices_frame : DataFrame :=
  {| index_name := "date";
     index := midnight <$> [d_2024_01_02; d_2024_01_03];
     columns :=
       [("adjOpen", Int64 [100; 101]);
        ("adjClose", Int64 [101; 102]);
        ("adjVolume", Float64 [float_of_int 1000000; NaN])] |}.

(** * Properties *)

(** ** float64 *)

Lemma shr_1_nonneg mrs : 0 <= shr_m mrs -> 0 <= shr_m (shr_1 mrs).
Proof. destruct mrs as [[|[p|p|]|[p|p|]] r s]; simpl; lia. Qed.

Lemma iter_pos_shr_1_nonneg n mrs :
  0 <= shr_m mrs -> 0 <= shr_m (SpecFloat.iter_pos shr_1 n mrs).
Proof.
  revert mrs. induction n as [n IH|n IH|]; intros mrs H; simpl.
  - apply IH, IH, shr_1_nonneg, H.
  - apply IH, IH, H.
  - apply shr_1_nonneg, H.
Qed.

Lemma shr_nonneg mrs e n : 0 <= shr_m mrs -> 0 <= shr_m (shr mrs e n).1.
Proof. destruct n; simpl; auto using iter_pos_shr_1_nonneg. Qed.

Lemma shr_record_of_loc_m m l : shr_m (shr_record_of_loc m l) = m.
Proof. by destruct l as [|[]]. Qed.

Lemma round_nearest_even_nonneg m l : 0 <= m -> 0 <= round_nearest_even m l.
Proof.
  destruct l as [|[]]; simpl; try done.
  - destruct (Z.even m); lia.
  - lia.
Qed.

Lemma binary_round_aux_not_nan prec emax sx mx ex lx :
  0 <= mx -> is_nan (binary_round_aux prec emax sx mx ex lx) = false.
Proof.
  intros Hm. unfold binary_round_aux, shr_fexp.
  set (s1 := shr _ _ _).
  assert (0 <= shr_m s1.1) as H1.
  { apply shr_nonneg. by rewrite shr_record_of_loc_m. }
  destruct s1 as [mrs' e']. simpl in H1.
  set (s2 := shr _ _ _).
  assert (0 <= shr_m s2.1) as H2.
  { apply shr_nonneg. rewrite shr_record_of_loc_m.
    by apply round_nearest_even_nonneg. }
  destruct s2 as [mrs'' e'']. simpl in H2.
  destruct (shr_m mrs'') eqn:E3; try done.
  by destruct (_ <=? _).
Qed.

(** The float64 of an int64 is a number. *)
Lemma float_of_int_not_nan z : is_nan (float_of_int z) = false.
Proof.
  unfold float_of_int, binary_normalize, binary_round.
  destruct z; try done; destruct (shl_align _ _ _); by apply binary_round_aux_not_nan.
Qed.

(** ** The monad *)

Lemma bind_ok {A B} (m : M A) (k : A -> M B) w a w' :
  m w = (Ok a, w') -> bind m k w = k a w'.
Proof. intros H. unfold bind. by rewrite H. Qed.

Lemma bind_raise {A B} (m : M A) (k : A -> M B) w e w' :
  m w = (Raise e, w') -> bind m k w = (Raise e, w').
Proof. intros H. unfold bind. by rewrite H. Qed.

Lemma bind_lift {A B} (r : Result A) (k : A -> M B) w :
  bind (lift r) k w = match r with Ok a => k a w | Raise e => (Raise e, w) end.
Proof. unfold bind, lift. by destruct r. Qed.

Lemma bind_sort_index {B} (df : DataFrame) (k : DataFrame -> M B) w :
  bind (df_sort_index df) k w = k (sort_index (tie_order w) df) w.
Proof. reflexivity. Qed.

Lemma path_exists_file path w f :
  files w !! path = Some f -> path_exists path w = (Ok true, w).
Proof.
  intros H. unfold path_exists. f_equal. f_equal.
  apply bool_decide_eq_true. left. by rewrite H.
Qed.

Lemma bind_ok_inv {A B} (m : M A) (k : A -> M B) w b w' :
  bind m k w = (Ok b, w') -> exists a w1, m w = (Ok a, w1) /\ k a w1 = (Ok b, w').
Proof. unfold bind. destruct (m w) as [[a|e] w1]; [eauto|done]. Qed.

Lemma same_files_refl w : same_files w w.
Proof. by repeat split. Qed.

Lemma same_files_trans w1 w2 w3 : same_files w1 w2 -> same_files w2 w3 -> same_files w1 w3.
Proof. unfold same_files. intros (?&?&?&?) (?&?&?&?). repeat split; congruence. Qed.

Lemma same_files_emit e w : same_files w (emit e w).
Proof. by repeat split. Qed.

Lemma bind_same_files {A B} (m : M A) (k : A -> M B) w r w' :
  (forall r1 w1, m w = (r1, w1) -> same_files w w1) ->
  (forall a w1 r2 w2, k a w1 = (r2, w2) -> same_files w1 w2) ->
  bind m k w = (r, w') -> same_files w w'.
Proof.
  intros Hm Hk. unfold bind. destruct (m w) as [[a|e] w1] eqn:E.
  - intros H. eapply same_files_trans; eauto.
  - intros [= <- <-]. eauto.
Qed.

Lemma request_loop_same_files attempts : forall last ticker req w r w',
  request_loop attempts last ticker req w = (r, w') -> same_files w w'.
Proof.
  induction attempts as [|attempt rest IH]; intros last ticker req w r w'.
  - intros [= <- <-]. apply same_files_refl.
  - simpl. unfold bind at 1. unfold requests_get at 1.
    pose proof (same_files_emit (HttpGet req) w) as H0.
    set (w0 := emit (HttpGet req) w) in *. clearbody w0.
    destruct (network w (requests_made w) req) as [response|exc|exc].
    + destruct (_ || _).
      * destruct (_ <? _)%nat; [|by intros [= <- <-]].
        rewrite bind_lift. destruct (backoff attempt) as [s|e]; [|by intros [= <- <-]].
        unfold bind, time_sleep. intros H. apply IH in H.
        eapply same_files_trans; [exact H0|]. eapply same_files_trans; [|exact H].
        apply same_files_emit.
      * destruct (_ =? _); [by intros [= <- <-]|].
        unfold raise_for_status. destruct (_ && _); by intros [= <- <-].
    + destruct (_ <? _)%nat; [|by intros [= <- <-]].
      rewrite bind_lift. destruct (backoff attempt) as [s|e]; [|by intros [= <- <-]].
      unfold bind, time_sleep. intros H. apply IH in H.
      eapply same_files_trans; [exact H0|]. eapply same_files_trans; [|exact H].
      apply same_files_emit.
    + by intros [= <- <-].
Qed.

Lemma request_loop_tie_order attempts : forall last ticker req w r w',
  request_loop attempts last ticker req w = (r, w') -> tie_order w' = tie_order w.
Proof.
  induction attempts as [|attempt rest IH]; intros last ticker req w r w'.
  - by intros [= <- <-].
  - simpl. unfold bind at 1. unfold requests_get at 1.
    destruct (network w (requests_made w) req) as [response|exc|exc].
    + destruct (_ || _).
      * destruct (_ <? _)%nat; [|by intros [= <- <-]].
        rewrite bind_lift. destruct (backoff attempt) as [s|e]; [|by intros [= <- <-]].
        unfold bind, time_sleep. intros H. by apply IH in H.
      * destruct (_ =? _); [by intros [= <- <-]|].
        unfold raise_for_status, bind, raise, ret. destruct (_ && _); by intros [= <- <-].
    + destruct (_ <? _)%nat; [|by intros [= <- <-]].
      rewrite bind_lift. destruct (backoff attempt) as [s|e]; [|by intros [= <- <-]].
      unfold bind, time_sleep. intros H. by apply IH in H.
    + by intros [= <- <-].
Qed.

Lemma frame_of_response_same_files ticker response w r w' :
  frame_of_response ticker response w = (r, w') -> same_files w w'.
Proof.
  unfold frame_of_response.
  destruct (json response) as [| |data]; try (intros [= <- <-]; apply same_files_refl).
  destruct (decide _) as [Hl|Hl]; [|intros [= <- <-]; apply same_files_refl].
  rewrite bind_lift. destruct (set_index _ _) as [df|err]; [|intros [= <- <-]; apply same_files_refl].
  rewrite bind_lift. destruct (getitems _ _) as [cols|err]; [|intros [= <- <-]; apply same_files_refl].
  rewrite bind_lift. destruct (enforce_dtypes _) as [df'|err]; [|intros [= <- <-]; apply same_files_refl].
  rewrite bind_sort_index. destruct (has_duplicates _).
  - unfold bind, logger_warning, ret. intros [= <- <-]. apply same_files_emit.
  - intros [= <- <-]. apply same_files_refl.
Qed.

Lemma fetch_ticker_same_files ticker start_date end_date api_key base_url w r w' :
  fetch_ticker_from_tiingo ticker start_date end_date api_key base_url w = (r, w') ->
  same_files w w'.
Proof.
  unfold fetch_ticker_from_tiingo. destruct (decide _).
  - intros [= <- <-]. apply same_files_refl.
  - apply bind_same_files.
    + intros r1 w1. apply request_loop_same_files.
    + intros response w1 r2 w2. apply frame_of_response_same_files.
Qed.

Lemma fetch_vix_same_files start_date end_date w r w' :
  fetch_vix start_date end_date w = (r, w') -> same_files w w'.
Proof.
  unfold fetch_vix. unfold bind at 1. unfold requests_get at 1.
  pose proof (same_files_emit (HttpGet (vix_request start_date end_date)) w) as H0.
  set (w0 := emit _ w) in *. clearbody w0.
  destruct (network w _ _) as [response|exc|exc]; try (by intros [= <- <-]).
  unfold bind at 1. unfold raise_for_status. destruct (_ && _); [by intros [= <- <-]|].
  unfold ret. rewrite bind_lift. destruct (read_csv _ _ _) as [t|e]; [|by intros [= <- <-]].
  rewrite bind_lift. destruct (set_index _ _) as [df|e]; [|by intros [= <- <-]].
  rewrite bind_lift. destruct (getitem _ _) as [s|e]; [|by intros [= <- <-]].
  rewrite bind_lift. destruct (dropna _ _) as [df1|e]; [|by intros [= <- <-]].
  rewrite bind_lift. unfold df_sort_index.
  destruct (enforce_float64 _ _) as [df2|e]; by intros [= <- <-].
Qed.

(** ** Cache precedence *)

Lemma load_ticker_hit ticker config w f :
  use_cache config = true ->
  files w !! ticker_cache_path ticker config = Some f ->
  load_ticker ticker config w = (read_ticker_artifact f, w).
Proof.
  intros Hc Hf. unfold load_ticker. rewrite Hc.
  fold (ticker_cache_path ticker config).
  rewrite (bind_ok _ _ _ _ _ (path_exists_file _ _ _ Hf)).
  unfold read_file, bind at 1. rewrite Hf.
  unfold read_ticker_artifact. rewrite bind_lift.
  destruct (read_csv _ _ _) as [t|e]; [|done]. simpl.
  rewrite bind_lift. by destruct (set_index _ _).
Qed.

Lemma load_vix_hit config w f :
  use_cache config = true ->
  files w !! vix_cache_path config = Some f ->
  load_vix config w = (read_vix_artifact f, w).
Proof.
  intros Hc Hf. unfold load_vix. rewrite Hc.
  fold (vix_cache_path config).
  rewrite (bind_ok _ _ _ _ _ (path_exists_file _ _ _ Hf)).
  unfold read_file, bind at 1. rewrite Hf.
  unfold read_vix_artifact. rewrite bind_lift.
  destruct (read_csv _ _ _) as [t|e]; [|done]. simpl.
  rewrite bind_lift. by destruct (set_index _ _).
Qed.

(** C1. With [use_cache] set and the artifact present, [load_ticker] and
    [load_vix] leave the world as it is (no request is sent, whatever the
    API key, empty or not) and return what the artifact holds, read and
    then passed through the dtype coercion only. *)
Theorem cache_hit_makes_no_request (config : DataConfig) (w : World) :
  use_cache config = true ->
  (forall ticker f,
     files w !! ticker_cache_path ticker config = Some f ->
     load_ticker ticker config w = (read_ticker_artifact f, w)) /\
  (forall f,
     files w !! vix_cache_path config = Some f ->
     load_vix config w = (read_vix_artifact f, w)).
Proof.
  intros Hc. split.
  - intros ticker f. by apply load_ticker_hit.
  - intros f. by apply load_vix_hit.
Qed.

(** The offline configuration of the tests, with its empty API key, reads
    both fixtures. *)
Lemma cache_hit_makes_no_request_witness :
  use_cache offline_config = true /\
  load_ticker "mgk" offline_config offline_world = (Ok mgk_frame, offline_world) /\
  load_vix offline_config offline_world = (Ok vix_frame, offline_world).
Proof.
  split; [reflexivity|].
  destruct (cache_hit_makes_no_request offline_config offline_world eq_refl) as [Ht Hv].
  split.
  - apply (Ht "mgk" (FileCsv mgk_fixture)). vm_compute. reflexivity.
  - apply (Hv (FileCsv vix_fixture)). vm_compute. reflexivity.
Defined.

(** ** Retry and backoff *)

Lemma requests_made_emit e w :
  requests_made (emit e w) = (requests_made w + (if is_HttpGet e then 1 else 0))%nat.
Proof.
  unfold requests_made, emit. simpl. rewrite filter_app, length_app.
  f_equal. destruct e; reflexivity.
Qed.

Lemma retryable_status r :
  retryable (Responded r) ->
  (status_code r =? 429) || (500 <=? status_code r) = true.
Proof. simpl. intros [H|H]; apply orb_true_iff; [left|right]; lia. Qed.

(** One retried attempt. *)
Lemma request_loop_retry attempt rest last ticker req w s :
  _BACKOFF_SECONDS !! attempt = Some s ->
  retryable (network w (requests_made w) req) ->
  exists last',
    request_loop (attempt :: rest) last ticker req w =
    request_loop rest last' ticker req (emit (Sleep s) (emit (HttpGet req) w)).
Proof.
  intros Hs Hr.
  assert ((attempt <? _MAX_RETRIES)%nat = true) as Hlt.
  { apply Nat.ltb_lt. apply lookup_lt_Some in Hs. simpl in Hs. unfold _MAX_RETRIES. lia. }
  simpl. unfold bind at 1. unfold requests_get at 1.
  destruct (network w (requests_made w) req) as [r|exc|exc] eqn:E; [| |done].
  - exists last. rewrite (retryable_status _ Hr), Hlt.
    rewrite bind_lift. unfold backoff. rewrite Hs. reflexivity.
  - exists (Some exc). rewrite Hlt.
    rewrite bind_lift. unfold backoff. rewrite Hs. reflexivity.
Qed.

(** [k] retried attempts in a row. *)
Lemma request_loop_retries k : forall a n last ticker req w,
  (a + k <= 3)%nat ->
  (forall i, (i < k)%nat -> retryable (network w (requests_made w + i) req)) ->
  exists last' w',
    request_loop (seq a (k + n)) last ticker req w =
      request_loop (seq (a + k) n) last' ticker req w' /\
    network w' = network w /\
    requests_made w' = (requests_made w + k)%nat /\
    trace w' = trace w ++ concat ((fun s => [HttpGet req; Sleep s]) <$> take k (drop a _BACKOFF_SECONDS)).
Proof.
  induction k as [|k IH]; intros a n last ticker req w Ha Hr.
  - exists last, w. rewrite Nat.add_0_r, take_0. simpl. rewrite app_nil_r.
    repeat split; auto with lia.
  - destruct (_BACKOFF_SECONDS !! a) as [s|] eqn:Hs.
    2:{ apply lookup_ge_None in Hs. simpl in Hs. lia. }
    destruct (request_loop_retry a (seq (S a) (k + n)) last ticker req w s Hs) as [last1 H1].
    { specialize (Hr 0%nat). rewrite Nat.add_0_r in Hr. apply Hr. lia. }
    set (w1 := emit (Sleep s) (emit (HttpGet req) w)) in *.
    assert (requests_made w1 = S (requests_made w)) as Hn1.
    { unfold w1. rewrite !requests_made_emit. simpl. lia. }
    destruct (IH (S a) n last1 ticker req w1) as (last' & w' & H2 & Hnet & Hn & Ht).
    { lia. }
    { intros i Hi. rewrite Hn1. replace (S (requests_made w) + i)%nat with (requests_made w + S i)%nat by lia.
      apply (Hr (S i)). lia. }
    exists last', w'. split; [|split; [|split]].
    + change (seq a (S k + n)) with (a :: seq (S a) (k + n)). rewrite H1, H2.
      by replace (a + S k)%nat with (S a + k)%nat by lia.
    + by rewrite Hnet.
    + rewrite Hn, Hn1. lia.
    + rewrite Ht. unfold w1. simpl trace. rewrite <- !app_assoc. f_equal.
      rewrite (drop_S _ _ _ Hs). simpl. done.
Qed.

(** The attempt that ends the loop with a response. *)
Lemma request_loop_break attempt rest last ticker req w response :
  network w (requests_made w) req = Responded response ->
  status_code response < 400 ->
  request_loop (attempt :: rest) last ticker req w = (Ok response, emit (HttpGet req) w).
Proof.
  intros Hn Hs. simpl. unfold bind at 1. unfold requests_get at 1. rewrite Hn.
  replace ((status_code response =? 429) || (500 <=? status_code response)) with false
    by (symmetry; apply orb_false_iff; lia).
  replace (status_code response =? 404) with false by lia.
  unfold raise_for_status.
  replace ((400 <=? status_code response) && (status_code response <? 600)) with false
    by (symmetry; apply andb_false_iff; lia).
  reflexivity.
Qed.

(** The last attempt, when it fails like the ones before. *)
Lemma request_loop_exhausted rest last ticker req w :
  retryable (network w (requests_made w) req) ->
  exists e,
    unavailable ticker (network w (requests_made w) req) = Some e /\
    request_loop (3%nat :: rest) last ticker req w = (Raise e, emit (HttpGet req) w).
Proof.
  intros Hr. simpl. unfold bind at 1. unfold requests_get at 1.
  destruct (network w (requests_made w) req) as [r|exc|exc] eqn:E; [| |done].
  - rewrite (retryable_status _ Hr). simpl. eauto.
  - simpl. eauto.
Qed.

(** C2. In [fetch_ticker_from_tiingo], an attempt that meets HTTP 429, a
    5xx or a connection failure is retried, up to three times, the sleeps
    between attempts being 1, 2 and 4 seconds: after [k <= 3] such
    attempts the fetch has made [k] requests, slept the first [k]
    backoffs, and goes on with attempt [k]; if that attempt gets a good
    response, the fetch goes on with this response, after [k + 1]
    requests; after four such attempts in a row it raises
    [ConnectionError], whose message has the number of attempts and the
    last status, or whose cause is the last connection exception. *)
Theorem fetch_retries_with_backoff ticker start_date end_date api_key base_url w :
  api_key <> "" ->
  let req := tiingo_request ticker start_date end_date api_key base_url in
  let outcome (i : nat) := network w (requests_made w + i)%nat req in
  let fetch := fetch_ticker_from_tiingo ticker start_date end_date api_key base_url in
  (forall k,
     (k <= 3)%nat ->
     (forall i, (i < k)%nat -> retryable (outcome i)) ->
     exists last w',
       trace w' = trace w ++ retries req k /\
       network w' = network w /\
       requests_made w' = (requests_made w + k)%nat /\
       fetch w = bind (request_loop (seq k (4 - k)) last ticker req)
                      (frame_of_response ticker) w') /\
  (forall k response,
     (k <= 3)%nat ->
     (forall i, (i < k)%nat -> retryable (outcome i)) ->
     outcome k = Responded response ->
     status_code response < 400 ->
     exists w',
       trace w' = trace w ++ retries req k ++ [HttpGet req] /\
       fetch w = frame_of_response ticker response w') /\
  ((forall i, (i < 4)%nat -> retryable (outcome i)) ->
   exists e w',
     unavailable ticker (outcome 3%nat) = Some e /\
     trace w' = trace w ++ retries req 3 ++ [HttpGet req] /\
     fetch w = (Raise e, w')).
Proof.
  intros Hkey req outcome fetch.
  assert (fetch w = bind (request_loop (seq 0 4) None ticker req)
                         (frame_of_response ticker) w) as Hfetch.
  { unfold fetch, fetch_ticker_from_tiingo. by rewrite decide_False. }
  split; [|split].
  - intros k Hk Hr.
    destruct (request_loop_retries k 0 (4 - k) None ticker req w)
      as (last' & w1 & H1 & Hnet & Hn & Ht); [lia|exact Hr|].
    replace (k + (4 - k))%nat with 4%nat in H1 by lia.
    exists last', w1. repeat split; try done.
    rewrite Hfetch. unfold bind. by rewrite H1.
  - intros k response Hk Hr Ho Hs.
    destruct (request_loop_retries k 0 (4 - k) None ticker req w)
      as (last' & w1 & H1 & Hnet & Hn & Ht); [lia|exact Hr|].
    replace (k + (4 - k))%nat with 4%nat in H1 by lia.
    destruct (seq (0 + k) (4 - k)) as [|a rest] eqn:Eseq.
    { apply (f_equal length) in Eseq. rewrite length_seq in Eseq. simpl in Eseq. lia. }
    exists (emit (HttpGet req) w1). split.
    + simpl. rewrite Ht, <- app_assoc. reflexivity.
    + rewrite Hfetch. apply bind_ok. rewrite H1. apply request_loop_break; [|done].
      rewrite Hnet, Hn. exact Ho.
  - intros Hr.
    destruct (request_loop_retries 3 0 1 None ticker req w)
      as (last' & w1 & H1 & Hnet & Hn & Ht); [lia|intros i Hi; apply Hr; lia|].
    destruct (request_loop_exhausted [] last' ticker req w1) as (e & He & H2).
    { rewrite Hnet, Hn. apply Hr. lia. }
    exists e, (emit (HttpGet req) w1). split; [|split].
    + rewrite Hnet, Hn in He. exact He.
    + simpl. rewrite Ht, <- app_assoc. reflexivity.
    + rewrite Hfetch. apply bind_raise. change (3 + 1)%nat with 4%nat in H1.
      rewrite H1. exact H2.
Qed.

(** A provider that answers 503, 503, 200, and one that stays down. *)
Lemma fetch_retries_with_backoff_witness :
  "TEST_KEY" <> "" /\
  (exists w',
     trace w' = [HttpGet mgk_request; Sleep 1; HttpGet mgk_request; Sleep 2;
                 HttpGet mgk_request] /\
     fetch_ticker_from_tiingo "MGK" "2024-01-02" "2024-01-08" "TEST_KEY"
       "https://api.tiingo.com/tiingo/daily" (world_of flaky ∅) =
     frame_of_response "MGK" mgk_response w') /\
  (exists w',
     trace w' = [HttpGet mgk_request; Sleep 1; HttpGet mgk_request; Sleep 2;
                 HttpGet mgk_request; Sleep 4; HttpGet mgk_request] /\
     fetch_ticker_from_tiingo "MGK" "2024-01-02" "2024-01-08" "TEST_KEY"
       "https://api.tiingo.com/tiingo/daily" (world_of down ∅) =
     (Raise (ConnectionError "HTTP 500 after 4 attempts for MGK" None), w')).
Proof.
  assert ("TEST_KEY" <> "") as Hkey by discriminate.
  split; [exact Hkey|]. split.
  - destruct (fetch_retries_with_backoff "MGK" "2024-01-02" "2024-01-08" "TEST_KEY"
                "https://api.tiingo.com/tiingo/daily" (world_of flaky ∅) Hkey) as (_ & H & _).
    destruct (H 2%nat mgk_response) as (w' & Ht & Hf).
    + lia.
    + intros [|[|i]] Hi; simpl; lia.
    + reflexivity.
    + simpl. lia.
    + exists w'. split; [exact Ht|exact Hf].
  - destruct (fetch_retries_with_backoff "MGK" "2024-01-02" "2024-01-08" "TEST_KEY"
                "https://api.tiingo.com/tiingo/daily" (world_of down ∅) Hkey) as (_ & _ & H).
    destruct H as (e & w' & He & Ht & Hf).
    + intros [|[|[|[|i]]]] Hi; simpl; lia || exact I.
    + exists w'. split; [exact Ht|].
      rewrite Hf. f_equal. vm_compute in He. by injection He as <-.
Defined.

(** ** Write-through *)

Lemma path_exists_miss path w :
  files w !! path = None -> path ∉ dirs w -> path_exists path w = (Ok false, w).
Proof.
  intros Hf Hd. unfold path_exists. f_equal. f_equal.
  apply bool_decide_eq_false. rewrite Hf. intros [[? [=]]|?]. done.
Qed.

(** The miss branch, for any fetch that leaves the files alone. *)
Lemma write_through (fetch : M DataFrame) dir path w df w' :
  (forall r w1, fetch w = (r, w1) -> same_files w w1) ->
  bind fetch (fun df => os_makedirs dir ;;; to_csv path df ;;; ret df) w = (Ok df, w') ->
  let truncated := <[path := FileEmpty]> (files w) in
  let written := <[path := FileCsv (csv_of_frame df)]> truncated in
  files w' = written /\
  snapshots w' = snapshots w ++ [truncated; written] /\
  network w' = network w /\
  exists w1, fetch w = (Ok df, w1) /\
    trace w' = trace w1 ++ [MakeDirs dir; OpenForWriting path; WriteAndClose path].
Proof.
  intros Hsame H. apply bind_ok_inv in H as (df1 & w1 & Hf & H).
  destruct (Hsame _ _ Hf) as (Hnet & Hfiles & Hdirs & Hsnap).
  unfold bind at 1 in H. unfold os_makedirs in H.
  destruct (files w1 !! dir); [done|].
  unfold bind, to_csv, ret in H. injection H as <- <-. simpl.
  rewrite Hfiles, Hsnap, Hnet, <- !app_assoc. simpl. eauto 10.
Qed.

Lemma load_ticker_miss ticker config w :
  cache_miss (ticker_cache_path ticker config) config w ->
  load_ticker ticker config w =
  bind (fetch_ticker_from_tiingo ticker (start_date config) (end_date config)
          (tiingo_api_key config) (tiingo_base_url config))
       (fun df => os_makedirs (cache_dir config) ;;;
                  to_csv (ticker_cache_path ticker config) df ;;; ret df) w.
Proof.
  intros [Hc|[Hf Hd]]; unfold load_ticker; fold (ticker_cache_path ticker config).
  - by rewrite Hc.
  - destruct (use_cache config); [|done].
    by rewrite (bind_ok _ _ _ _ _ (path_exists_miss _ _ Hf Hd)).
Qed.

Lemma load_vix_miss config w :
  cache_miss (vix_cache_path config) config w ->
  load_vix config w =
  bind (fetch_vix (start_date config) (end_date config))
       (fun df => os_makedirs (cache_dir config) ;;;
                  to_csv (vix_cache_path config) df ;;; ret df) w.
Proof.
  intros [Hc|[Hf Hd]]; unfold load_vix; fold (vix_cache_path config).
  - by rewrite Hc.
  - destruct (use_cache config); [|done].
    by rewrite (bind_ok _ _ _ _ _ (path_exists_miss _ _ Hf Hd)).
Qed.

(** C3, as stated, fails: during a successful cache-miss [load_ticker] the
    artifact goes through an emptied state, which is neither what was
    there before nor the text of the series. *)
Lemma write_is_not_atomic :
  ~ (forall ticker config w df w',
       cache_miss (ticker_cache_path ticker config) config w ->
       load_ticker ticker config w = (Ok df, w') ->
       written_atomically (ticker_cache_path ticker config) w df w').
Proof.
  intros H.
  specialize (H "MGK" test_config (world_of healthy ∅) mgk_frame
                (load_ticker "MGK" test_config (world_of healthy ∅)).2).
  assert (cache_miss (ticker_cache_path "MGK" test_config) test_config (world_of healthy ∅)) as Hm.
  { right. split; [reflexivity|]. apply not_elem_of_empty. }
  specialize (H Hm). clear Hm.
  assert (load_ticker "MGK" test_config (world_of healthy ∅) =
          (Ok mgk_frame, (load_ticker "MGK" test_config (world_of healthy ∅)).2)) as Hl
    by (vm_compute; reflexivity).
  specialize (H Hl (<["data/cache/MGK.csv" := FileEmpty]> ∅)). clear Hl.
  destruct H as [H|H].
  - vm_compute. constructor.
  - vm_compute in H. discriminate.
  - vm_compute in H. discriminate.
Qed.

(** C3, amended. A cache-miss [load_ticker] or [load_vix] that returns has
    written the series at the artifact location before returning, in
    place: the artifact is opened for writing, which empties it, then
    filled, with no temporary file and no rename; once the call has
    returned, a load of the same identifier with [use_cache] set is a
    cache hit, which reads that artifact and sends no request. *)
Theorem cache_miss_writes_in_place :
  (forall ticker config w df w',
     cache_miss (ticker_cache_path ticker config) config w ->
     load_ticker ticker config w = (Ok df, w') ->
     let path := ticker_cache_path ticker config in
     let truncated := <[path := FileEmpty]> (files w) in
     let written := <[path := FileCsv (csv_of_frame df)]> truncated in
     files w' !! path = Some (FileCsv (csv_of_frame df)) /\
     snapshots w' = snapshots w ++ [truncated; written] /\
     (exists tr, trace w' =
        tr ++ [MakeDirs (cache_dir config); OpenForWriting path; WriteAndClose path]) /\
     forall config2,
       cache_dir config2 = cache_dir config ->
       use_cache config2 = true ->
       load_ticker ticker config2 w' = (read_ticker_artifact (FileCsv (csv_of_frame df)), w')) /\
  (forall config w df w',
     cache_miss (vix_cache_path config) config w ->
     load_vix config w = (Ok df, w') ->
     let path := vix_cache_path config in
     let truncated := <[path := FileEmpty]> (files w) in
     let written := <[path := FileCsv (csv_of_frame df)]> truncated in
     files w' !! path = Some (FileCsv (csv_of_frame df)) /\
     snapshots w' = snapshots w ++ [truncated; written] /\
     (exists tr, trace w' =
        tr ++ [MakeDirs (cache_dir config); OpenForWriting path; WriteAndClose path]) /\
     forall config2,
       cache_dir config2 = cache_dir config ->
       use_cache config2 = true ->
       load_vix config2 w' = (read_vix_artifact (FileCsv (csv_of_frame df)), w')).
Proof.
  split.
  - intros ticker config w df w' Hmiss Hload path truncated written.
    rewrite (load_ticker_miss _ _ _ Hmiss) in Hload.
    apply write_through in Hload as (Hfiles & Hsnap & _ & w1 & _ & Htr);
      [|intros r w1; apply fetch_ticker_same_files].
    assert (files w' !! path = Some (FileCsv (csv_of_frame df))) as Hlook.
    { rewrite Hfiles. apply lookup_insert_eq. }
    repeat split; [done|done|eauto|].
    intros config2 Hdir Hc. apply load_ticker_hit; [done|].
    unfold ticker_cache_path. rewrite Hdir. exact Hlook.
  - intros config w df w' Hmiss Hload path truncated written.
    rewrite (load_vix_miss _ _ Hmiss) in Hload.
    apply write_through in Hload as (Hfiles & Hsnap & _ & w1 & _ & Htr);
      [|intros r w1; apply fetch_vix_same_files].
    assert (files w' !! path = Some (FileCsv (csv_of_frame df))) as Hlook.
    { rewrite Hfiles. apply lookup_insert_eq. }
    repeat split; [done|done|eauto|].
    intros config2 Hdir Hc. apply load_vix_hit; [done|].
    unfold vix_cache_path. rewrite Hdir. exact Hlook.
Qed.

(** A first load of MGK and of the VIX, then a second one with the empty
    API key. *)
Lemma cache_miss_writes_in_place_witness :
  cache_miss (ticker_cache_path "MGK" test_config) test_config (world_of healthy ∅) /\
  cache_miss (vix_cache_path test_config) test_config (world_of (fred (FileCsv vix_feed)) ∅) /\
  (exists w',
     load_ticker "MGK" test_config (world_of healthy ∅) = (Ok mgk_frame, w') /\
     files w' !! "data/cache/MGK.csv" = Some (FileCsv mgk_fixture) /\
     load_ticker "MGK" offline_config w' = (Ok mgk_frame, w')) /\
  (exists w',
     load_vix test_config (world_of (fred (FileCsv vix_feed)) ∅) = (Ok vix_filled_frame, w') /\
     load_vix offline_config w' = (Ok vix_filled_frame, w')).
Proof.
  assert (cache_miss (ticker_cache_path "MGK" test_config) test_config (world_of healthy ∅))
    as Hm1 by (right; split; [reflexivity|apply not_elem_of_empty]).
  assert (cache_miss (vix_cache_path test_config) test_config
            (world_of (fred (FileCsv vix_feed)) ∅))
    as Hm2 by (right; split; [reflexivity|apply not_elem_of_empty]).
  destruct cache_miss_writes_in_place as [Ht Hv].
  split; [exact Hm1|]. split; [exact Hm2|]. split.
  - eexists. split; [vm_compute; reflexivity|].
    destruct (Ht "MGK" test_config (world_of healthy ∅) mgk_frame _ Hm1
                ltac:(vm_compute; reflexivity)) as (Hf & _ & _ & Hhit).
    split; [exact Hf|]. exact (Hhit offline_config eq_refl eq_refl).
  - eexists. split; [vm_compute; reflexivity|].
    destruct (Hv test_config (world_of (fred (FileCsv vix_feed)) ∅) vix_filled_frame _ Hm2
                ltac:(vm_compute; reflexivity)) as (_ & _ & _ & Hhit).
    exact (Hhit offline_config eq_refl eq_refl).
Defined.

(** ** Sorting and de-duplication *)

Lemma insert_key_perm x l : insert_key x l ≡ₚ x :: l.
Proof.
  induction l as [|y r IH]; simpl; [done|].
  destruct (x.1 <=? y.1); [done|]. rewrite IH. apply Permutation_swap.
Qed.

Lemma sort_keys_perm l : sort_keys l ≡ₚ l.
Proof.
  induction l as [|x r IH]; simpl; [done|].
  rewrite insert_key_perm. by rewrite IH.
Qed.

Lemma insert_key_hdrel a x l :
  key_le a x -> HdRel key_le a l -> HdRel key_le a (insert_key x l).
Proof.
  intros Hax Hal. destruct l as [|y r]; simpl; [by constructor|].
  destruct (x.1 <=? y.1); [by constructor|].
  inversion Hal; subst. by constructor.
Qed.

Lemma insert_key_sorted x l : Sorted key_le l -> Sorted key_le (insert_key x l).
Proof.
  induction l as [|y r IH]; simpl; intros Hs.
  - repeat constructor.
  - destruct (x.1 <=? y.1) eqn:E.
    + constructor; [done|]. constructor. unfold key_le. lia.
    + inversion Hs; subst. constructor; [by apply IH|].
      apply insert_key_hdrel; [|done]. unfold key_le. lia.
Qed.

Lemma sort_keys_sorted l : Sorted key_le (sort_keys l).
Proof.
  induction l as [|x r IH]; simpl; [constructor|]. by apply insert_key_sorted.
Qed.

Lemma Sorted_keys (ps : list (Timestamp * nat)) :
  Sorted key_le ps -> Sorted Z.le (ps.*1).
Proof.
  induction 1 as [|p ps Hs IH Hhd]; simpl; constructor; [done|].
  destruct Hhd; simpl; by constructor.
Qed.

Lemma reindex_positions {A} (xs : list A) (ps : list (A * nat)) :
  (forall p, p ∈ ps -> xs !! p.2 = Some p.1) ->
  reindex (ps.*2) xs = ps.*1.
Proof.
  unfold reindex. induction ps as [|p ps IH]; intros H; simpl; [done|].
  rewrite (H p) by constructor. simpl. f_equal. apply IH.
  intros q Hq. apply H. by constructor.
Qed.

Lemma elem_of_zip_seq {A} (xs : list A) a (p : A * nat) :
  p ∈ zip xs (seq a (length xs)) -> (a <= p.2)%nat /\ xs !! (p.2 - a)%nat = Some p.1.
Proof.
  revert a. induction xs as [|x xs IH]; intros a; simpl.
  - by intros ?%elem_of_nil.
  - intros [->|H]%elem_of_cons; simpl.
    + split; [lia|]. by rewrite Nat.sub_diag.
    + apply IH in H as [Hle Hl]. split; [lia|].
      replace (p.2 - a)%nat with (S (p.2 - S a)) by lia. done.
Qed.

Lemma is_monotonic_increasing_sorted ks :
  is_monotonic_increasing ks = true <-> Sorted Z.le ks.
Proof.
  induction ks as [|k r IH]; [split; [intros _; constructor|done]|].
  destruct r as [|k' r'].
  - split; [repeat constructor|done].
  - change (is_monotonic_increasing (k :: k' :: r'))
      with ((k <=? k') && is_monotonic_increasing (k' :: r')).
    rewrite andb_true_iff, IH, Z.leb_le. split.
    + intros [Hk Hs]. constructor; [done|by constructor].
    + intros Hs. inversion Hs as [|? ? Hs' Hhd]; subst.
      inversion Hhd; subst. done.
Qed.

Lemma reindex_seq {A} (xs : list A) a n :
  (a + n = length xs)%nat -> reindex (seq a n) xs = drop a xs.
Proof.
  unfold reindex. revert a. induction n as [|n IH]; intros a Ha; simpl.
  - by rewrite drop_ge by lia.
  - destruct (xs !! a) as [x|] eqn:E.
    + simpl. rewrite IH by lia. symmetry. by apply drop_S.
    + apply lookup_ge_None in E. lia.
Qed.

Lemma reindex_all {A} (xs : list A) : reindex (seq 0 (length xs)) xs = xs.
Proof. by rewrite reindex_seq. Qed.

Lemma zip_reindex_lookup {A} (xs : list A) (p : list nat) :
  Forall (fun i => (i < length xs)%nat) p ->
  forall q, q ∈ zip (reindex p xs) p -> xs !! q.2 = Some q.1.
Proof.
  unfold reindex. induction 1 as [|i p Hi Hp IH]; intros q; simpl; [by intros ?%elem_of_nil|].
  destruct (xs !! i) as [x|] eqn:E; simpl.
  - intros [->|H]%elem_of_cons; [done|]. by apply IH.
  - apply lookup_ge_None in E. lia.
Qed.

Lemma reindex_length {A} (xs : list A) (p : list nat) :
  Forall (fun i => (i < length xs)%nat) p -> length (reindex p xs) = length p.
Proof.
  unfold reindex. induction 1 as [|i p Hi Hp IH]; simpl; [done|].
  destruct (xs !! i) as [x|] eqn:E; simpl; [by f_equal|].
  apply lookup_ge_None in E. lia.
Qed.

(** Whatever the ranks, [by_rank] lists every position once. *)
Lemma by_rank_positions ties ks : by_rank ties ks ≡ₚ seq 0 (length ks).
Proof.
  unfold by_rank. rewrite sort_keys_perm. rewrite snd_zip; [done|].
  by rewrite length_fmap.
Qed.

Lemma by_rank_in_range ties ks : Forall (fun i => (i < length ks)%nat) (by_rank ties ks).
Proof.
  rewrite by_rank_positions. apply Forall_forall. intros i Hi%elem_of_seq. lia.
Qed.

Lemma reindex_argsort ties (ks : list Timestamp) :
  reindex (argsort ties ks) ks
    = (sort_keys (zip (reindex (by_rank ties ks) ks) (by_rank ties ks))).*1.
Proof.
  unfold argsort. apply reindex_positions. intros p Hp.
  rewrite sort_keys_perm in Hp. apply zip_reindex_lookup in Hp; [done|].
  apply by_rank_in_range.
Qed.

Lemma reindex_argsort_sorted ties ks : Sorted Z.le (reindex (argsort ties ks) ks).
Proof. rewrite reindex_argsort. apply Sorted_keys, sort_keys_sorted. Qed.

Lemma reindex_argsort_perm ties ks : reindex (argsort ties ks) ks ≡ₚ ks.
Proof.
  rewrite reindex_argsort, sort_keys_perm.
  rewrite fst_zip by (rewrite reindex_length; [done|apply by_rank_in_range]).
  unfold reindex. rewrite by_rank_positions. apply reflexive_eq, reindex_all.
Qed.

Lemma sort_index_sorted ties df : Sorted Z.le (index (sort_index ties df)).
Proof.
  unfold sort_index. destruct (is_monotonic_increasing _) eqn:E.
  - by apply is_monotonic_increasing_sorted.
  - apply reindex_argsort_sorted.
Qed.

Lemma sort_index_perm ties df : index (sort_index ties df) ≡ₚ index df.
Proof.
  unfold sort_index. destruct (is_monotonic_increasing _); [done|].
  apply reindex_argsort_perm.
Qed.

(** Deduplication *)

Lemma dedupe_strictly_sorted ks : forall seen,
  Sorted Z.le ks ->
  (forall s k, s ∈ seen -> k ∈ ks -> s <= k) ->
  let out := select_rows (negb <$> duplicated_from seen ks) ks in
  StronglySorted Z.lt out /\ (forall k, k ∈ out -> k ∈ ks /\ k ∉ seen).
Proof.
  induction ks as [|k r IH]; intros seen Hs Hseen; simpl.
  - split; [constructor|]. by intros ? ?%elem_of_nil.
  - apply Sorted_StronglySorted in Hs as Hss; [|intros ???; lia].
    inversion Hss as [|? ? Hr Hall]; subst.
    rewrite Forall_forall in Hall.
    destruct (IH (k :: seen)) as [IH1 IH2].
    { by inversion Hs. }
    { intros s x [->|Hin]%elem_of_cons Hx; [by apply Hall|].
      apply Hseen; [done|]. by right. }
    case_bool_decide as Hk; simpl.
    + split; [done|]. intros x Hx. apply IH2 in Hx as [Hx1 Hx2].
      split; [by right|]. intros ?. apply Hx2. by right.
    + split.
      * constructor; [done|]. apply Forall_forall. intros x Hx.
        apply IH2 in Hx as [Hx1 Hx2]. specialize (Hall x Hx1).
        assert (x <> k) by (intros ->; apply Hx2; by left). lia.
      * intros x [->|Hx]%elem_of_cons; [split; [by left|done]|].
        apply IH2 in Hx as [Hx1 Hx2]. split; [by right|].
        intros ?. apply Hx2. by right.
Qed.

Lemma duplicated_from_lookup ks : forall seen i k,
  ks !! i = Some k ->
  exists b, duplicated_from seen ks !! i = Some b /\
    (b = true <-> k ∈ seen \/ exists j, (j < i)%nat /\ ks !! j = Some k).
Proof.
  induction ks as [|x r IH]; intros seen i k; [done|].
  destruct i as [|i]; simpl.
  - intros [= ->]. eexists. split; [done|]. rewrite bool_decide_eq_true.
    split; [by left|]. intros [?|(j&?&?)]; [done|lia].
  - intros Hk. destruct (IH (x :: seen) _ _ Hk) as (b & Hb & Hiff).
    exists b. split; [done|]. rewrite Hiff. split.
    + intros [[->|?]%elem_of_cons|(j&?&?)].
      * right. exists 0%nat. split; [lia|done].
      * by left.
      * right. exists (S j). split; [lia|done].
    + intros [?|(j&Hj&Hl)].
      * left. by right.
      * destruct j as [|j]; simpl in Hl.
        -- injection Hl as ->. left. by left.
        -- right. exists j. split; [lia|done].
Qed.

Lemma has_duplicates_from_false ks : forall seen,
  any (duplicated_from seen ks) = false <->
  NoDup ks /\ (forall k, k ∈ ks -> k ∉ seen).
Proof.
  induction ks as [|k r IH]; intros seen; simpl.
  - split; [|done]. intros _. split; [constructor|]. by intros ? ?%elem_of_nil.
  - unfold any in *. simpl. rewrite orb_false_iff, IH. split.
    + intros [Hk%bool_decide_eq_false [Hnd Hr]]. split.
      * constructor; [|done]. intros Hin. apply (Hr _ Hin). by left.
      * intros x [->|Hx]%elem_of_cons; [done|]. intros ?. apply (Hr _ Hx). by right.
    + intros [Hnd Hr]. inversion Hnd; subst. split; [|split; [done|]].
      * apply bool_decide_eq_false. apply Hr. by left.
      * intros x Hx [->|?]%elem_of_cons; [done|]. apply (Hr x); [by right|done].
Qed.

Lemma has_duplicates_false ks : has_duplicates ks = false <-> NoDup ks.
Proof.
  unfold has_duplicates, duplicated. rewrite has_duplicates_from_false.
  split; [by intros [? _]|]. intros ?. split; [done|]. intros ? _ ?%elem_of_nil. done.
Qed.

Lemma sorted_nodup_strict ks : Sorted Z.le ks -> NoDup ks -> StronglySorted Z.lt ks.
Proof.
  intros Hs Hnd. apply Sorted_StronglySorted in Hs; [|intros ???; lia].
  induction Hs as [|k r Hr IH Hall]; [constructor|].
  inversion Hnd; subst. constructor; [by apply IH|].
  rewrite Forall_forall in *. intros x Hx. specialize (Hall x Hx).
  assert (x <> k) by (by intros ->). lia.
Qed.

(** ** Columns *)

Lemma getitem_setitem_eq k v cols :
  (exists s, getitem k cols = Ok s) -> getitem k (setitem k v cols) = Ok v.
Proof.
  induction cols as [|[k' s'] r IH]; simpl; [by intros [? ?]|].
  destruct (decide (k = k')) as [->|Hne]; simpl.
  - intros _. by rewrite decide_True.
  - intros H. rewrite decide_False by done. by apply IH.
Qed.

Lemma getitem_setitem_ne k k' v cols :
  k <> k' -> getitem k' (setitem k v cols) = getitem k' cols.
Proof.
  intros Hne. induction cols as [|[k0 s0] r IH]; simpl.
  - by rewrite decide_False by done.
  - destruct (decide (k = k0)) as [->|Hne0]; simpl.
    + by rewrite !decide_False by done.
    + destruct (decide (k' = k0)); [done|]. apply IH.
Qed.

Lemma getitem_frame_rows f k df :
  getitem k (columns (frame_rows f df)) =
  match getitem k (columns df) with
  | Ok s => Ok (series_rows f s)
  | Raise e => Raise e
  end.
Proof.
  unfold frame_rows. simpl. induction (columns df) as [|[k' s'] r IH]; simpl; [done|].
  destruct (decide (k = k')); [done|]. apply IH.
Qed.

Lemma dtype_of_series_rows f s : dtype_of (series_rows f s) = dtype_of s.
Proof. by destruct s. Qed.

Lemma astype_float64_dtype s s' : astype_float64 s = Ok s' -> dtype_of s' = float64_.
Proof.
  destruct s; simpl; try by intros [= <-].
  destruct (forallb _ _); [by intros [= <-]|done].
Qed.

Lemma astype_int64_dtype s s' : astype_int64 s = Ok s' -> dtype_of s' = int64.
Proof.
  destruct s as [xs|xs|xs]; simpl; try by intros [= <-].
  - destruct (forallb _ _); [by intros [= <-]|done].
  - destruct xs; [by intros [= <-]|done].
Qed.

Lemma astype_float64_isna s s' : astype_float64 s = Ok s' -> isna s' = isna s.
Proof.
  destruct s as [xs|xs|xs]; simpl.
  - intros [= <-]. simpl. rewrite <- list_fmap_compose.
    apply list_fmap_ext. intros i z _. apply float_of_int_not_nan.
  - by intros [= <-].
  - destruct (forallb is_None xs) eqn:E; [|done]. intros [= <-]. simpl.
    rewrite <- list_fmap_compose. apply list_fmap_ext. intros i o Ho. simpl.
    rewrite forallb_forall in E. symmetry. apply E.
    apply list_elem_of_In, list_elem_of_lookup. eauto.
Qed.


Lemma any_none {A} (xs : list A) : any ((fun _ => false) <$> xs) = false.
Proof. unfold any. by induction xs. Qed.

(** The coerced volume column has a missing value exactly when the column
    it comes from has one. *)
Lemma coerced_volume_isna s s' :
  (if any (isna s) then astype_float64 s else astype_int64 s) = Ok s' ->
  any (isna s') = any (isna s).
Proof.
  destruct (any (isna s)) eqn:E.
  - intros H. by rewrite (astype_float64_isna _ _ H).
  - destruct s as [xs|xs|xs]; simpl.
    + intros [= <-]. simpl. apply any_none.
    + destruct (forallb is_finite xs); [|done]. intros [= <-]. simpl. apply any_none.
    + destruct xs; [|done]. by intros [= <-].
Qed.

Lemma enforce_float64_ok k df df' :
  enforce_float64 k df = Ok df' ->
  exists s s',
    getitem k (columns df) = Ok s /\ astype_float64 s = Ok s' /\
    df' = {| index_name := index_name df; index := index df;
             columns := setitem k s' (columns df) |}.
Proof.
  unfold enforce_float64. destruct (getitem k _) as [s|e]; [|done].
  destruct (astype_float64 s) as [s'|e] eqn:E; [|done].
  intros [= <-]. eauto.
Qed.

Lemma enforce_int64_unless_nan_ok k df df' :
  enforce_int64_unless_nan k df = Ok df' ->
  exists s s',
    getitem k (columns df) = Ok s /\
    (if any (isna s) then astype_float64 s else astype_int64 s) = Ok s' /\
    df' = {| index_name := index_name df; index := index df;
             columns := setitem k s' (columns df) |}.
Proof.
  unfold enforce_int64_unless_nan. destruct (getitem k _) as [s|e]; [|done].
  destruct (if any (isna s) then _ else _) as [s'|e] eqn:E; [|done].
  intros [= <-]. eauto.
Qed.

(** What the three coercions leave: the index as it was, the three
    columns cast, the other columns as they were. *)
Lemma enforce_dtypes_ok df df' :
  enforce_dtypes df = Ok df' ->
  exists o c v o' c' v',
    getitem "adjOpen" (columns df) = Ok o /\
    getitem "adjClose" (columns df) = Ok c /\
    getitem "adjVolume" (columns df) = Ok v /\
    astype_float64 o = Ok o' /\
    astype_float64 c = Ok c' /\
    (if any (isna v) then astype_float64 v else astype_int64 v) = Ok v' /\
    df' = {| index_name := index_name df; index := index df;
             columns := setitem "adjVolume" v'
                          (setitem "adjClose" c' (setitem "adjOpen" o' (columns df))) |}.
Proof.
  unfold enforce_dtypes.
  destruct (enforce_float64 "adjOpen" df) as [df1|e] eqn:E1; [|done].
  destruct (enforce_float64 "adjClose" df1) as [df2|e] eqn:E2; [|done].
  intros E3.
  apply enforce_float64_ok in E1 as (o & o' & Ho & Ho' & ->).
  apply enforce_float64_ok in E2 as (c & c' & Hc & Hc' & ->).
  apply enforce_int64_unless_nan_ok in E3 as (v & v' & Hv & Hv' & ->).
  simpl in *.
  rewrite getitem_setitem_ne in Hc by done.
  rewrite !getitem_setitem_ne in Hv by done.
  exists o, c, v, o', c', v'. done.
Qed.

Lemma enforce_dtypes_price_dtypes df df' v :
  enforce_dtypes df = Ok df' ->
  getitem "adjVolume" (columns df) = Ok v ->
  has_price_dtypes v df'.
Proof.
  intros (o & c & v0 & o' & c' & v' & Ho & Hc & Hv & Ho' & Hc' & Hv' & ->)%enforce_dtypes_ok Hv0.
  rewrite Hv in Hv0. injection Hv0 as ->.
  exists o', c', v'. simpl.
  split; [|split; [|split; [|split; [|split]]]].
  - rewrite !getitem_setitem_ne by done. apply getitem_setitem_eq. eauto.
  - rewrite getitem_setitem_ne by done. apply getitem_setitem_eq.
    rewrite getitem_setitem_ne by done. eauto.
  - apply getitem_setitem_eq. rewrite !getitem_setitem_ne by done. eauto.
  - by eapply astype_float64_dtype.
  - by eapply astype_float64_dtype.
  - destruct (any (isna v)).
    + apply astype_float64_dtype in Hv'. rewrite Hv'. split; [split; done|done].
    + apply astype_int64_dtype in Hv'. rewrite Hv'. split; [split; done|done].
Qed.

Lemma has_price_dtypes_frame_rows f v df :
  has_price_dtypes v df -> has_price_dtypes v (frame_rows f df).
Proof.
  intros (o & c & v' & Ho & Hc & Hv & H).
  exists (series_rows f o), (series_rows f c), (series_rows f v').
  rewrite !getitem_frame_rows, Ho, Hc, Hv, !dtype_of_series_rows. done.
Qed.

Lemma has_price_dtypes_sort_index ties v df :
  has_price_dtypes v df -> has_price_dtypes v (sort_index ties df).
Proof.
  intros H. unfold sort_index.
  destruct (is_monotonic_increasing _); [done|by apply has_price_dtypes_frame_rows].
Qed.

Lemma has_price_dtypes_sort_and_validate ties v df :
  has_price_dtypes v df -> has_price_dtypes v (sort_and_validate ties df).
Proof.
  intros H. unfold sort_and_validate, boolean_mask.
  destruct (has_duplicates _);
    repeat first [apply has_price_dtypes_frame_rows | apply has_price_dtypes_sort_index]; done.
Qed.

Lemma getitems_required cols0 cols :
  getitems ["adjOpen"; "adjClose"; "adjVolume"] cols0 = Ok cols ->
  exists o c v,
    getitem "adjOpen" cols0 = Ok o /\ getitem "adjClose" cols0 = Ok c /\
    getitem "adjVolume" cols0 = Ok v /\
    cols = [("adjOpen", o); ("adjClose", c); ("adjVolume", v)].
Proof.
  simpl. destruct (getitem "adjOpen" cols0) as [o|e]; [|done].
  destruct (getitem "adjClose" cols0) as [c|e]; [|done].
  destruct (getitem "adjVolume" cols0) as [v|e]; [|done].
  intros [= <-]. eauto 10.
Qed.

(** ** The network path, inverted *)

Lemma set_index_date data :
  date_label data = "date" ->
  set_index "date"
    {| date_label := date_label data; date_values := date_values data;
       date_tz := None; value_columns := value_columns data |}
  = Ok {| index_name := "date"; index := date_values data;
          columns := value_columns data |}.
Proof. intros Hl. unfold set_index. cbn [date_label]. by rewrite decide_True. Qed.

Lemma frame_of_response_eq ticker response w data cols df0 :
  json response = JsonRecords data ->
  date_label data = "date" ->
  getitems ["adjOpen"; "adjClose"; "adjVolume"] (value_columns data) = Ok cols ->
  enforce_dtypes {| index_name := "date"; index := date_values data; columns := cols |}
    = Ok df0 ->
  exists w',
    frame_of_response ticker response w = (Ok (sort_and_validate (tie_order w) df0), w') /\
    trace w' = trace w ++ duplicate_warning (tie_order w) ticker df0 /\
    same_files w w'.
Proof.
  intros Hj Hl Hc He. unfold frame_of_response. rewrite Hj.
  rewrite decide_True by done. rewrite (set_index_date _ Hl), bind_lift.
  cbn [columns index index_name]. rewrite bind_lift, Hc, bind_lift, He.
  rewrite bind_sort_index. unfold sort_and_validate, duplicate_warning.
  destruct (has_duplicates _).
  - eexists. split; [reflexivity|]. split; [done|]. apply same_files_emit.
  - eexists. split; [reflexivity|]. simpl. rewrite app_nil_r.
    split; [done|]. apply same_files_refl.
Qed.

Lemma frame_of_response_ok ticker response w df w' :
  frame_of_response ticker response w = (Ok df, w') ->
  exists data cols df0,
    json response = JsonRecords data /\
    date_label data = "date" /\
    getitems ["adjOpen"; "adjClose"; "adjVolume"] (value_columns data) = Ok cols /\
    enforce_dtypes {| index_name := "date"; index := date_values data; columns := cols |}
      = Ok df0 /\
    df = sort_and_validate (tie_order w) df0 /\
    trace w' = trace w ++ duplicate_warning (tie_order w) ticker df0.
Proof.
  intros H. unfold frame_of_response in H.
  destruct (json response) as [| |data] eqn:Hj; [done|done|].
  destruct (decide (date_label data = "date")) as [Hl|Hl]; [|done].
  rewrite (set_index_date _ Hl), bind_lift in H.
  cbn [columns index index_name] in H. rewrite bind_lift in H.
  destruct (getitems _ _) as [cols|err] eqn:Hc; [|done].
  rewrite bind_lift in H.
  destruct (enforce_dtypes _) as [df0|err] eqn:He; [|done].
  destruct (frame_of_response_eq ticker response w data cols df0 Hj Hl Hc He)
    as (w2 & Heq & Htr & _).
  rewrite bind_sort_index in H.
  exists data, cols, df0. repeat split; try done.
  - unfold sort_and_validate. destruct (has_duplicates _); by injection H as <- <-.
  - unfold duplicate_warning. destruct (has_duplicates _); injection H as <- <-; simpl; [done|].
    by rewrite app_nil_r.
Qed.

Lemma fetch_ticker_ok ticker start_date end_date api_key base_url w df w' :
  fetch_ticker_from_tiingo ticker start_date end_date api_key base_url w = (Ok df, w') ->
  api_key <> "" /\
  exists response w1,
    request_loop (seq 0 4) None ticker
      (tiingo_request ticker start_date end_date api_key base_url) w = (Ok response, w1) /\
    frame_of_response ticker response w1 = (Ok df, w').
Proof.
  unfold fetch_ticker_from_tiingo. destruct (decide _) as [|Hk]; [done|].
  intros (response & w1 & H1 & H2)%bind_ok_inv. eauto.
Qed.

(** C5. A price frame that [fetch_ticker_from_tiingo] returns, or that
    [load_ticker] reads from the cache, has adjOpen and adjClose of dtype
    float64, and adjVolume of dtype int64 if and only if the volume column
    it was coerced from (the provider's, the artifact's) has no missing
    value anywhere, and of dtype float64 otherwise; from the cache, the
    column returned has a missing value exactly when the artifact's has. *)
Theorem volume_dtype_follows_missing_values :
  (forall ticker start_date end_date api_key base_url w df w',
     fetch_ticker_from_tiingo ticker start_date end_date api_key base_url w = (Ok df, w') ->
     exists response w1 data volume,
       request_loop (seq 0 4) None ticker
         (tiingo_request ticker start_date end_date api_key base_url) w = (Ok response, w1) /\
       json response = JsonRecords data /\
       getitem "adjVolume" (value_columns data) = Ok volume /\
       has_price_dtypes volume df) /\
  (forall ticker config w f df w',
     use_cache config = true ->
     files w !! ticker_cache_path ticker config = Some f ->
     load_ticker ticker config w = (Ok df, w') ->
     exists t volume v,
       read_csv [] "date" f = Ok t /\
       getitem "adjVolume" (value_columns t) = Ok volume /\
       has_price_dtypes volume df /\
       getitem "adjVolume" (columns df) = Ok v /\
       any (isna v) = any (isna volume)).
Proof.
  split.
  - intros ticker start_date end_date api_key base_url w df w' H.
    apply fetch_ticker_ok in H as (_ & response & w1 & Hloop & H).
    apply frame_of_response_ok in H as (data & cols & df0 & Hj & Hl & Hc & He & -> & _).
    apply getitems_required in Hc as (o & c & v & Ho & Hcl & Hv & ->).
    exists response, w1, data, v. repeat split; try done.
    apply has_price_dtypes_sort_and_validate.
    eapply enforce_dtypes_price_dtypes; [exact He|]. reflexivity.
  - intros ticker config w f df w' Hc Hf H.
    rewrite (load_ticker_hit _ _ _ _ Hc Hf) in H. injection H as H _.
    unfold read_ticker_artifact in H.
    destruct (read_csv [] "date" f) as [t|e] eqn:Hr; [|done]. simpl in H.
    destruct (set_index "date" t) as [df1|e] eqn:Hs; [|done]. simpl in H.
    unfold set_index in Hs. destruct (decide _); [|done]. injection Hs as <-.
    destruct (enforce_dtypes_ok _ _ H) as (o & c & v & o' & c' & v' & _ & _ & Hv & _ & _ & Hv' & Hdf).
    exists t, v, v'. split; [done|]. split; [done|].
    split; [eapply enforce_dtypes_price_dtypes; [exact H|exact Hv]|].
    split; [|by apply coerced_volume_isna].
    rewrite Hdf. cbn [columns]. apply getitem_setitem_eq.
    rewrite !getitem_setitem_ne by done. eauto.
Qed.

(** A fetch with a missing volume, and the MGK fixture read from the cache. *)
Lemma volume_dtype_follows_missing_values_witness :
  (exists w',
     fetch_ticker_from_tiingo "SPY" "2024-01-02" "2024-01-08" "TEST_KEY"
       "https://api.tiingo.com/tiingo/daily" (world_of spy_provider ∅) = (Ok spy_frame, w') /\
     has_price_dtypes (Float64 [float_of_int 1000000; NaN; float_of_int 1100000]) spy_frame) /\
  use_cache offline_config = true /\
  files offline_world !! ticker_cache_path "MGK" offline_config = Some (FileCsv mgk_fixture) /\
  load_ticker "MGK" offline_config offline_world = (Ok mgk_frame, offline_world) /\
  has_price_dtypes (Int64 [50000000; 51000000; 52000000; 53000000; 54000000]) mgk_frame.
Proof.
  destruct volume_dtype_follows_missing_values as [Hnet Hcache].
  assert (files offline_world !! ticker_cache_path "MGK" offline_config
          = Some (FileCsv mgk_fixture)) as Hf by (vm_compute; reflexivity).
  assert (load_ticker "MGK" offline_config offline_world = (Ok mgk_frame, offline_world))
    as Hl by (vm_compute; reflexivity).
  split; [|split; [reflexivity|split; [exact Hf|split; [exact Hl|]]]].
  - eexists. split; [vm_compute; reflexivity|].
    destruct (Hnet "SPY" "2024-01-02" "2024-01-08" "TEST_KEY"
                "https://api.tiingo.com/tiingo/daily" (world_of spy_provider ∅) spy_frame _
                ltac:(vm_compute; reflexivity))
      as (response & w1 & data & volume & Hloop & Hj & Hv & H).
    vm_compute in Hloop. injection Hloop as <- _.
    vm_compute in Hj. injection Hj as <-.
    vm_compute in Hv. injection Hv as <-.
    exact H.
  - destruct (Hcache "MGK" offline_config offline_world (FileCsv mgk_fixture) mgk_frame
                offline_world eq_refl Hf Hl) as (t & volume & v & Ht & Hv & H & _).
    vm_compute in Ht. injection Ht as <-.
    vm_compute in Hv. injection Hv as <-.
    exact H.
Defined.

(** ** The index of a fetched frame *)

Lemma dedupe_complete ks : forall seen k,
  k ∈ ks -> k ∉ seen -> k ∈ select_rows (negb <$> duplicated_from seen ks) ks.
Proof.
  induction ks as [|x r IH]; intros seen k; simpl; [by intros ?%elem_of_nil|].
  intros Hin Hk. destruct (decide (k = x)) as [->|Hne].
  - rewrite bool_decide_eq_false_2 by done. simpl. by left.
  - apply elem_of_cons in Hin as [?|Hin]; [done|].
    assert (k ∈ select_rows (negb <$> duplicated_from (x :: seen) r) r) as H.
    { apply IH; [done|]. by intros [?|?]%elem_of_cons. }
    destruct (negb _); [by right|done].
Qed.

Lemma sort_and_validate_index ties df :
  let sorted := index (sort_index ties df) in
  StronglySorted Z.lt (index (sort_and_validate ties df)) /\
  (forall d, d ∈ index (sort_and_validate ties df) <-> d ∈ index df).
Proof.
  intros sorted. unfold sort_and_validate. fold sorted.
  assert (Sorted Z.le sorted) as Hs by apply sort_index_sorted.
  assert (sorted ≡ₚ index df) as Hp by apply sort_index_perm.
  destruct (has_duplicates sorted) eqn:Hd.
  - destruct (dedupe_strictly_sorted sorted [] Hs) as [H1 H2].
    { by intros ? ? ?%elem_of_nil. }
    split; [exact H1|]. intros d. rewrite <- Hp. split.
    + intros H. by apply H2.
    + intros H. apply dedupe_complete; [done|]. by intros ?%elem_of_nil.
  - split.
    + apply sorted_nodup_strict; [done|]. by apply has_duplicates_false.
    + intros d. by rewrite <- Hp.
Qed.

Lemma has_duplicates_sorted ties df :
  has_duplicates (index (sort_index ties df)) = false <-> NoDup (index df).
Proof.
  rewrite has_duplicates_false.
  assert (index (sort_index ties df) ≡ₚ index df) as Hp by apply sort_index_perm.
  by rewrite Hp.
Qed.

Lemma strictly_sorted_nodup (ks : list Z) : StronglySorted Z.lt ks -> NoDup ks.
Proof.
  induction 1 as [|k r Hr IH Hall]; constructor; [|done].
  intros Hin. rewrite Forall_forall in Hall. specialize (Hall k Hin). lia.
Qed.

Lemma enforce_dtypes_index df df' : enforce_dtypes df = Ok df' -> index df' = index df.
Proof.
  intros (o & c & v & o' & c' & v' & _ & _ & _ & _ & _ & _ & ->)%enforce_dtypes_ok.
  reflexivity.
Qed.

(** What holds of every frame [fetch_ticker_from_tiingo] returns, whatever
    order the sort leaves among equal dates: the index is strictly
    ascending, hence without a duplicate date, and has the dates of the
    records; of the sorted rows the frame keeps, for each date, the first
    one; duplicates are signalled by one warning in the log and by nothing
    else. *)
Lemma fetched_frame_index ticker start_date end_date api_key base_url w df w' :
  fetch_ticker_from_tiingo ticker start_date end_date api_key base_url w = (Ok df, w') ->
  exists response w1 data cols df0,
    request_loop (seq 0 4) None ticker
      (tiingo_request ticker start_date end_date api_key base_url) w = (Ok response, w1) /\
    json response = JsonRecords data /\
    getitems ["adjOpen"; "adjClose"; "adjVolume"] (value_columns data) = Ok cols /\
    enforce_dtypes {| index_name := "date"; index := date_values data; columns := cols |}
      = Ok df0 /\
    let sorted := sort_index (tie_order w) df0 in
    let keep := negb <$> duplicated (index sorted) in
    (* the returned index *)
    StronglySorted Z.lt (index df) /\
    NoDup (index df) /\
    (forall d, d ∈ index df <-> d ∈ date_values data) /\
    (* the rows kept *)
    Sorted Z.le (index sorted) /\
    index sorted ≡ₚ date_values data /\
    df = (if has_duplicates (index sorted) then boolean_mask keep sorted else sorted) /\
    (forall i d, index sorted !! i = Some d ->
       exists b, keep !! i = Some b /\
         (b = true <-> forall j, (j < i)%nat -> index sorted !! j <> Some d)) /\
    (* the warning *)
    (NoDup (date_values data) -> trace w' = trace w1) /\
    (~ NoDup (date_values data) ->
     trace w' = trace w1 ++ [LogWarning ("Duplicate dates removed for " +:+ ticker)]).
Proof.
  intros H.
  apply fetch_ticker_ok in H as (_ & response & w1 & Hloop & H).
  apply frame_of_response_ok in H as (data & cols & df0 & Hj & Hl & Hc & He & -> & Htr).
  rewrite (request_loop_tie_order _ _ _ _ _ _ _ Hloop) in Htr |- *.
  exists response, w1, data, cols, df0.
  pose proof (enforce_dtypes_index _ _ He) as Hix. simpl in Hix.
  destruct (sort_and_validate_index (tie_order w) df0) as [Hss Hmem].
  split; [done|]. split; [done|]. split; [done|]. split; [done|].
  intros sorted keep.
  split; [done|].
  split. { by apply strictly_sorted_nodup. }
  split. { intros d. by rewrite Hmem, Hix. }
  split. { apply sort_index_sorted. }
  split. { rewrite <- Hix. apply sort_index_perm. }
  split. { reflexivity. }
  split.
  { intros i d Hi. unfold keep, duplicated.
    destruct (duplicated_from_lookup (index sorted) [] i d Hi) as (b & Hb & Hiff).
    exists (negb b). rewrite list_lookup_fmap, Hb. split; [done|].
    rewrite negb_true_iff, <- not_true_iff_false, Hiff. split.
    - intros Hn j Hlt Hjd. apply Hn. right. eauto.
    - intros Hn [?%elem_of_nil|(j & Hlt & Hjd)]; [done|]. by apply (Hn j). }
  unfold duplicate_warning in Htr. rewrite <- Hix. split.
  + intros Hnd. apply (has_duplicates_sorted (tie_order w)) in Hnd. rewrite Hnd in Htr.
    by rewrite app_nil_r in Htr.
  + intros Hnd. destruct (has_duplicates _) eqn:Hd; [done|].
    apply has_duplicates_sorted in Hd. done.
Qed.

(** C6. The first occurrence does not win.  [df.sort_index()] sorts with
    numpy's quicksort, which does not keep equal dates in the order of the
    records, and [duplicated(keep="first")] then keeps the first of the
    sorted rows.  On eighteen records, the first dated 2024-01-03 and the
    seventeen others 2024-01-02 with the volumes 1 to 17, the row returned
    for 2024-01-02 is the one the sort puts first: the record with volume
    8 where the sort is numpy's introsort, and the record with volume 1,
    the first occurrence, only where the sort leaves equal dates in order.
    Either way the call returns a frame and logs the warning. *)
Theorem first_occurrence_does_not_win :
  let fetch :=
    fetch_ticker_from_tiingo "SPY" "2024-01-02" "2024-01-08" "TEST_KEY"
      "https://api.tiingo.com/tiingo/daily" in
  let request :=
    tiingo_request "SPY" "2024-01-02" "2024-01-08" "TEST_KEY"
      "https://api.tiingo.com/tiingo/daily" in
  (* the first of the records dated 2024-01-02 has volume 1 *)
  list_find (fun r => r.1 = midnight d_2024_01_02) (zip (date_values dup_records) dup_volumes)
    = Some (1%nat, (midnight d_2024_01_02, 1)) /\
  (* numpy's introsort *)
  fetch (world_on introsort_order dup_provider ∅)
    = (Ok (dup_frame 8),
       world_after_on introsort_order dup_provider ∅
         [HttpGet request; LogWarning "Duplicate dates removed for SPY"]) /\
  (* a sort that leaves equal dates in order *)
  fetch (world_on in_order dup_provider ∅)
    = (Ok (dup_frame 1),
       world_after_on in_order dup_provider ∅
         [HttpGet request; LogWarning "Duplicate dates removed for SPY"]).
Proof.
  split; [reflexivity|]. split; vm_compute; reflexivity.
Qed.

(** ** Provenance *)









(** ** Round trip *)

(** C8 fails on the code.  The provider's records have 2024-01-02 twice,
    the second time with no volume: [fetch_ticker_from_tiingo] casts
    adjVolume to float64 because of the missing value, then drops the row
    that had it; [load_ticker] writes a volume column of whole floats, and
    the next [load_ticker], a cache hit, finds no missing value and casts
    the column to int64.  The frame read back differs from the frame
    written in the dtype of adjVolume. *)
Lemma round_trip_changes_volume_dtype :
  exists w1,
    load_ticker "SPY" test_config (world_of spy_provider ∅) = (Ok spy_frame, w1) /\
    load_ticker "SPY" test_config w1 = (Ok spy_frame_reloaded, w1) /\
    getitem "adjVolume" (columns spy_frame)
      = Ok (Float64 (float_of_int <$> [1000000; 1100000])) /\
    getitem "adjVolume" (columns spy_frame_reloaded) = Ok (Int64 [1000000; 1100000]) /\
    spy_frame_reloaded <> spy_frame.
Proof.
  eexists. split; [vm_compute; reflexivity|].
  split; [vm_compute; reflexivity|].
  split; [reflexivity|]. split; [reflexivity|]. discriminate.
Qed.

(** ** Empty responses *)

(** C9. When FRED answers 2xx with a CSV text that has its header and no
    record, [fetch_vix] returns the empty frame and raises nothing; the
    check for an empty response is in [fetch_ticker_from_tiingo] alone,
    which raises [ValueError] when the provider answers 2xx with a falsy
    JSON value. *)
Theorem empty_vix_feed_is_no_failure :
  (forall start_date end_date w response,
     network w (requests_made w) (vix_request start_date end_date) = Responded response ->
     200 <= status_code response < 300 ->
     text response = FileCsv empty_feed ->
     fetch_vix start_date end_date w =
       (Ok empty_vix_frame, emit (HttpGet (vix_request start_date end_date)) w)) /\
  (forall ticker start_date end_date api_key base_url w response,
     api_key <> "" ->
     network w (requests_made w)
       (tiingo_request ticker start_date end_date api_key base_url) = Responded response ->
     200 <= status_code response < 300 ->
     json response = JsonFalsy ->
     fetch_ticker_from_tiingo ticker start_date end_date api_key base_url w =
       (Raise (ValueError ("Empty response for ticker '" +:+ ticker +:+ "'")),
        emit (HttpGet (tiingo_request ticker start_date end_date api_key base_url)) w)).
Proof.
  split.
  - intros start_date end_date w response Hn Hs Ht.
    unfold fetch_vix. unfold bind at 1. unfold requests_get at 1. rewrite Hn.
    unfold bind at 1. unfold raise_for_status.
    replace ((400 <=? status_code response) && (status_code response <? 600)) with false
      by (symmetry; apply andb_false_iff; lia).
    unfold ret. rewrite Ht. reflexivity.
  - intros ticker start_date end_date api_key base_url w response Hk Hn Hs Hj.
    unfold fetch_ticker_from_tiingo. rewrite decide_False by done.
    erewrite bind_ok; [|apply request_loop_break; [exact Hn|lia]].
    unfold frame_of_response. by rewrite Hj.
Qed.

(** A feed with no record, and a provider answering an empty list. *)
Lemma empty_vix_feed_is_no_failure_witness :
  fetch_vix "2024-01-02" "2024-01-08" (world_of (fred (FileCsv empty_feed)) ∅) =
    (Ok empty_vix_frame,
     emit (HttpGet (vix_request "2024-01-02" "2024-01-08"))
       (world_of (fred (FileCsv empty_feed)) ∅)) /\
  fetch_ticker_from_tiingo "MGK" "2024-01-02" "2024-01-08" "TEST_KEY"
    "https://api.tiingo.com/tiingo/daily" (world_of empty_provider ∅) =
    (Raise (ValueError "Empty response for ticker 'MGK'"),
     emit (HttpGet mgk_request) (world_of empty_provider ∅)).
Proof.
  destruct empty_vix_feed_is_no_failure as [Hvix Hprice]. split.
  - apply (Hvix "2024-01-02" "2024-01-08" (world_of (fred (FileCsv empty_feed)) ∅)
             (fred_response (FileCsv empty_feed))).
    + reflexivity.
    + simpl. lia.
    + reflexivity.
  - apply (Hprice "MGK" "2024-01-02" "2024-01-08" "TEST_KEY"
             "https://api.tiingo.com/tiingo/daily" (world_of empty_provider ∅)
             (response_with 200 JsonFalsy)).
    + discriminate.
    + reflexivity.
    + simpl. lia.
    + reflexivity.
Defined.

(** ** The VIX series *)



Lemma select_rows_nil {A} (m : list bool) : select_rows m (@nil A) = [].
Proof. by destruct m. Qed.

Lemma select_rows_filter {A} (P : A -> bool) (l : list A) :
  select_rows (negb <$> (P <$> l)) l = filter (fun x => P x = false) l.
Proof.
  induction l as [|x l IH]; simpl; [done|].
  rewrite filter_cons. destruct (decide (P x = false)) as [E|E].
  - rewrite E. simpl. by f_equal.
  - apply not_false_iff_true in E. rewrite E. simpl. exact IH.
Qed.

Lemma select_rows_all {A B} (xs : list B) (ys : list A) :
  select_rows (negb <$> ((fun _ => false) <$> xs)) ys = take (length xs) ys.
Proof.
  revert ys. induction xs as [|x xs IH]; intros [|y ys]; simpl; try done.
  by f_equal.
Qed.

Lemma zip_take_length {A B} (xs : list A) (ys : list B) :
  zip (take (length ys) xs) ys = zip xs ys.
Proof.
  revert xs. induction ys as [|y ys IH]; intros [|x xs]; simpl; try done.
  by f_equal.
Qed.

Lemma forward_filled_valid last feed :
  Forall (fun x => is_nan x = false) feed.*2 -> forward_filled last feed = feed.
Proof.
  revert last. induction feed as [|[d x] r IH]; intros last; simpl; [done|].
  inversion 1 as [|? ? Hx Hr]; subst. rewrite Hx. f_equal. by apply IH.
Qed.

(** The forward fill and the drop, on a float64 column. *)
Lemma ffill_dropna_float64 xs : forall dates last,
  (forall v, last = Some v -> is_nan v = false) ->
  let filled := ffill_from is_nan last xs in
  let keep := negb <$> (is_nan <$> filled) in
  zip (select_rows keep dates) (select_rows keep filled)
    = forward_filled last (zip dates xs) /\
  Forall (fun y => is_nan y = false) (select_rows keep filled).
Proof.
  induction xs as [|x r IH]; intros dates last Hlast; simpl.
  - split; [|constructor]. by destruct dates.
  - destruct (is_nan x) eqn:Hx; simpl.
    + destruct last as [v|]; simpl.
      * rewrite (Hlast v eq_refl). simpl. destruct (IH (tail dates) (Some v) Hlast) as [IH1 IH2].
        split; [|by constructor; [apply Hlast|]].
        destruct dates as [|d ds]; simpl.
        -- by rewrite ?select_rows_nil.
        -- rewrite Hx. f_equal. exact IH1.
      * rewrite Hx. simpl. destruct (IH (tail dates) None Hlast) as [IH1 IH2].
        split; [|done]. destruct dates as [|d ds]; simpl.
        -- by rewrite ?select_rows_nil.
        -- rewrite Hx. exact IH1.
    + rewrite Hx. simpl.
      destruct (IH (tail dates) (Some x)) as [IH1 IH2].
      { by intros v [= <-]. }
      split; [|by constructor].
      destruct dates as [|d ds]; simpl.
      * by rewrite ?select_rows_nil.
      * rewrite Hx. f_equal. exact IH1.
Qed.

Lemma ffill_from_keeps {A} (missing : A -> bool) xs : forall last x,
  x ∈ xs -> missing x = false -> x ∈ ffill_from missing last xs.
Proof.
  induction xs as [|y r IH]; intros last x; simpl; [by intros ?%elem_of_nil|].
  intros [->|Hin]%elem_of_cons Hx.
  - rewrite Hx. by left.
  - destruct (missing y); right; by apply IH.
Qed.

Lemma Forall_zip_snd {A B} (P : B -> Prop) (xs : list A) (ys : list B) :
  Forall P ys -> Forall P (zip xs ys).*2.
Proof.
  intros H. revert xs. induction H as [|y ys Hy Hys IH]; intros [|x xs]; simpl;
    try constructor; auto.
Qed.

Lemma cells_all_int cells :
  forallb cell_is_int cells = true ->
  float_of_int <$> (cell_to_int <$> cells) = cell_to_float <$> cells.
Proof.
  induction cells as [|c r IH]; simpl; [done|].
  intros [Hc Hr]%andb_true_iff. destruct c; try done. simpl. f_equal. by apply IH.
Qed.

Lemma select_rows_length {A B} (m : list bool) (xs : list A) (ys : list B) :
  length xs = length ys -> length (select_rows m xs) = length (select_rows m ys).
Proof.
  revert xs ys. induction m as [|b m IH]; intros [|x xs] [|y ys]; simpl; try done.
  intros [= H]. destruct b; simpl; auto.
Qed.

Lemma ffill_from_length {A} (missing : A -> bool) xs last :
  length (ffill_from missing last xs) = length xs.
Proof.
  revert last. induction xs as [|x r IH]; intros last; simpl; [done|].
  destruct (missing x); simpl; by rewrite IH.
Qed.

(** The forward fill, the drop and the cast, on the column [read_csv]
    infers from the cells of the feed. *)
Lemma ffill_dropna_cells na_values cells dates s' :
  let raw := infer_column na_values cells in
  let keep := negb <$> isna (ffill raw) in
  astype_float64 (series_rows (fun A => select_rows keep) (ffill raw)) = Ok s' ->
  exists ys,
    s' = Float64 ys /\
    zip (select_rows keep dates) ys
      = forward_filled None (zip dates (cell_to_float <$> cells)) /\
    Forall (fun y => is_nan y = false) ys /\
    (length dates = length cells -> length (select_rows keep dates) = length ys).
Proof.
  unfold infer_column. destruct cells as [|c cs].
  { simpl. intros [= <-]. exists []. split; [done|]. split; [|split; [constructor|]].
    - destruct dates; simpl; by rewrite ?select_rows_nil.
    - by destruct dates. }
  set (cells := c :: cs). clearbody cells.
  destruct (existsb (cell_is_text na_values) cells) eqn:Htext.
  - (* a text that is no number: the cast raises *)
    simpl. intros H. exfalso.
    apply existsb_exists in Htext as (c0 & Hin & Hc0).
    assert (cell_is_na na_values c0 = false) as Hna.
    { destruct c0; try done. simpl in Hc0. by apply negb_true_iff in Hc0. }
    set (xs := (fun c => if cell_is_na na_values c then None else Some c) <$> cells) in *.
    assert (Some c0 ∈ xs) as Hx.
    { apply list_elem_of_fmap. exists c0. rewrite Hna. split; [done|].
      by apply list_elem_of_In. }
    apply (ffill_from_keeps is_None xs None) in Hx; [|done].
    rewrite select_rows_filter in H.
    destruct (forallb is_None _) eqn:E; [|done].
    rewrite forallb_forall in E. specialize (E (Some c0)). simpl in E.
    assert (false = true) as Habs; [|done]. apply E.
    apply list_elem_of_In, list_elem_of_filter. done.
  - destruct (forallb cell_is_int cells) eqn:Hint.
    + (* integers alone: nothing is missing *)
      simpl. intros [= <-]. eexists. split; [reflexivity|].
      rewrite !select_rows_all, firstn_all.
      rewrite (cells_all_int _ Hint).
      assert (Forall (fun y => is_nan y = false) (cell_to_float <$> cells)) as Hvalid.
      { rewrite <- (cells_all_int _ Hint). apply Forall_fmap, Forall_forall.
        intros z _. apply float_of_int_not_nan. }
      split; [|split; [done|]].
      * rewrite forward_filled_valid by by apply Forall_zip_snd.
        rewrite <- (zip_take_length dates (cell_to_float <$> cells)).
        by rewrite !length_fmap.
      * intros Hlen. rewrite length_take, !length_fmap. lia.
    + (* a float64 column *)
      simpl. intros [= <-]. eexists. split; [reflexivity|].
      destruct (ffill_dropna_float64 (cell_to_float <$> cells) dates None) as [H1 H2];
        [done|].
      split; [exact H1|]. split; [exact H2|].
      intros Hlen. apply select_rows_length.
      by rewrite ffill_from_length, length_fmap.
Qed.

Lemma getitem_fmap {A} (g : string -> string) (h : A -> Series) k (cols : list (string * A)) s :
  getitem k (prod_map g h <$> cols) = Ok s -> exists a, a ∈ cols.*2 /\ s = h a.
Proof.
  induction cols as [|[k' a] r IH]; simpl; [done|].
  destruct (decide _).
  - intros [= <-]. exists a. split; [by left|done].
  - intros (a' & Ha & ->)%IH. exists a'. split; [by right|done].
Qed.

Lemma getitem_series_map (g : Series -> Series) k cols :
  getitem k (prod_map id g <$> cols) =
  match getitem k cols with
  | Ok s => Ok (g s)
  | Raise e => Raise e
  end.
Proof.
  induction cols as [|[k' s'] r IH]; simpl; [done|].
  destruct (decide (k = k')); [done|]. apply IH.
Qed.

Lemma reindex_Forall {A} (P : A -> Prop) p (xs : list A) :
  Forall P xs -> Forall P (reindex p xs).
Proof.
  intros H. unfold reindex. induction p as [|i p IH]; simpl; [constructor|].
  destruct (xs !! i) as [x|] eqn:E; simpl; [|done].
  constructor; [|done]. rewrite Forall_forall in H. apply H.
  apply list_elem_of_lookup. eauto.
Qed.

Lemma sort_index_Forall ties df (P : Timestamp -> Prop) :
  Forall P (index df) -> Forall P (index (sort_index ties df)).
Proof.
  intros H. unfold sort_index. destruct (is_monotonic_increasing _); [done|].
  by apply reindex_Forall.
Qed.

(** A float64 column of a frame, once the frame is sorted. *)
Lemma sort_index_float64 ties k df ys (P : float64 -> Prop) :
  getitem k (columns df) = Ok (Float64 ys) ->
  Forall P ys ->
  exists zs, getitem k (columns (sort_index ties df)) = Ok (Float64 zs) /\ Forall P zs.
Proof.
  intros Hk Hys. unfold sort_index. destruct (is_monotonic_increasing _); [eauto|].
  rewrite getitem_frame_rows, Hk. eexists. split; [reflexivity|]. by apply reindex_Forall.
Qed.

(** C7. For every feed from which [fetch_vix] returns a frame: the frame
    is the forward-filled feed sorted by date, where, in the order of the
    feed, a missing value (the "." of FRED, or an empty cell) that has a
    valid value before it takes the most recent one, and a date with no
    valid value yet is dropped, not filled; the vix_close column returned
    is float64 and has no missing value. *)
Theorem fetch_vix_forward_fills start_date end_date w df w' :
  fetch_vix start_date end_date w = (Ok df, w') ->
  exists response t cells filled ys zs,
    network w (requests_made w) (vix_request start_date end_date) = Responded response /\
    text response = FileCsv t /\
    csv_date_label t = "DATE" /\
    cells ∈ (csv_columns t).*2 /\
    getitem "vix_close" (prod_map rename_label (infer_column ["."]) <$> csv_columns t)
      = Ok (infer_column ["."] cells) /\
    (* the frame before the last statement, [df.sort_index()] *)
    getitem "vix_close" (columns filled) = Ok (Float64 ys) /\
    zip (index filled) ys
      = forward_filled None
          (zip ((fun d => d * seconds_per_day) <$> csv_dates t) (cell_to_float <$> cells)) /\
    (length (csv_dates t) = length cells -> length (index filled) = length ys) /\
    (* the frame returned *)
    df = sort_index (tie_order w) filled /\
    Sorted Z.le (index df) /\
    getitem "vix_close" (columns df) = Ok (Float64 zs) /\
    Forall (fun z => is_nan z = false) zs.
Proof.
  unfold fetch_vix. unfold bind at 1. unfold requests_get at 1.
  destruct (network w (requests_made w) _) as [response|exc|exc] eqn:Hn; [|done|done].
  unfold bind at 1. unfold raise_for_status. destruct (_ && _); [done|].
  unfold ret. rewrite bind_lift.
  destruct (read_csv ["."] "DATE" (text response)) as [t0|err] eqn:Hr; [|done].
  unfold read_csv in Hr. destruct (text response) as [| |t] eqn:Ht; [done|done|].
  destruct (decide (csv_date_label t = "DATE")) as [Hl|Hl]; [|done].
  injection Hr as <-.
  unfold set_index, rename. cbn [date_label date_values date_tz value_columns].
  change (rename_label "DATE") with "date". rewrite decide_True by done.
  rewrite bind_lift. cbn [columns index index_name].
  rewrite <- list_fmap_compose.
  change (prod_map rename_label id ∘ prod_map id (infer_column ["."]))
    with (prod_map rename_label (infer_column ["."])).
  set (cols := prod_map rename_label (infer_column ["."]) <$> csv_columns t).
  set (dates := (fun d => d * seconds_per_day) <$> csv_dates t).
  rewrite bind_lift. destruct (getitem "vix_close" cols) as [raw|err] eqn:Hraw; [|done].
  rewrite bind_lift. unfold dropna. cbn [columns].
  rewrite getitem_setitem_eq by eauto.
  rewrite bind_lift. unfold enforce_float64, boolean_mask.
  rewrite getitem_frame_rows. cbn [columns]. rewrite getitem_setitem_eq by eauto.
  destruct (astype_float64 _) as [s'|err] eqn:Hs'; [|done].
  unfold df_sort_index. intros [= <- <-].
  destruct (getitem_fmap _ _ _ _ _ Hraw) as (cells & Hcells & ->).
  destruct (ffill_dropna_cells ["."] cells dates s' Hs') as (ys & -> & Hzip & Hvalid & Hlen).
  lazymatch goal with
  | |- context [Sorted Z.le (index (sort_index _ ?f))] => set (filled := f)
  end.
  assert (getitem "vix_close" (columns filled) = Ok (Float64 ys)) as Hys.
  { unfold filled. cbn [columns]. apply getitem_setitem_eq. eexists.
    rewrite getitem_series_map, getitem_setitem_eq by eauto. reflexivity. }
  destruct (sort_index_float64 (tie_order w) "vix_close" filled ys _ Hys Hvalid)
    as (zs & Hzs & Hzv).
  exists response, t, cells, filled, ys, zs.
  split; [done|]. split; [done|]. split; [done|]. split; [done|]. split; [done|].
  split; [exact Hys|]. split; [exact Hzip|].
  split. { intros H. apply Hlen. unfold dates. by rewrite length_fmap. }
  split; [reflexivity|]. split; [apply sort_index_sorted|]. split; [exact Hzs|exact Hzv].
Qed.

(** The two examples of the specification: an interior gap, a leading gap. *)
Lemma fetch_vix_forward_fills_witness :
  (exists w',
     fetch_vix "2024-01-02" "2024-01-04" (world_of (fred (FileCsv vix_feed)) ∅)
       = (Ok vix_filled_frame, w') /\
     exists zs,
       getitem "vix_close" (columns vix_filled_frame) = Ok (Float64 zs) /\
       Forall (fun z => is_nan z = false) zs) /\
  (exists w',
     fetch_vix "2024-01-01" "2024-01-02" (world_of (fred (FileCsv vix_gap_feed)) ∅)
       = (Ok vix_gap_frame, w') /\
     Sorted Z.le (index vix_gap_frame)).
Proof.
  split.
  - eexists. split; [vm_compute; reflexivity|].
    destruct (fetch_vix_forward_fills "2024-01-02" "2024-01-04"
                (world_of (fred (FileCsv vix_feed)) ∅) vix_filled_frame _
                ltac:(vm_compute; reflexivity))
      as (response & t & cells & filled & ys & zs & _ & _ & _ & _ & _ & _ & _ & _ & _ & _
          & Hget & Hvalid).
    exists zs. split; [exact Hget|exact Hvalid].
  - eexists. split; [vm_compute; reflexivity|].
    destruct (fetch_vix_forward_fills "2024-01-01" "2024-01-02"
                (world_of (fred (FileCsv vix_gap_feed)) ∅) vix_gap_frame _
                ltac:(vm_compute; reflexivity))
      as (response & t & cells & filled & ys & zs & _ & _ & _ & _ & _ & _ & _ & _ & _
          & Hsorted & _).
    exact Hsorted.
Defined.

(** * Further properties *)

Lemma getitem_cons k k' s r :
  getitem k ((k', s) :: r) = if decide (k = k') then Ok s else getitem k r.
Proof. reflexivity. Qed.

Lemma setitem_cons k v k' s r :
  setitem k v ((k', s) :: r) = if decide (k = k') then (k, v) :: r else (k', s) :: setitem k v r.
Proof. reflexivity. Qed.

(** Looks up and updates the columns of a frame whose labels are known. *)
Ltac labels :=
  repeat first [rewrite getitem_cons | rewrite setitem_cons
               | rewrite decide_True by done | rewrite decide_False by done].

(** ** What a fetch costs *)

Lemma http_gets_app evs1 evs2 : http_gets (evs1 ++ evs2) = (http_gets evs1 + http_gets evs2)%nat.
Proof. unfold http_gets. by rewrite filter_app, length_app. Qed.

Lemma http_gets_get req evs : http_gets (HttpGet req :: evs) = S (http_gets evs).
Proof. reflexivity. Qed.

Lemma http_gets_sleep s evs : http_gets (Sleep s :: evs) = http_gets evs.
Proof. reflexivity. Qed.

Lemma sleep_seconds_app evs1 evs2 :
  sleep_seconds (evs1 ++ evs2) = sleep_seconds evs1 + sleep_seconds evs2.
Proof.
  induction evs1 as [|e r IH]; simpl; [done|]. destruct e; rewrite ?IH; lia.
Qed.

Lemma backoff_budget_nonneg attempts : 0 <= backoff_budget attempts.
Proof.
  induction attempts as [|a r IH]; simpl; [done|].
  unfold _BACKOFF_SECONDS. destruct a as [|[|[|a]]]; simpl; lia.
Qed.

(** What the loop costs, whatever the network does. *)
Lemma request_loop_effort attempts : forall last ticker req w r w',
  request_loop attempts last ticker req w = (r, w') ->
  exists evs,
    trace w' = trace w ++ evs /\
    Forall (fetch_effect ticker req) evs /\
    (http_gets evs <= length attempts)%nat /\
    sleep_seconds evs <= backoff_budget attempts /\
    (forall response, r = Ok response -> (1 <= http_gets evs)%nat).
Proof.
  induction attempts as [|attempt rest IH]; intros last ticker req w r w'.
  - intros [= <- <-]. exists []. rewrite app_nil_r. repeat split; try done.
  - pose proof (backoff_budget_nonneg rest) as Hnn.
    match goal with |- _ -> ?G => set (P := G) end.
    assert (forall r0, (r0, emit (HttpGet req) w) = (r, w') -> P) as Hstop.
    { intros r0 [= <- <-]. exists [HttpGet req].
      split; [done|]. split; [repeat constructor|].
      split; [unfold http_gets; simpl; lia|].
      split; [|intros _ _; rewrite http_gets_get; lia].
      simpl. unfold _BACKOFF_SECONDS. destruct attempt as [|[|[|a]]]; simpl; lia. }
    assert (forall s last',
              _BACKOFF_SECONDS !! attempt = Some s ->
              request_loop rest last' ticker req (emit (Sleep s) (emit (HttpGet req) w))
                = (r, w') -> P) as Hgo.
    { intros s last' Hs H. apply IH in H as (evs & Ht & Hall & Hn & Hsl & _).
      exists (HttpGet req :: Sleep s :: evs).
      split; [simpl in Ht; rewrite Ht, <- !app_assoc; done|].
      split.
      { constructor; [by left|]. constructor; [|done].
        right. left. exists s. split; [done|]. by eapply list_elem_of_lookup_2. }
      split; [rewrite http_gets_get, http_gets_sleep; simpl; lia|].
      split; [simpl; rewrite Hs; simpl; lia|].
      intros _ _. rewrite http_gets_get. lia. }
    clearbody P.
    simpl. unfold bind at 1. unfold requests_get at 1.
    destruct (network w (requests_made w) req) as [response|exc|exc].
    + destruct (_ || _).
      * destruct (_ <? _)%nat; [|apply Hstop].
        rewrite bind_lift. unfold backoff.
        destruct (_BACKOFF_SECONDS !! attempt) as [s|] eqn:Hs; [|apply Hstop].
        unfold bind, time_sleep. by apply Hgo.
      * destruct (_ =? _); [apply Hstop|].
        unfold raise_for_status. destruct (_ && _); apply Hstop.
    + destruct (_ <? _)%nat; [|apply Hstop].
      rewrite bind_lift. unfold backoff.
      destruct (_BACKOFF_SECONDS !! attempt) as [s|] eqn:Hs; [|apply Hstop].
      unfold bind, time_sleep. by apply Hgo.
    + apply Hstop.
Qed.

Lemma getitem_raises k cols e : getitem k cols = Raise e -> e = KeyError k.
Proof.
  induction cols as [|[k' s] r IH]; simpl; [by intros [= <-]|].
  destruct (decide (k = k')); [done|exact IH].
Qed.

Lemma getitems_raises ks cols e :
  getitems ks cols = Raise e -> frame_failure e = true.
Proof.
  induction ks as [|k r IH]; simpl; [done|].
  destruct (getitem k cols) as [s|e0] eqn:E.
  - destruct (getitems r cols); [done|]. intros [= <-]. by apply IH.
  - intros [= <-]. by rewrite (getitem_raises _ _ _ E).
Qed.

Lemma astype_float64_raises s e :
  astype_float64 s = Raise e -> frame_failure e = true.
Proof. destruct s; simpl; try done. destruct (forallb _ _); [done|]. by intros [= <-]. Qed.

Lemma astype_int64_raises s e :
  astype_int64 s = Raise e -> frame_failure e = true.
Proof.
  destruct s as [xs|xs|xs]; simpl; try done.
  - destruct (forallb _ _); [done|]. by intros [= <-].
  - destruct xs; [done|]. by intros [= <-].
Qed.

Lemma enforce_float64_raises k df e :
  enforce_float64 k df = Raise e -> frame_failure e = true.
Proof.
  unfold enforce_float64. destruct (getitem k _) as [s|e0] eqn:E.
  - destruct (astype_float64 s) eqn:E2; [done|]. intros [= <-].
    by eapply astype_float64_raises.
  - intros [= <-]. by rewrite (getitem_raises _ _ _ E).
Qed.

Lemma enforce_int64_unless_nan_raises k df e :
  enforce_int64_unless_nan k df = Raise e -> frame_failure e = true.
Proof.
  unfold enforce_int64_unless_nan. destruct (getitem k _) as [s|e0] eqn:E.
  - destruct (any (isna s)).
    + destruct (astype_float64 s) eqn:E2; [done|]. intros [= <-].
      by eapply astype_float64_raises.
    + destruct (astype_int64 s) eqn:E2; [done|]. intros [= <-].
      by eapply astype_int64_raises.
  - intros [= <-]. by rewrite (getitem_raises _ _ _ E).
Qed.

Lemma enforce_dtypes_raises df e :
  enforce_dtypes df = Raise e -> frame_failure e = true.
Proof.
  unfold enforce_dtypes.
  destruct (enforce_float64 "adjOpen" df) as [df1|e1] eqn:E1.
  - destruct (enforce_float64 "adjClose" df1) as [df2|e2] eqn:E2.
    + apply enforce_int64_unless_nan_raises.
    + intros [= <-]. by eapply enforce_float64_raises.
  - intros [= <-]. by eapply enforce_float64_raises.
Qed.

(** What the part after the loop does to the world: at most the warning. *)
Lemma frame_of_response_effects ticker response w r w' :
  frame_of_response ticker response w = (r, w') ->
  (w' = w \/
   w' = emit (LogWarning ("Duplicate dates removed for " +:+ ticker)) w /\
   exists df, r = Ok df) /\
  (forall e, r = Raise e -> frame_failure e = true).
Proof.
  unfold frame_of_response.
  destruct (json response) as [| |data]; try (intros [= <- <-]; split; [by left|by intros e [= <-]]).
  destruct (decide _) as [Hl|Hl]; [|intros [= <- <-]; split; [by left|by intros e [= <-]]].
  rewrite bind_lift. destruct (set_index _ _) as [df|err] eqn:E1.
  2:{ intros [= <- <-]. split; [by left|]. intros e [= <-].
      unfold set_index in E1. destruct (decide _); [done|]. by injection E1 as <-. }
  rewrite bind_lift. destruct (getitems _ _) as [cols|err] eqn:E2.
  2:{ intros [= <- <-]. split; [by left|]. intros e [= <-]. by eapply getitems_raises. }
  rewrite bind_lift. destruct (enforce_dtypes _) as [df'|err] eqn:E3.
  2:{ intros [= <- <-]. split; [by left|]. intros e [= <-]. by eapply enforce_dtypes_raises. }
  rewrite bind_sort_index. destruct (has_duplicates _).
  - unfold bind, logger_warning, ret. intros [= <- <-]. split; [right; eauto|done].
  - intros [= <- <-]. split; [by left|done].
Qed.

Lemma fetch_ticker_tie_order ticker start_date end_date api_key base_url w r w' :
  fetch_ticker_from_tiingo ticker start_date end_date api_key base_url w = (r, w') ->
  tie_order w' = tie_order w.
Proof.
  unfold fetch_ticker_from_tiingo. destruct (decide _); [by intros [= <- <-]|].
  unfold bind. destruct (request_loop _ _ _ _ _) as [[response|e] w1] eqn:Hloop.
  - intros H. apply frame_of_response_effects in H as [[->|[-> _]] _]; simpl;
      by eapply request_loop_tie_order.
  - intros [= <- <-]. by eapply request_loop_tie_order.
Qed.

(** What a price fetch does to the trace, whatever comes of it. *)
Lemma fetch_effects ticker start_date end_date api_key base_url w r w' :
  fetch_ticker_from_tiingo ticker start_date end_date api_key base_url w = (r, w') ->
  exists evs,
    trace w' = trace w ++ evs /\
    Forall (fetch_effect ticker
              (tiingo_request ticker start_date end_date api_key base_url)) evs /\
    (http_gets evs <= 4)%nat /\
    sleep_seconds evs <= 7 /\
    (forall df, r = Ok df -> (1 <= http_gets evs)%nat).
Proof.
  intros H. unfold fetch_ticker_from_tiingo in H. destruct (decide _).
  { injection H as <- <-. exists []. rewrite app_nil_r. repeat split; try done.
    unfold http_gets. simpl. lia. }
  unfold bind in H.
  destruct (request_loop _ _ _ _ _) as [[response|e] w1] eqn:Hloop.
  - apply request_loop_effort in Hloop as (evs & Ht & Hall & Hn & Hsl & Hone).
    apply frame_of_response_effects in H as [[->|[-> _]] _].
    + exists evs. repeat split; try done. intros _ _. by eapply Hone.
    + exists (evs ++ [LogWarning ("Duplicate dates removed for " +:+ ticker)]).
      simpl. rewrite Ht, <- app_assoc. split; [done|].
      split. { apply Forall_app. split; [done|]. constructor; [|done]. right. by right. }
      rewrite http_gets_app, sleep_seconds_app. simpl.
      change (http_gets [LogWarning _]) with 0%nat.
      split; [simpl in Hn; lia|]. split; [simpl in Hsl; lia|].
      intros _ _. specialize (Hone response eq_refl). lia.
  - injection H as <- <-.
    apply request_loop_effort in Hloop as (evs & Ht & Hall & Hn & Hsl & Hone).
    exists evs. repeat split; try done.
Qed.

(** X1. Whatever the network does and whatever comes of it, a call of
    [fetch_ticker_from_tiingo] sends at most four requests, all of them
    the same one, sleeps at most 1 + 2 + 4 = 7 seconds, each sleep being
    one of the backoffs, logs nothing but the duplicate-dates warning, and
    touches no file or directory; if it returns a frame it has sent at
    least one request. *)
Theorem fetch_effort_is_bounded ticker start_date end_date api_key base_url w r w' :
  fetch_ticker_from_tiingo ticker start_date end_date api_key base_url w = (r, w') ->
  exists evs,
    trace w' = trace w ++ evs /\
    Forall (fetch_effect ticker
              (tiingo_request ticker start_date end_date api_key base_url)) evs /\
    (http_gets evs <= 4)%nat /\
    sleep_seconds evs <= 7 /\
    (forall df, r = Ok df -> (1 <= http_gets evs)%nat) /\
    files w' = files w /\ dirs w' = dirs w /\ snapshots w' = snapshots w.
Proof.
  intros H.
  destruct (fetch_ticker_same_files _ _ _ _ _ _ _ _ H) as (_ & Hf & Hd & Hs).
  destruct (fetch_effects _ _ _ _ _ _ _ _ H) as (evs & H1 & H2 & H3 & H4 & H5).
  exists evs. repeat split; done.
Qed.

(** The provider that stays down costs the four requests and the seven
    seconds. *)
Lemma fetch_effort_is_bounded_witness :
  let w' := world_after down ∅
              [HttpGet mgk_request; Sleep 1; HttpGet mgk_request; Sleep 2;
               HttpGet mgk_request; Sleep 4; HttpGet mgk_request] in
  fetch_ticker_from_tiingo "MGK" "2024-01-02" "2024-01-08" "TEST_KEY"
    "https://api.tiingo.com/tiingo/daily" (world_of down ∅)
    = (Raise (ConnectionError "HTTP 500 after 4 attempts for MGK" None), w') /\
  exists evs,
    trace w' = evs /\ Forall (fetch_effect "MGK" mgk_request) evs /\
    (http_gets evs <= 4)%nat /\ sleep_seconds evs <= 7.
Proof.
  intros w'.
  assert (fetch_ticker_from_tiingo "MGK" "2024-01-02" "2024-01-08" "TEST_KEY"
            "https://api.tiingo.com/tiingo/daily" (world_of down ∅)
          = (Raise (ConnectionError "HTTP 500 after 4 attempts for MGK" None), w')) as Hf
    by (vm_compute; reflexivity).
  split; [exact Hf|].
  destruct (fetch_effort_is_bounded _ _ _ _ _ _ _ _ Hf) as (evs & Ht & Hall & Hn & Hs & _).
  exists evs. split; [exact Ht|]. split; [exact Hall|]. split; [exact Hn|exact Hs].
Defined.

(** The backoff table is never read past its end. *)
Lemma request_loop_raises attempts : forall last ticker req w e w',
  request_loop attempts last ticker req w = (Raise e, w') -> fetch_failure e = true.
Proof.
  induction attempts as [|attempt rest IH]; intros last ticker req w e w'.
  - by intros [= <- <-].
  - simpl. unfold bind at 1. unfold requests_get at 1.
    assert (forall last',
              (attempt <? _MAX_RETRIES)%nat = true ->
              bind (lift (backoff attempt))
                (fun seconds => time_sleep seconds ;;; request_loop rest last' ticker req)
                (emit (HttpGet req) w) = (Raise e, w') ->
              fetch_failure e = true) as Hgo.
    { intros last' Hlt%Nat.ltb_lt. rewrite bind_lift. unfold backoff.
      destruct (_BACKOFF_SECONDS !! attempt) as [s|] eqn:Hs.
      - unfold bind, time_sleep. apply IH.
      - apply lookup_ge_None in Hs. unfold _MAX_RETRIES in Hlt. simpl in Hs. lia. }
    destruct (network w (requests_made w) req) as [response|exc|exc].
    + destruct (_ || _).
      * destruct (_ <? _)%nat eqn:Hlt; [by apply Hgo|by intros [= <- <-]].
      * destruct (_ =? _); [by intros [= <- <-]|].
        unfold raise_for_status, bind, raise, ret. destruct (_ && _); by intros [= <- <-].
    + destruct (_ <? _)%nat eqn:Hlt; [by apply Hgo|by intros [= <- <-]].
    + by intros [= <- <-].
Qed.

(** X2. [fetch_ticker_from_tiingo] never raises [IndexError]: the backoff
    table is read at an attempt below [_MAX_RETRIES] only, and it has
    that many entries.  On the responses modelled here (a body that is no
    JSON, a falsy value, a list of records), what the fetch raises is a
    [ValueError], a [ConnectionError], an [HTTPError] or another request
    exception, a JSON decoding error, a [KeyError] or the error of casting
    a non-finite volume to int64, and nothing of the file system. *)
Theorem fetch_raises_no_index_error ticker start_date end_date api_key base_url w e w' :
  fetch_ticker_from_tiingo ticker start_date end_date api_key base_url w = (Raise e, w') ->
  fetch_failure e = true /\ e <> IndexError.
Proof.
  intros H. cut (fetch_failure e = true).
  { intros He. split; [done|]. by intros ->. }
  unfold fetch_ticker_from_tiingo in H. destruct (decide _); [by injection H as <- <-|].
  unfold bind in H.
  destruct (request_loop _ _ _ _ _) as [[response|e0] w1] eqn:Hloop.
  - apply frame_of_response_effects in H as [_ H]. specialize (H e eq_refl).
    by destruct e.
  - injection H as <- <-. by eapply request_loop_raises.
Qed.

Lemma fetch_raises_no_index_error_witness :
  fetch_ticker_from_tiingo "MGK" "2024-01-02" "2024-01-08" "TEST_KEY"
    "https://api.tiingo.com/tiingo/daily" (world_of forbidden ∅)
    = (Raise (HTTPError 403), world_after forbidden ∅ [HttpGet mgk_request]) /\
  fetch_failure (HTTPError 403) = true /\ HTTPError 403 <> IndexError.
Proof.
  assert (fetch_ticker_from_tiingo "MGK" "2024-01-02" "2024-01-08" "TEST_KEY"
            "https://api.tiingo.com/tiingo/daily" (world_of forbidden ∅)
          = (Raise (HTTPError 403), world_after forbidden ∅ [HttpGet mgk_request])) as Hf
    by (vm_compute; reflexivity).
  split; [exact Hf|].
  exact (fetch_raises_no_index_error _ _ _ _ _ _ _ _ Hf).
Defined.

(** ** Failures that are not retried *)

(** The attempt that ends the loop with an exception that is not retried. *)
Lemma request_loop_not_found attempt rest last ticker req w response :
  network w (requests_made w) req = Responded response ->
  status_code response = 404 ->
  request_loop (attempt :: rest) last ticker req w =
    (Raise (ValueError ("Ticker '" +:+ ticker +:+ "' not found on Tiingo (404)")),
     emit (HttpGet req) w).
Proof.
  intros Hn Hs. simpl. unfold bind at 1. unfold requests_get at 1. rewrite Hn, Hs.
  reflexivity.
Qed.

Lemma request_loop_client_error attempt rest last ticker req w response :
  network w (requests_made w) req = Responded response ->
  400 <= status_code response < 500 ->
  status_code response <> 404 ->
  status_code response <> 429 ->
  request_loop (attempt :: rest) last ticker req w =
    (Raise (HTTPError (status_code response)), emit (HttpGet req) w).
Proof.
  intros Hn Hs H404 H429. simpl. unfold bind at 1. unfold requests_get at 1. rewrite Hn.
  replace ((status_code response =? 429) || (500 <=? status_code response)) with false
    by (symmetry; apply orb_false_iff; lia).
  replace (status_code response =? 404) with false by lia.
  unfold raise_for_status.
  replace ((400 <=? status_code response) && (status_code response <? 600)) with true
    by (symmetry; apply andb_true_iff; lia).
  reflexivity.
Qed.

Lemma request_loop_request_failed attempt rest last ticker req w exc :
  network w (requests_made w) req = RequestFailed exc ->
  request_loop (attempt :: rest) last ticker req w =
    (Raise (RequestException exc), emit (HttpGet req) w).
Proof.
  intros Hn. simpl. unfold bind at 1. unfold requests_get at 1. by rewrite Hn.
Qed.

(** X3. In [fetch_ticker_from_tiingo], the first attempt that meets
    something other than HTTP 429, a 5xx or a connection failure ends the
    call, with no sleep and no further request: after [k <= 3] retried
    attempts, a 404 raises [ValueError] naming the ticker, another 4xx
    raises the [HTTPError] of [raise_for_status], and a request exception
    that is no connection failure goes out as it is. *)
Theorem fetch_stops_at_first_final_failure ticker start_date end_date api_key base_url w k :
  api_key <> "" ->
  (k <= 3)%nat ->
  let req := tiingo_request ticker start_date end_date api_key base_url in
  let outcome (i : nat) := network w (requests_made w + i)%nat req in
  let fetch := fetch_ticker_from_tiingo ticker start_date end_date api_key base_url in
  (forall i, (i < k)%nat -> retryable (outcome i)) ->
  exists w',
    trace w' = trace w ++ retries req k ++ [HttpGet req] /\
    (forall response,
       outcome k = Responded response ->
       status_code response = 404 ->
       fetch w = (Raise (ValueError ("Ticker '" +:+ ticker +:+ "' not found on Tiingo (404)")),
                  w')) /\
    (forall response,
       outcome k = Responded response ->
       400 <= status_code response < 500 ->
       status_code response <> 404 ->
       status_code response <> 429 ->
       fetch w = (Raise (HTTPError (status_code response)), w')) /\
    (forall exc,
       outcome k = RequestFailed exc ->
       fetch w = (Raise (RequestException exc), w')).
Proof.
  intros Hkey Hk req outcome fetch Hr.
  assert (fetch w = bind (request_loop (seq 0 4) None ticker req)
                         (frame_of_response ticker) w) as Hfetch.
  { unfold fetch, fetch_ticker_from_tiingo. by rewrite decide_False. }
  destruct (request_loop_retries k 0 (4 - k) None ticker req w)
    as (last' & w1 & H1 & Hnet & Hn & Ht); [lia|exact Hr|].
  replace (k + (4 - k))%nat with 4%nat in H1 by lia.
  destruct (seq (0 + k) (4 - k)) as [|a rest] eqn:Eseq.
  { apply (f_equal length) in Eseq. rewrite length_seq in Eseq. simpl in Eseq. lia. }
  exists (emit (HttpGet req) w1). split; [|split; [|split]].
  - simpl. rewrite Ht, <- app_assoc. reflexivity.
  - intros response Ho Hs. rewrite Hfetch. apply bind_raise. rewrite H1.
    apply (request_loop_not_found _ _ _ _ _ _ response); [|done]. rewrite Hnet, Hn. exact Ho.
  - intros response Ho Hs H404 H429. rewrite Hfetch. apply bind_raise. rewrite H1.
    apply (request_loop_client_error _ _ _ _ _ _ response); try done. rewrite Hnet, Hn. exact Ho.
  - intros exc Ho. rewrite Hfetch. apply bind_raise. rewrite H1.
    apply request_loop_request_failed. rewrite Hnet, Hn. exact Ho.
Qed.

(** A provider that answers 503 and then 404, one that answers 403, and a
    request that cannot be sent. *)
Lemma fetch_stops_at_first_final_failure_witness :
  "TEST_KEY" <> "" /\
  (forall i, (i < 1)%nat -> retryable (unknown_ticker i mgk_request)) /\
  fetch_ticker_from_tiingo "MGK" "2024-01-02" "2024-01-08" "TEST_KEY"
    "https://api.tiingo.com/tiingo/daily" (world_of unknown_ticker ∅)
    = (Raise (ValueError "Ticker 'MGK' not found on Tiingo (404)"),
       world_after unknown_ticker ∅ [HttpGet mgk_request; Sleep 1; HttpGet mgk_request]) /\
  fetch_ticker_from_tiingo "MGK" "2024-01-02" "2024-01-08" "TEST_KEY"
    "https://api.tiingo.com/tiingo/daily" (world_of forbidden ∅)
    = (Raise (HTTPError 403), world_after forbidden ∅ [HttpGet mgk_request]) /\
  fetch_ticker_from_tiingo "MGK" "2024-01-02" "2024-01-08" "TEST_KEY"
    "https://api.tiingo.com/tiingo/daily" (world_of malformed ∅)
    = (Raise (RequestException "Invalid URL"), world_after malformed ∅ [HttpGet mgk_request]).
Proof.
  assert ("TEST_KEY" <> "") as Hkey by discriminate.
  assert (forall i, (i < 1)%nat -> retryable (unknown_ticker i mgk_request)) as Hr.
  { intros [|i] Hi; simpl; lia. }
  assert (forall (w w' : World),
            network w' = network w -> files w' = files w -> dirs w' = dirs w ->
            snapshots w' = snapshots w -> tie_order w' = tie_order w ->
            trace w' = trace w -> w' = w) as Hext.
  { intros [] []; simpl; congruence. }
  split; [exact Hkey|]. split; [exact Hr|]. split; [|split].
  - destruct (fetch_stops_at_first_final_failure "MGK" "2024-01-02" "2024-01-08" "TEST_KEY"
                "https://api.tiingo.com/tiingo/daily" (world_of unknown_ticker ∅) 1
                Hkey ltac:(lia) Hr) as (w' & Ht & H & _).
    specialize (H (response_with 404 JsonInvalid) eq_refl eq_refl).
    rewrite H. f_equal.
    destruct (fetch_ticker_same_files _ _ _ _ _ _ _ _ H) as (? & ? & ? & ?).
    pose proof (fetch_ticker_tie_order _ _ _ _ _ _ _ _ H).
    by apply Hext.
  - destruct (fetch_stops_at_first_final_failure "MGK" "2024-01-02" "2024-01-08" "TEST_KEY"
                "https://api.tiingo.com/tiingo/daily" (world_of forbidden ∅) 0
                Hkey ltac:(lia) ltac:(intros i Hi; lia)) as (w' & Ht & _ & H & _).
    specialize (H (response_with 403 JsonInvalid) eq_refl ltac:(simpl; lia)
                  ltac:(discriminate) ltac:(discriminate)).
    rewrite H. f_equal.
    destruct (fetch_ticker_same_files _ _ _ _ _ _ _ _ H) as (? & ? & ? & ?).
    pose proof (fetch_ticker_tie_order _ _ _ _ _ _ _ _ H).
    by apply Hext.
  - destruct (fetch_stops_at_first_final_failure "MGK" "2024-01-02" "2024-01-08" "TEST_KEY"
                "https://api.tiingo.com/tiingo/daily" (world_of malformed ∅) 0
                Hkey ltac:(lia) ltac:(intros i Hi; lia)) as (w' & Ht & _ & _ & H).
    specialize (H "Invalid URL" eq_refl).
    rewrite H. f_equal.
    destruct (fetch_ticker_same_files _ _ _ _ _ _ _ _ H) as (? & ? & ? & ?).
    pose proof (fetch_ticker_tie_order _ _ _ _ _ _ _ _ H).
    by apply Hext.
Defined.

(** A [ConnectionError] out of the loop comes from its last attempt. *)
Lemma request_loop_connection_error k : forall a last ticker req w msg cause w',
  (a + k = 3)%nat ->
  request_loop (seq a (S k)) last ticker req w = (Raise (ConnectionError msg cause), w') ->
  trace w' = trace w
             ++ concat ((fun s => [HttpGet req; Sleep s]) <$> take k (drop a _BACKOFF_SECONDS))
             ++ [HttpGet req] /\
  ((exists status,
      (status = 429 \/ 500 <= status) /\
      msg = "HTTP " +:+ pretty status +:+ " after 4 attempts for " +:+ ticker /\
      cause = None) \/
   (exists exc,
      msg = "Connection failed after 4 attempts for " +:+ ticker /\ cause = Some exc)).
Proof.
  induction k as [|k IH]; intros a last ticker req w msg cause w' Ha.
  - assert (a = 3%nat) as -> by lia. simpl. unfold bind at 1. unfold requests_get at 1.
    destruct (network w (requests_made w) req) as [response|exc|exc]; [| |by intros [=]].
    + destruct (_ || _) eqn:E.
      * simpl. intros [= <- <- <-]. split; [done|]. left. exists (status_code response).
        split; [|done]. apply orb_true_iff in E. lia.
      * destruct (status_code response =? 404); [by intros [=]|]. unfold raise_for_status, bind, raise, ret.
        by destruct (_ && _).
    + simpl. intros [= <- <- <-]. split; [done|]. right. eauto.
  - assert ((a <? _MAX_RETRIES)%nat = true) as Hlt by (apply Nat.ltb_lt; unfold _MAX_RETRIES; lia).
    destruct (_BACKOFF_SECONDS !! a) as [s|] eqn:Hs.
    2:{ apply lookup_ge_None in Hs. simpl in Hs. lia. }
    change (seq a (S (S k))) with (a :: seq (S a) (S k)).
    cbn [request_loop]. unfold bind at 1. unfold requests_get at 1.
    rewrite (drop_S _ _ _ Hs). cbn [take fmap list_fmap concat].
    destruct (network w (requests_made w) req) as [response|exc|exc]; [| |by intros [=]].
    + destruct (_ || _) eqn:E.
      * rewrite Hlt, bind_lift. unfold backoff. rewrite Hs. unfold bind, time_sleep.
        intros H. apply IH in H as [Ht Hm]; [|lia]. split; [|done].
        rewrite Ht. simpl. by rewrite <- !app_assoc.
      * destruct (status_code response =? 404); [by intros [=]|]. unfold raise_for_status, bind, raise, ret.
        by destruct (_ && _).
    + rewrite Hlt, bind_lift. unfold backoff. rewrite Hs. unfold bind, time_sleep.
      intros H. apply IH in H as [Ht Hm]; [|lia]. split; [|done].
      rewrite Ht. simpl. by rewrite <- !app_assoc.
Qed.

(** X4. [fetch_ticker_from_tiingo] raises [ConnectionError] in one
    situation only: its four attempts are spent and the last one met HTTP
    429, a 5xx or a connection failure.  The call has then sent four
    requests and slept 1, 2 and 4 seconds; the message has the number of
    attempts and the last status, with no cause, or the cause is the last
    connection exception.  In particular the [else] branch of the loop is
    never taken, and nothing after the loop raises this exception. *)
Theorem connection_error_only_after_four_attempts
    ticker start_date end_date api_key base_url w msg cause w' :
  fetch_ticker_from_tiingo ticker start_date end_date api_key base_url w
    = (Raise (ConnectionError msg cause), w') ->
  let req := tiingo_request ticker start_date end_date api_key base_url in
  trace w' = trace w ++ retries req 3 ++ [HttpGet req] /\
  ((exists status,
      (status = 429 \/ 500 <= status) /\
      msg = "HTTP " +:+ pretty status +:+ " after 4 attempts for " +:+ ticker /\
      cause = None) \/
   (exists exc,
      msg = "Connection failed after 4 attempts for " +:+ ticker /\ cause = Some exc)).
Proof.
  intros H req. unfold fetch_ticker_from_tiingo in H. destruct (decide _); [done|].
  fold req in H. unfold bind in H.
  destruct (request_loop _ _ _ _ _) as [[response|e] w1] eqn:Hloop.
  - apply frame_of_response_effects in H as [_ H]. by specialize (H _ eq_refl).
  - injection H as -> ->.
    by apply (request_loop_connection_error 3 0) in Hloop.
Qed.

Lemma connection_error_only_after_four_attempts_witness :
  let w' := world_after down ∅
              [HttpGet mgk_request; Sleep 1; HttpGet mgk_request; Sleep 2;
               HttpGet mgk_request; Sleep 4; HttpGet mgk_request] in
  fetch_ticker_from_tiingo "MGK" "2024-01-02" "2024-01-08" "TEST_KEY"
    "https://api.tiingo.com/tiingo/daily" (world_of down ∅)
    = (Raise (ConnectionError "HTTP 500 after 4 attempts for MGK" None), w') /\
  trace w' = retries mgk_request 3 ++ [HttpGet mgk_request].
Proof.
  intros w'.
  assert (fetch_ticker_from_tiingo "MGK" "2024-01-02" "2024-01-08" "TEST_KEY"
            "https://api.tiingo.com/tiingo/daily" (world_of down ∅)
          = (Raise (ConnectionError "HTTP 500 after 4 attempts for MGK" None), w')) as Hf
    by (vm_compute; reflexivity).
  split; [exact Hf|].
  exact (proj1 (connection_error_only_after_four_attempts _ _ _ _ _ _ _ _ _ Hf)).
Defined.

(** [fetch_vix] sends its one request and has no other effect. *)
Lemma fetch_vix_world start_date end_date w r w' :
  fetch_vix start_date end_date w = (r, w') ->
  w' = emit (HttpGet (vix_request start_date end_date)) w.
Proof.
  unfold fetch_vix. unfold bind at 1. unfold requests_get at 1.
  set (w0 := emit _ w). clearbody w0.
  destruct (network w _ _) as [response|exc|exc]; try (by intros [= <- <-]).
  unfold bind at 1. unfold raise_for_status. destruct (_ && _); [by intros [= <- <-]|].
  unfold ret. rewrite bind_lift. destruct (read_csv _ _ _) as [t|e]; [|by intros [= <- <-]].
  rewrite bind_lift. destruct (set_index _ _) as [df|e]; [|by intros [= <- <-]].
  rewrite bind_lift. destruct (getitem _ _) as [s|e]; [|by intros [= <- <-]].
  rewrite bind_lift. destruct (dropna _ _) as [df1|e]; [|by intros [= <- <-]].
  rewrite bind_lift. unfold df_sort_index.
  destruct (enforce_float64 _ _) as [df2|e]; by intros [= <- <-].
Qed.

(** X5. [fetch_vix] has no retry: whatever the network does and whatever
    comes of the call, it sends exactly one request, never sleeps, logs
    nothing and touches no file; a connection failure or another request
    exception goes out as it is, and a 4xx or 5xx status, 429 and 503
    included, raises the [HTTPError] of [raise_for_status]. *)
Theorem fetch_vix_makes_one_request start_date end_date w :
  let req := vix_request start_date end_date in
  let w1 := emit (HttpGet req) w in
  (forall r w', fetch_vix start_date end_date w = (r, w') -> w' = w1) /\
  (forall exc,
     network w (requests_made w) req = ConnectionFailed exc ->
     fetch_vix start_date end_date w = (Raise (RequestException exc), w1)) /\
  (forall exc,
     network w (requests_made w) req = RequestFailed exc ->
     fetch_vix start_date end_date w = (Raise (RequestException exc), w1)) /\
  (forall response,
     network w (requests_made w) req = Responded response ->
     400 <= status_code response < 600 ->
     fetch_vix start_date end_date w = (Raise (HTTPError (status_code response)), w1)).
Proof.
  intros req w1. split; [|split; [|split]].
  - intros r w'. apply fetch_vix_world.
  - intros exc Hn. unfold fetch_vix. unfold bind at 1. unfold requests_get at 1.
    fold req. by rewrite Hn.
  - intros exc Hn. unfold fetch_vix. unfold bind at 1. unfold requests_get at 1.
    fold req. by rewrite Hn.
  - intros response Hn Hs. unfold fetch_vix. unfold bind at 1. unfold requests_get at 1.
    fold req. rewrite Hn. unfold bind at 1. unfold raise_for_status.
    replace ((400 <=? status_code response) && (status_code response <? 600)) with true
      by (symmetry; apply andb_true_iff; lia).
    reflexivity.
Qed.

Lemma fetch_vix_makes_one_request_witness :
  fetch_vix "2024-01-02" "2024-01-08" (world_of (fred (FileCsv vix_feed)) ∅)
    = (Ok vix_filled_frame, world_after (fred (FileCsv vix_feed)) ∅ [HttpGet vix_request_2024]) /\
  fetch_vix "2024-01-02" "2024-01-08" (world_of offline ∅)
    = (Raise (RequestException "offline"), world_after offline ∅ [HttpGet vix_request_2024]) /\
  fetch_vix "2024-01-02" "2024-01-08" (world_of malformed ∅)
    = (Raise (RequestException "Invalid URL"),
       world_after malformed ∅ [HttpGet vix_request_2024]) /\
  fetch_vix "2024-01-02" "2024-01-08" (world_of down ∅)
    = (Raise (HTTPError 503), world_after down ∅ [HttpGet vix_request_2024]).
Proof.
  split; [|split; [|split]].
  - destruct (fetch_vix "2024-01-02" "2024-01-08" (world_of (fred (FileCsv vix_feed)) ∅))
      as [r w'] eqn:E.
    rewrite (proj1 (fetch_vix_makes_one_request "2024-01-02" "2024-01-08"
                      (world_of (fred (FileCsv vix_feed)) ∅)) r w' E).
    f_equal. vm_compute in E. by injection E as <- _.
  - exact (proj1 (proj2 (fetch_vix_makes_one_request "2024-01-02" "2024-01-08"
                           (world_of offline ∅))) "offline" eq_refl).
  - exact (proj1 (proj2 (proj2 (fetch_vix_makes_one_request "2024-01-02" "2024-01-08"
                                  (world_of malformed ∅)))) "Invalid URL" eq_refl).
  - exact (proj2 (proj2 (proj2 (fetch_vix_makes_one_request "2024-01-02" "2024-01-08"
                                  (world_of down ∅)))) (response_with 503 JsonInvalid) eq_refl
             ltac:(simpl; lia)).
Defined.

(** ** Loads that fail, loads that miss the cache *)

Lemma requests_made_trace w w' evs :
  trace w' = trace w ++ evs -> requests_made w' = (requests_made w + http_gets evs)%nat.
Proof. intros H. unfold requests_made, http_gets. by rewrite H, filter_app, length_app. Qed.

(** X6. On a cache miss, [load_ticker] and [load_vix] catch nothing: an
    exception of the fetch goes out of the load as it is, and the load has
    then made no directory and written no artifact, so that a later load
    misses the cache again. *)
Theorem failed_fetch_is_failed_load :
  (forall ticker config w e w',
     cache_miss (ticker_cache_path ticker config) config w ->
     fetch_ticker_from_tiingo ticker (start_date config) (end_date config)
       (tiingo_api_key config) (tiingo_base_url config) w = (Raise e, w') ->
     load_ticker ticker config w = (Raise e, w') /\
     files w' = files w /\ dirs w' = dirs w /\ snapshots w' = snapshots w) /\
  (forall config w e w',
     cache_miss (vix_cache_path config) config w ->
     fetch_vix (start_date config) (end_date config) w = (Raise e, w') ->
     load_vix config w = (Raise e, w') /\
     files w' = files w /\ dirs w' = dirs w /\ snapshots w' = snapshots w).
Proof.
  split.
  - intros ticker config w e w' Hmiss Hf.
    destruct (fetch_ticker_same_files _ _ _ _ _ _ _ _ Hf) as (_ & ? & ? & ?).
    split; [|done]. rewrite (load_ticker_miss _ _ _ Hmiss). by apply bind_raise.
  - intros config w e w' Hmiss Hf.
    destruct (fetch_vix_same_files _ _ _ _ _ Hf) as (_ & ? & ? & ?).
    split; [|done]. rewrite (load_vix_miss _ _ Hmiss). by apply bind_raise.
Qed.

Lemma failed_fetch_is_failed_load_witness :
  let w' := world_after down ∅
              [HttpGet mgk_request; Sleep 1; HttpGet mgk_request; Sleep 2;
               HttpGet mgk_request; Sleep 4; HttpGet mgk_request] in
  let v' := world_after offline ∅ [HttpGet vix_request_2024] in
  cache_miss (ticker_cache_path "MGK" test_config) test_config (world_of down ∅) /\
  load_ticker "MGK" test_config (world_of down ∅)
    = (Raise (ConnectionError "HTTP 500 after 4 attempts for MGK" None), w') /\
  files w' = ∅ /\
  cache_miss (vix_cache_path test_config) test_config (world_of offline ∅) /\
  load_vix test_config (world_of offline ∅) = (Raise (RequestException "offline"), v') /\
  files v' = ∅.
Proof.
  intros w' v'.
  assert (cache_miss (ticker_cache_path "MGK" test_config) test_config (world_of down ∅))
    as Hm1 by (right; split; [reflexivity|apply not_elem_of_empty]).
  assert (cache_miss (vix_cache_path test_config) test_config (world_of offline ∅))
    as Hm2 by (right; split; [reflexivity|apply not_elem_of_empty]).
  destruct failed_fetch_is_failed_load as [Ht Hv].
  destruct (Ht "MGK" test_config (world_of down ∅)
              (ConnectionError "HTTP 500 after 4 attempts for MGK" None) w' Hm1
              ltac:(vm_compute; reflexivity)) as (H1 & H2 & _).
  destruct (Hv test_config (world_of offline ∅) (RequestException "offline") v' Hm2
              ltac:(vm_compute; reflexivity)) as (H3 & H4 & _).
  split; [exact Hm1|]. split; [exact H1|]. split; [exact H2|].
  split; [exact Hm2|]. split; [exact H3|exact H4].
Defined.

(** X7. The series is fetched before the cache directory is made, and
    nothing is caught: when a file stands where the directory should be,
    a load that misses the cache and whose fetch returns a frame raises
    [FileExistsError], after the requests of the fetch; the frame is lost
    and no artifact is written. *)
Theorem fetched_series_is_lost_when_the_cache_cannot_be_made :
  (forall ticker config w f df w1,
     cache_miss (ticker_cache_path ticker config) config w ->
     files w !! cache_dir config = Some f ->
     fetch_ticker_from_tiingo ticker (start_date config) (end_date config)
       (tiingo_api_key config) (tiingo_base_url config) w = (Ok df, w1) ->
     load_ticker ticker config w = (Raise (FileExistsError (cache_dir config)), w1) /\
     (requests_made w < requests_made w1)%nat /\
     files w1 = files w) /\
  (forall config w f df w1,
     cache_miss (vix_cache_path config) config w ->
     files w !! cache_dir config = Some f ->
     fetch_vix (start_date config) (end_date config) w = (Ok df, w1) ->
     load_vix config w = (Raise (FileExistsError (cache_dir config)), w1) /\
     requests_made w1 = S (requests_made w) /\
     files w1 = files w).
Proof.
  split.
  - intros ticker config w f df w1 Hmiss Hdir Hf.
    destruct (fetch_ticker_same_files _ _ _ _ _ _ _ _ Hf) as (_ & Hfiles & _ & _).
    split; [|split; [|done]].
    + rewrite (load_ticker_miss _ _ _ Hmiss), (bind_ok _ _ _ _ _ Hf).
      unfold bind at 1. unfold os_makedirs. by rewrite Hfiles, Hdir.
    + destruct (fetch_effects _ _ _ _ _ _ _ _ Hf) as (evs & Ht & _ & _ & _ & Hone).
      specialize (Hone df eq_refl). rewrite (requests_made_trace _ _ _ Ht). lia.
  - intros config w f df w1 Hmiss Hdir Hf.
    destruct (fetch_vix_same_files _ _ _ _ _ Hf) as (_ & Hfiles & _ & _).
    split; [|split; [|done]].
    + rewrite (load_vix_miss _ _ Hmiss), (bind_ok _ _ _ _ _ Hf).
      unfold bind at 1. unfold os_makedirs. by rewrite Hfiles, Hdir.
    + apply fetch_vix_world in Hf as ->.
      rewrite (requests_made_trace w _ [HttpGet (vix_request (start_date config)
                                                   (end_date config))]); [|done].
      unfold http_gets. simpl. lia.
Qed.

(** A file named data/cache. *)
Lemma fetched_series_is_lost_when_the_cache_cannot_be_made_witness :
  let fs : gmap string File := <["data/cache" := FileGarbage]> ∅ in
  cache_miss (ticker_cache_path "MGK" test_config) test_config (world_of healthy fs) /\
  load_ticker "MGK" test_config (world_of healthy fs)
    = (Raise (FileExistsError "data/cache"), world_after healthy fs [HttpGet mgk_request]) /\
  cache_miss (vix_cache_path test_config) test_config (world_of (fred (FileCsv vix_feed)) fs) /\
  load_vix test_config (world_of (fred (FileCsv vix_feed)) fs)
    = (Raise (FileExistsError "data/cache"),
       world_after (fred (FileCsv vix_feed)) fs [HttpGet vix_request_2024]).
Proof.
  intros fs.
  assert (cache_miss (ticker_cache_path "MGK" test_config) test_config (world_of healthy fs))
    as Hm1 by (right; split; [reflexivity|apply not_elem_of_empty]).
  assert (cache_miss (vix_cache_path test_config) test_config
            (world_of (fred (FileCsv vix_feed)) fs))
    as Hm2 by (right; split; [reflexivity|apply not_elem_of_empty]).
  destruct fetched_series_is_lost_when_the_cache_cannot_be_made as [Ht Hv].
  split; [exact Hm1|]. split; [|split; [exact Hm2|]].
  - exact (proj1 (Ht "MGK" test_config (world_of healthy fs) FileGarbage mgk_frame
                    (world_after healthy fs [HttpGet mgk_request]) Hm1 eq_refl
                    ltac:(vm_compute; reflexivity))).
  - exact (proj1 (Hv test_config (world_of (fred (FileCsv vix_feed)) fs) FileGarbage
                    vix_filled_frame
                    (world_after (fred (FileCsv vix_feed)) fs [HttpGet vix_request_2024])
                    Hm2 eq_refl ltac:(vm_compute; reflexivity))).
Defined.

(** X8. The API key is looked at on a cache miss only.  With an empty key,
    a [load_ticker] that misses the cache raises [ValueError] before any
    request, makes no directory and writes nothing; one that hits the
    cache reads the artifact as with any key. *)
Theorem api_key_is_checked_on_a_miss_only ticker config w :
  tiingo_api_key config = "" ->
  (cache_miss (ticker_cache_path ticker config) config w ->
   load_ticker ticker config w = (Raise (ValueError "API key must not be empty"), w)) /\
  (forall f,
     use_cache config = true ->
     files w !! ticker_cache_path ticker config = Some f ->
     load_ticker ticker config w = (read_ticker_artifact f, w)).
Proof.
  intros Hk. split.
  - intros Hmiss. rewrite (load_ticker_miss _ _ _ Hmiss). apply bind_raise.
    unfold fetch_ticker_from_tiingo. by rewrite Hk.
  - intros f Hc Hf. by apply load_ticker_hit.
Qed.

(** The configuration of the offline tests, on an empty cache and on the
    MGK fixture. *)
Lemma api_key_is_checked_on_a_miss_only_witness :
  tiingo_api_key offline_config = "" /\
  cache_miss (ticker_cache_path "MGK" offline_config) offline_config (world_of healthy ∅) /\
  load_ticker "MGK" offline_config (world_of healthy ∅)
    = (Raise (ValueError "API key must not be empty"), world_of healthy ∅) /\
  load_ticker "MGK" offline_config offline_world
    = (read_ticker_artifact (FileCsv mgk_fixture), offline_world).
Proof.
  assert (cache_miss (ticker_cache_path "MGK" offline_config) offline_config
            (world_of healthy ∅))
    as Hm by (right; split; [reflexivity|apply not_elem_of_empty]).
  split; [reflexivity|]. split; [exact Hm|]. split.
  - exact (proj1 (api_key_is_checked_on_a_miss_only "MGK" offline_config
                    (world_of healthy ∅) eq_refl) Hm).
  - exact (proj2 (api_key_is_checked_on_a_miss_only "MGK" offline_config
                    offline_world eq_refl) (FileCsv mgk_fixture) eq_refl
             ltac:(vm_compute; reflexivity)).
Defined.

(** X9. A load that misses the cache, be it because [use_cache] is off
    with the artifact present, and returns a frame has asked the network:
    [load_ticker] has sent between one and four requests, [load_vix]
    exactly one, and the frame is the one the fetch returned. *)
Theorem cache_miss_load_asks_the_network :
  (forall ticker config w df w',
     cache_miss (ticker_cache_path ticker config) config w ->
     load_ticker ticker config w = (Ok df, w') ->
     (requests_made w < requests_made w' <= requests_made w + 4)%nat /\
     exists w1,
       fetch_ticker_from_tiingo ticker (start_date config) (end_date config)
         (tiingo_api_key config) (tiingo_base_url config) w = (Ok df, w1)) /\
  (forall config w df w',
     cache_miss (vix_cache_path config) config w ->
     load_vix config w = (Ok df, w') ->
     requests_made w' = S (requests_made w) /\
     exists w1, fetch_vix (start_date config) (end_date config) w = (Ok df, w1)).
Proof.
  split.
  - intros ticker config w df w' Hmiss H.
    rewrite (load_ticker_miss ticker config w Hmiss) in H.
    apply write_through in H as (_ & _ & _ & w1 & Hf & Htr);
      [|intros r w2; apply fetch_ticker_same_files].
    split; [|eauto].
    destruct (fetch_effects _ _ _ _ _ _ _ _ Hf) as (evs & Ht & _ & Hn & _ & Hone).
    specialize (Hone df eq_refl).
    rewrite (requests_made_trace w w' (evs ++ [MakeDirs (cache_dir config);
               OpenForWriting (ticker_cache_path ticker config);
               WriteAndClose (ticker_cache_path ticker config)])).
    + rewrite http_gets_app. change (http_gets [_; _; _]) with 0%nat. lia.
    + by rewrite Htr, Ht, <- app_assoc.
  - intros config w df w' Hmiss H.
    rewrite (load_vix_miss config w Hmiss) in H.
    apply write_through in H as (_ & _ & _ & w1 & Hf & Htr);
      [|intros r w2; apply fetch_vix_same_files].
    split; [|eauto].
    apply fetch_vix_world in Hf as ->.
    rewrite (requests_made_trace w w' [HttpGet (vix_request (start_date config) (end_date config));
               MakeDirs (cache_dir config); OpenForWriting (vix_cache_path config);
               WriteAndClose (vix_cache_path config)]).
    + unfold http_gets. simpl. lia.
    + rewrite Htr. simpl. by rewrite <- app_assoc.
Qed.

(** With [use_cache] off, the artifacts of the offline tests are not read:
    the flaky provider is asked three times, FRED once. *)
Lemma cache_miss_load_asks_the_network_witness :
  let w := world_of flaky (files offline_world) in
  let v := world_of (fred (FileCsv vix_feed)) (files offline_world) in
  cache_miss (ticker_cache_path "MGK" uncached_config) uncached_config w /\
  cache_miss (vix_cache_path uncached_config) uncached_config v /\
  (exists w',
     load_ticker "MGK" uncached_config w = (Ok mgk_frame, w') /\
     (requests_made w < requests_made w' <= requests_made w + 4)%nat) /\
  (exists v',
     load_vix uncached_config v = (Ok vix_filled_frame, v') /\
     requests_made v' = S (requests_made v)).
Proof.
  intros w v.
  assert (cache_miss (ticker_cache_path "MGK" uncached_config) uncached_config w)
    as Hm1 by (by left).
  assert (cache_miss (vix_cache_path uncached_config) uncached_config v)
    as Hm2 by (by left).
  destruct cache_miss_load_asks_the_network as [Ht Hv].
  split; [exact Hm1|]. split; [exact Hm2|]. split.
  - eexists. split; [vm_compute; reflexivity|].
    exact (proj1 (Ht "MGK" uncached_config w mgk_frame _ Hm1 ltac:(vm_compute; reflexivity))).
  - eexists. split; [vm_compute; reflexivity|].
    exact (proj1 (Hv uncached_config v vix_filled_frame _ Hm2 ltac:(vm_compute; reflexivity))).
Defined.

Lemma getitem_missing k cols : k ∉ cols.*1 -> getitem k cols = Raise (KeyError k).
Proof.
  induction cols as [|[k' s] r IH]; simpl; [done|].
  intros Hn. rewrite decide_False; [|intros ->; apply Hn; by left].
  apply IH. intros ?. apply Hn. by right.
Qed.

Lemma inferred_labels na_values (cols : list (string * list csv_cell)) :
  (prod_map id (infer_column na_values) <$> cols).*1 = cols.*1.
Proof. induction cols as [|[k c] r IH]; simpl; [done|]. by f_equal. Qed.

(** X10. An artifact that cannot be read is not fetched again: with
    [use_cache] set and a file at the artifact location, [load_ticker]
    raises what reading it raises, [EmptyDataError] for an empty file (as
    an interrupted write leaves it), [ParserError] for a text that is no
    CSV, [ValueError] for a CSV with no date column, [KeyError] for one
    with no adjOpen column, and sends no request and leaves the file as it
    is. *)
Theorem unreadable_artifact_is_not_refetched ticker config w f :
  use_cache config = true ->
  files w !! ticker_cache_path ticker config = Some f ->
  (f = FileEmpty -> load_ticker ticker config w = (Raise EmptyDataError, w)) /\
  (f = FileGarbage -> load_ticker ticker config w = (Raise ParserError, w)) /\
  (forall t,
     f = FileCsv t ->
     csv_date_label t <> "date" ->
     load_ticker ticker config w =
       (Raise (ValueError "Missing column provided to 'parse_dates'"), w)) /\
  (forall t,
     f = FileCsv t ->
     csv_date_label t = "date" ->
     "adjOpen" ∉ (csv_columns t).*1 ->
     load_ticker ticker config w = (Raise (KeyError "adjOpen"), w)).
Proof.
  intros Hc Hf. rewrite (load_ticker_hit _ _ _ _ Hc Hf).
  split; [by intros ->|]. split; [by intros ->|]. split.
  - intros t -> Hl. unfold read_ticker_artifact, read_csv. by rewrite decide_False.
  - intros t -> Hl Hn. unfold read_ticker_artifact, read_csv. rewrite decide_True by done.
    cbn [and_then]. unfold set_index. cbn [date_label date_values value_columns and_then].
    rewrite decide_True by done. cbn [and_then].
    unfold enforce_dtypes, enforce_float64. cbn [columns].
    rewrite getitem_missing; [done|]. by rewrite inferred_labels.
Qed.

Lemma unreadable_artifact_is_not_refetched_witness :
  let broken f := world_of healthy (<["data/cache/MGK.csv" := f]> ∅) in
  load_ticker "MGK" test_config (broken FileEmpty)
    = (Raise EmptyDataError, broken FileEmpty) /\
  load_ticker "MGK" test_config (broken FileGarbage)
    = (Raise ParserError, broken FileGarbage) /\
  load_ticker "MGK" test_config (broken (FileCsv vix_feed))
    = (Raise (ValueError "Missing column provided to 'parse_dates'"),
       broken (FileCsv vix_feed)) /\
  load_ticker "MGK" test_config (broken (FileCsv vix_fixture))
    = (Raise (KeyError "adjOpen"), broken (FileCsv vix_fixture)).
Proof.
  intros broken.
  assert (forall f, files (broken f) !! ticker_cache_path "MGK" test_config = Some f) as Hf.
  { intros f. apply lookup_insert_eq. }
  split; [|split; [|split]].
  - exact (proj1 (unreadable_artifact_is_not_refetched "MGK" test_config _ _
                    eq_refl (Hf FileEmpty)) eq_refl).
  - exact (proj1 (proj2 (unreadable_artifact_is_not_refetched "MGK" test_config _ _
                           eq_refl (Hf FileGarbage))) eq_refl).
  - exact (proj1 (proj2 (proj2 (unreadable_artifact_is_not_refetched "MGK" test_config _ _
                                  eq_refl (Hf (FileCsv vix_feed))))) vix_feed eq_refl
             ltac:(discriminate)).
  - refine (proj2 (proj2 (proj2 (unreadable_artifact_is_not_refetched "MGK" test_config _ _
                                   eq_refl (Hf (FileCsv vix_fixture))))) vix_fixture eq_refl
              eq_refl _).
    simpl. intros [[=]|[]%elem_of_nil]%elem_of_cons.
Defined.

(** X11. The cache key is the upper-cased ticker: with the cache enabled and
    the artifact of a ticker present, a load under any spelling of the
    ticker that differs in letter case alone is the same computation. *)
Theorem cache_key_ignores_letter_case ticker ticker' config w f :
  upper ticker' = upper ticker ->
  use_cache config = true ->
  files w !! ticker_cache_path ticker config = Some f ->
  load_ticker ticker' config w = load_ticker ticker config w /\
  load_ticker ticker' config w = (read_ticker_artifact f, w).
Proof.
  intros Hu Hc Hf.
  assert (ticker_cache_path ticker' config = ticker_cache_path ticker config) as Hp.
  { unfold ticker_cache_path. by rewrite Hu. }
  rewrite (load_ticker_hit ticker config w f Hc Hf).
  rewrite <- Hp in Hf. by rewrite (load_ticker_hit ticker' config w f Hc Hf).
Qed.

Lemma cache_key_ignores_letter_case_witness :
  upper "mgk" = upper "MGK" /\
  load_ticker "mgk" offline_config offline_world
    = load_ticker "MGK" offline_config offline_world /\
  load_ticker "mgk" offline_config offline_world
    = (read_ticker_artifact (FileCsv mgk_fixture), offline_world).
Proof.
  split; [reflexivity|].
  exact (cache_key_ignores_letter_case "MGK" "mgk" offline_config offline_world
           (FileCsv mgk_fixture) eq_refl eq_refl ltac:(vm_compute; reflexivity)).
Defined.

(** ** Records that are already in order *)

Lemma sort_index_sorted_input ties df : Sorted Z.le (index df) -> sort_index ties df = df.
Proof.
  intros Hs. unfold sort_index.
  by rewrite (proj2 (is_monotonic_increasing_sorted _) Hs).
Qed.

Lemma strictly_sorted_sorted (ks : list Z) : StronglySorted Z.lt ks -> Sorted Z.le ks.
Proof.
  induction 1 as [|k r Hr IH Hall]; constructor; [done|].
  destruct Hall as [|x r' Hx _]; constructor. lia.
Qed.

Lemma sort_and_validate_ascending ties df :
  StronglySorted Z.lt (index df) ->
  sort_and_validate ties df = df /\ has_duplicates (index (sort_index ties df)) = false.
Proof.
  intros Hs.
  assert (Sorted Z.le (index df)) as Hle by by apply strictly_sorted_sorted.
  unfold sort_and_validate. rewrite (sort_index_sorted_input _ _ Hle).
  assert (has_duplicates (index df) = false) as ->; [|done].
  apply has_duplicates_false. by apply strictly_sorted_nodup.
Qed.

(** X12. Records that are clean come back as they are: when, after [k <= 3]
    attempts that are retried, the provider answers with records whose
    dates are strictly ascending, whose prices are numbers and whose
    volumes are integers, one per date, [fetch_ticker_from_tiingo] returns
    these three columns on these dates, in their order, having made
    [k + 1] requests and logged nothing. *)
Theorem ascending_records_are_returned_in_place
    ticker start_date end_date api_key base_url w k response data o c v :
  api_key <> "" ->
  (k <= 3)%nat ->
  let req := tiingo_request ticker start_date end_date api_key base_url in
  let outcome (i : nat) := network w (requests_made w + i)%nat req in
  (forall i, (i < k)%nat -> retryable (outcome i)) ->
  outcome k = Responded response ->
  status_code response < 400 ->
  json response = JsonRecords data ->
  date_label data = "date" ->
  getitem "adjOpen" (value_columns data) = Ok (Float64 o) ->
  getitem "adjClose" (value_columns data) = Ok (Float64 c) ->
  getitem "adjVolume" (value_columns data) = Ok (Int64 v) ->
  length o = length (date_values data) ->
  length c = length (date_values data) ->
  length v = length (date_values data) ->
  StronglySorted Z.lt (date_values data) ->
  exists w',
    fetch_ticker_from_tiingo ticker start_date end_date api_key base_url w
      = (Ok (price_frame (date_values data) o c (Int64 v)), w') /\
    trace w' = trace w ++ retries req k ++ [HttpGet req].
Proof.
  intros Hkey Hk req outcome Hr Ho Hs Hj Hl Go Gc Gv Lo Lc Lv Hsorted.
  destruct (request_loop_retries k 0 (4 - k) None ticker req w)
    as (last' & w1 & H1 & Hnet & Hn & Ht); [lia|exact Hr|].
  replace (k + (4 - k))%nat with 4%nat in H1 by lia.
  destruct (seq (0 + k) (4 - k)) as [|a rest] eqn:Eseq.
  { apply (f_equal length) in Eseq. rewrite length_seq in Eseq. simpl in Eseq. lia. }
  set (df := price_frame (date_values data) o c (Int64 v)).
  destruct (frame_of_response_eq ticker response (emit (HttpGet req) w1) data
              (columns df) df Hj Hl) as (w' & Hf & Htr & _).
  { simpl. by rewrite Go, Gc, Gv. }
  { unfold df, price_frame, enforce_dtypes, enforce_float64, enforce_int64_unless_nan.
    cbn [columns index index_name]. labels. cbn [astype_float64 columns index index_name].
    labels. cbn [astype_float64 columns index index_name]. labels.
    cbn [isna]. rewrite any_none. reflexivity. }
  destruct (sort_and_validate_ascending (tie_order (emit (HttpGet req) w1)) df)
    as [Heq Hnd]; [done|].
  exists w'. split.
  - unfold fetch_ticker_from_tiingo. rewrite decide_False by done. fold req.
    change (_MAX_RETRIES + 1)%nat with 4%nat.
    rewrite (bind_ok _ _ _ response (emit (HttpGet req) w1)).
    + by rewrite Hf, Heq.
    + rewrite H1. apply request_loop_break; [|done]. rewrite Hnet, Hn. exact Ho.
  - rewrite Htr. unfold duplicate_warning. rewrite Hnd, app_nil_r. simpl.
    rewrite Ht, <- app_assoc. reflexivity.
Qed.

(** The flaky provider, which answers with the MGK records at the third
    attempt. *)
Lemma ascending_records_are_returned_in_place_witness :
  "TEST_KEY" <> "" /\
  (forall i, (i < 2)%nat -> retryable (flaky i mgk_request)) /\
  StronglySorted Z.lt (date_values mgk_records) /\
  exists w',
    fetch_ticker_from_tiingo "MGK" "2024-01-02" "2024-01-08" "TEST_KEY"
      "https://api.tiingo.com/tiingo/daily" (world_of flaky ∅) = (Ok mgk_frame, w') /\
    trace w' = [HttpGet mgk_request; Sleep 1; HttpGet mgk_request; Sleep 2;
                HttpGet mgk_request].
Proof.
  assert ("TEST_KEY" <> "") as Hkey by discriminate.
  assert (forall i, (i < 2)%nat -> retryable (flaky i mgk_request)) as Hr.
  { intros [|[|i]] Hi; simpl; lia. }
  assert (StronglySorted Z.lt (date_values mgk_records)) as Hs.
  { unfold mgk_records, midnight. cbn [date_values fmap list_fmap].
    repeat (constructor; [|repeat (constructor; [reflexivity|]); constructor]).
    constructor. }
  split; [exact Hkey|]. split; [exact Hr|]. split; [exact Hs|].
  exact (ascending_records_are_returned_in_place "MGK" "2024-01-02" "2024-01-08" "TEST_KEY"
           "https://api.tiingo.com/tiingo/daily" (world_of flaky ∅) 2 mgk_response mgk_records
           (float_of_int <$> [470; 471; 472; 473; 474])
           (float_of_int <$> [471; 472; 473; 474; 475])
           [50000000; 51000000; 52000000; 53000000; 54000000]
           Hkey ltac:(lia) Hr eq_refl ltac:(simpl; lia) eq_refl eq_refl
           eq_refl eq_refl eq_refl eq_refl eq_refl eq_refl Hs).
Defined.

(** ** Coercing twice *)

Lemma setitem_same k v cols : getitem k cols = Ok v -> setitem k v cols = cols.
Proof.
  induction cols as [|[k' s'] r IH]; simpl; [done|].
  destruct (decide (k = k')) as [->|Hne].
  - by intros [= ->].
  - intros H. f_equal. by apply IH.
Qed.

Lemma astype_float64_again s s' : astype_float64 s = Ok s' -> astype_float64 s' = Ok s'.
Proof.
  destruct s as [xs|xs|xs]; simpl; try by intros [= <-].
  destruct (forallb _ _); [by intros [= <-]|done].
Qed.

Lemma coerced_volume_again s s' :
  (if any (isna s) then astype_float64 s else astype_int64 s) = Ok s' ->
  (if any (isna s') then astype_float64 s' else astype_int64 s') = Ok s'.
Proof.
  intros H. rewrite (coerced_volume_isna _ _ H).
  destruct (any (isna s)).
  - by eapply astype_float64_again.
  - apply astype_int64_dtype in H. by destruct s'.
Qed.

(** X13. The coercion [load_ticker] and [fetch_ticker_from_tiingo] both
    apply (adjOpen and adjClose to float, adjVolume to int64 unless a
    value is missing) changes nothing when applied to a frame it has
    produced. *)
Theorem enforce_dtypes_is_idempotent df df' :
  enforce_dtypes df = Ok df' -> enforce_dtypes df' = Ok df'.
Proof.
  intros H.
  pose proof H as (o & c & v & o' & c' & v' & Ho & Hc & Hv & Ho' & Hc' & Hv' & Hdf)%enforce_dtypes_ok.
  assert (getitem "adjOpen" (columns df') = Ok o') as Go.
  { rewrite Hdf. simpl. rewrite !getitem_setitem_ne by done. apply getitem_setitem_eq. eauto. }
  assert (getitem "adjClose" (columns df') = Ok c') as Gc.
  { rewrite Hdf. simpl. rewrite getitem_setitem_ne by done. apply getitem_setitem_eq.
    rewrite getitem_setitem_ne by done. eauto. }
  assert (getitem "adjVolume" (columns df') = Ok v') as Gv.
  { rewrite Hdf. simpl. apply getitem_setitem_eq. rewrite !getitem_setitem_ne by done. eauto. }
  unfold enforce_dtypes, enforce_float64, enforce_int64_unless_nan.
  rewrite Go, (astype_float64_again _ _ Ho'). cbn [columns index index_name].
  rewrite (setitem_same _ _ _ Go), Gc, (astype_float64_again _ _ Hc').
  cbn [columns index index_name].
  rewrite (setitem_same _ _ _ Gc), Gv, (coerced_volume_again _ _ Hv').
  rewrite (setitem_same _ _ _ Gv). by destruct df'.
Qed.

Lemma enforce_dtypes_is_idempotent_witness :
  exists df',
    enforce_dtypes whole_prices_frame = Ok df' /\
    df' <> whole_prices_frame /\
    enforce_dtypes df' = Ok df'.
Proof.
  eexists. split; [vm_compute; reflexivity|]. split; [discriminate|].
  apply (enforce_dtypes_is_idempotent whole_prices_frame). vm_compute. reflexivity.
Defined.

(** ** Reading back what was written *)

Lemma is_nan_NaN x : is_nan x = true -> x = NaN.
Proof. by destruct x. Qed.

Lemma reread_dates ix :
  Forall (fun t => t `mod` seconds_per_day = 0) ix ->
  (fun d => d * seconds_per_day) <$> ((fun t => t `div` seconds_per_day) <$> ix) = ix.
Proof.
  induction 1 as [|t r Ht Hr IH]; simpl; [done|]. f_equal; [|exact IH].
  unfold seconds_per_day in *. pose proof (Z.div_mod t 86400). lia.
Qed.

Lemma float_cell_not_text f : cell_is_text [] (float_cell f) = false.
Proof. unfold float_cell. by destruct (is_nan f). Qed.

Lemma float_cell_value f : cell_to_float (float_cell f) = f.
Proof.
  unfold float_cell. destruct (is_nan f) eqn:E; [|done]. simpl. symmetry.
  by apply is_nan_NaN.
Qed.

Lemma float_cell_not_int f : cell_is_int (float_cell f) = false.
Proof. unfold float_cell. by destruct (is_nan f). Qed.

Lemma infer_column_cons na_values c cs :
  infer_column na_values (c :: cs) =
  if existsb (cell_is_text na_values) (c :: cs)
  then Object ((fun c => if cell_is_na na_values c then None else Some c) <$> (c :: cs))
  else if forallb cell_is_int (c :: cs)
  then Int64 (cell_to_int <$> (c :: cs))
  else Float64 (cell_to_float <$> (c :: cs)).
Proof. reflexivity. Qed.

Lemma infer_float_cells x xs :
  infer_column [] (series_cells (Float64 (x :: xs))) = Float64 (x :: xs).
Proof.
  change (series_cells (Float64 (x :: xs))) with (float_cell x :: (float_cell <$> xs)).
  rewrite infer_column_cons.
  change (float_cell x :: (float_cell <$> xs)) with (float_cell <$> (x :: xs)).
  assert (existsb (cell_is_text []) (float_cell <$> (x :: xs)) = false) as ->.
  { apply not_true_iff_false. intros (c & Hin & Hc)%existsb_exists.
    apply list_elem_of_In, list_elem_of_fmap in Hin as (f & -> & _).
    by rewrite float_cell_not_text in Hc. }
  assert (forallb cell_is_int (float_cell <$> (x :: xs)) = false) as ->.
  { simpl. by rewrite float_cell_not_int. }
  f_equal. rewrite <- list_fmap_compose. rewrite <- (list_fmap_id (x :: xs)) at 2.
  apply list_fmap_ext. intros i f _. apply float_cell_value.
Qed.

Lemma infer_int_cells x xs :
  infer_column [] (series_cells (Int64 (x :: xs))) = Int64 (x :: xs).
Proof.
  change (series_cells (Int64 (x :: xs))) with (CsvInt x :: (CsvInt <$> xs)).
  rewrite infer_column_cons.
  change (CsvInt x :: (CsvInt <$> xs)) with (CsvInt <$> (x :: xs)).
  assert (existsb (cell_is_text []) (CsvInt <$> (x :: xs)) = false) as ->.
  { apply not_true_iff_false. intros (c & Hin & Hc)%existsb_exists.
    by apply list_elem_of_In, list_elem_of_fmap in Hin as (f & -> & _). }
  assert (forallb cell_is_int (CsvInt <$> (x :: xs)) = true) as ->.
  { apply forallb_forall. intros c Hin.
    by apply list_elem_of_In, list_elem_of_fmap in Hin as (f & -> & _). }
  f_equal. rewrite <- list_fmap_compose. rewrite <- (list_fmap_id (x :: xs)) at 2.
  by apply list_fmap_ext.
Qed.

(** A float64 column comes back as it was written. *)
Lemma reread_float64 xs :
  astype_float64 (infer_column [] (series_cells (Float64 xs))) = Ok (Float64 xs).
Proof. destruct xs as [|x xs]; [done|]. by rewrite infer_float_cells. Qed.

(** A volume column comes back as it was written if it is int64, or if it
    has a missing value. *)
Lemma reread_volume v :
  dtype_of v = int64 \/ dtype_of v = float64_ /\ any (isna v) = true ->
  let s := infer_column [] (series_cells v) in
  (if any (isna s) then astype_float64 s else astype_int64 s) = Ok v.
Proof.
  intros [Hd|[Hd Hn]]; destruct v as [xs|xs|xs]; try done.
  - destruct xs as [|x xs]; [done|]. rewrite infer_int_cells. simpl.
    by rewrite any_none.
  - destruct xs as [|x xs]; [done|]. rewrite infer_float_cells. simpl.
    simpl in Hn. by rewrite Hn.
Qed.

Lemma price_artifact_reread ix o c v :
  Forall (fun t => t `mod` seconds_per_day = 0) ix ->
  dtype_of v = int64 \/ dtype_of v = float64_ /\ any (isna v) = true ->
  read_ticker_artifact (FileCsv (csv_of_frame (price_frame ix o c v)))
    = Ok (price_frame ix o c v).
Proof.
  intros Hix Hv. unfold read_ticker_artifact, read_csv, csv_of_frame, price_frame.
  cbn [csv_date_label csv_dates csv_columns index_name index columns].
  rewrite decide_True by done. cbn [and_then]. unfold set_index.
  cbn [date_label date_values value_columns]. rewrite decide_True by done. cbn [and_then].
  rewrite (reread_dates _ Hix).
  unfold enforce_dtypes, enforce_float64, enforce_int64_unless_nan.
  cbn [fmap list_fmap prod_map fst snd id columns index index_name].
  labels. rewrite reread_float64. cbn [columns index index_name].
  labels. rewrite reread_float64. cbn [columns index index_name].
  labels. pose proof (reread_volume v Hv) as Hvol. cbv zeta in Hvol. rewrite Hvol.
  reflexivity.
Qed.

Lemma astype_float64_Float64 s s' : astype_float64 s = Ok s' -> exists xs, s' = Float64 xs.
Proof.
  destruct s as [xs|xs|xs]; simpl; try (intros [= <-]; eauto).
  destruct (forallb _ _); [intros [= <-]; eauto|done].
Qed.

Lemma coerced_volume_dtype s s' :
  (if any (isna s) then astype_float64 s else astype_int64 s) = Ok s' ->
  dtype_of s' <> object_.
Proof.
  destruct (any (isna s)); intros H.
  - by rewrite (astype_float64_dtype _ _ H).
  - by rewrite (astype_int64_dtype _ _ H).
Qed.

Lemma frame_rows_price_frame f ix o c v :
  frame_rows f (price_frame ix o c v)
    = price_frame (f _ ix) (f _ o) (f _ c) (series_rows f v).
Proof. reflexivity. Qed.

(** The shape of every frame the price fetch returns. *)
Lemma fetch_ticker_shape ticker start_date end_date api_key base_url w df w' :
  fetch_ticker_from_tiingo ticker start_date end_date api_key base_url w = (Ok df, w') ->
  exists o c v, df = price_frame (index df) o c v /\ dtype_of v <> object_.
Proof.
  intros H. apply fetch_ticker_ok in H as (_ & response & w1 & _ & H).
  apply frame_of_response_ok in H as (data & cols & df0 & _ & _ & Hc & He & -> & _).
  apply getitems_required in Hc as (o & c & v & _ & _ & _ & ->).
  apply enforce_dtypes_ok in He
    as (o1 & c1 & v1 & o' & c' & v' & _ & _ & _ & Ho' & Hc' & Hv' & ->).
  apply astype_float64_Float64 in Ho' as [xo ->].
  apply astype_float64_Float64 in Hc' as [xc ->].
  apply coerced_volume_dtype in Hv'.
  cbn [columns index index_name]. labels.
  fold (price_frame (date_values data) xo xc v').
  unfold sort_and_validate, sort_index, boolean_mask.
  destruct (is_monotonic_increasing _); destruct (has_duplicates _);
    rewrite ?frame_rows_price_frame;
    do 3 eexists; (split; [reflexivity|]); by rewrite ?dtype_of_series_rows.
Qed.

(** X14. A price series that [load_ticker] has fetched and written, whose
    dates have no time of day and whose volume column is int64 or still
    holds a missing value, is what a later [load_ticker] with [use_cache]
    set returns, with no request: the round trip through the artifact
    keeps the dates, the columns, their order and their dtypes, and the
    values as far as the decimal text of a float is read back as the float
    it was written from, which is how a cell is modelled here. *)
Theorem daily_prices_survive_the_cache ticker config w df w' v :
  cache_miss (ticker_cache_path ticker config) config w ->
  load_ticker ticker config w = (Ok df, w') ->
  daily df ->
  getitem "adjVolume" (columns df) = Ok v ->
  dtype_of v = int64 \/ any (isna v) = true ->
  forall config2,
    cache_dir config2 = cache_dir config ->
    use_cache config2 = true ->
    load_ticker ticker config2 w' = (Ok df, w').
Proof.
  intros Hmiss Hload Hdaily Hv Hvol config2 Hdir Hc.
  rewrite (load_ticker_miss _ _ _ Hmiss) in Hload.
  apply write_through in Hload as (Hfiles & _ & _ & w1 & Hf & _);
    [|intros r w2; apply fetch_ticker_same_files].
  rewrite (load_ticker_hit ticker config2 w' (FileCsv (csv_of_frame df)) Hc).
  2:{ unfold ticker_cache_path. rewrite Hdir, Hfiles. apply lookup_insert_eq. }
  f_equal. apply fetch_ticker_shape in Hf as (o & c & v0 & Hdf & Hobj).
  rewrite Hdf in Hv. unfold price_frame in Hv. cbn [columns] in Hv.
  revert Hv. labels. intros [= ->].
  rewrite Hdf. apply price_artifact_reread.
  - exact Hdaily.
  - destruct Hvol as [?|Hn]; [by left|].
    destruct v as [xs|xs|xs]; [by left|by right|done].
Qed.

Lemma daily_prices_survive_the_cache_witness :
  cache_miss (ticker_cache_path "MGK" test_config) test_config (world_of healthy ∅) /\
  daily mgk_frame /\
  exists w',
    load_ticker "MGK" test_config (world_of healthy ∅) = (Ok mgk_frame, w') /\
    load_ticker "MGK" offline_config w' = (Ok mgk_frame, w').
Proof.
  assert (cache_miss (ticker_cache_path "MGK" test_config) test_config (world_of healthy ∅))
    as Hm by (right; split; [reflexivity|apply not_elem_of_empty]).
  assert (daily mgk_frame) as Hd by (repeat constructor).
  split; [exact Hm|]. split; [exact Hd|].
  eexists. split; [vm_compute; reflexivity|].
  exact (daily_prices_survive_the_cache "MGK" test_config (world_of healthy ∅) mgk_frame _
           (Int64 [50000000; 51000000; 52000000; 53000000; 54000000])
           Hm ltac:(vm_compute; reflexivity) Hd eq_refl (or_introl eq_refl)
           offline_config eq_refl eq_refl).
Defined.

Lemma select_rows_Forall {A} (P : A -> Prop) m (xs : list A) :
  Forall P xs -> Forall P (select_rows m xs).
Proof.
  intros H. revert m. induction H as [|x xs Hx Hxs IH]; intros [|[] m]; simpl;
    try constructor; auto.
Qed.

(** The index and the vix_close column of every frame the VIX fetch
    returns. *)
Lemma fetch_vix_shape start_date end_date w df w' :
  fetch_vix start_date end_date w = (Ok df, w') ->
  index_name df = "date" /\
  daily df /\
  exists zs,
    getitem "vix_close" (columns df) = Ok (Float64 zs) /\
    Forall (fun z => is_nan z = false) zs.
Proof.
  unfold fetch_vix. unfold bind at 1. unfold requests_get at 1.
  destruct (network w (requests_made w) _) as [response|exc|exc] eqn:Hn; [|done|done].
  unfold bind at 1. unfold raise_for_status. destruct (_ && _); [done|].
  unfold ret. rewrite bind_lift.
  destruct (read_csv ["."] "DATE" (text response)) as [t0|err] eqn:Hr; [|done].
  unfold read_csv in Hr. destruct (text response) as [| |t] eqn:Ht; [done|done|].
  destruct (decide (csv_date_label t = "DATE")) as [Hl|Hl]; [|done].
  injection Hr as <-.
  unfold set_index, rename. cbn [date_label date_values date_tz value_columns].
  change (rename_label "DATE") with "date". rewrite decide_True by done.
  rewrite bind_lift. cbn [columns index index_name].
  rewrite <- list_fmap_compose.
  change (prod_map rename_label id ∘ prod_map id (infer_column ["."]))
    with (prod_map rename_label (infer_column ["."])).
  set (cols := prod_map rename_label (infer_column ["."]) <$> csv_columns t).
  set (dates := (fun d => d * seconds_per_day) <$> csv_dates t).
  rewrite bind_lift. destruct (getitem "vix_close" cols) as [raw|err] eqn:Hraw; [|done].
  rewrite bind_lift. unfold dropna. cbn [columns].
  rewrite getitem_setitem_eq by eauto.
  rewrite bind_lift. unfold enforce_float64, boolean_mask.
  rewrite getitem_frame_rows. cbn [columns]. rewrite getitem_setitem_eq by eauto.
  destruct (astype_float64 _) as [s'|err] eqn:Hs'; [|done].
  intros [= <- <-].
  destruct (getitem_fmap _ _ _ _ _ Hraw) as (cells & Hcells & ->).
  destruct (ffill_dropna_cells ["."] cells dates s' Hs') as (ys & -> & Hzip & Hvalid & Hlen).
  lazymatch goal with
  | |- context [sort_index ?t ?f] => set (filled := f); set (ties := t)
  end.
  split. { unfold sort_index. by destruct (is_monotonic_increasing _). }
  split.
  { unfold daily. apply sort_index_Forall. unfold filled, frame_rows. cbn [index].
    apply select_rows_Forall. unfold dates.
    apply Forall_fmap, Forall_forall. intros d _. simpl. apply Z_mod_mult. }
  apply (sort_index_float64 ties "vix_close" filled ys); [|done].
  unfold filled. cbn [columns]. apply getitem_setitem_eq. eexists.
  rewrite getitem_series_map, getitem_setitem_eq by eauto. reflexivity.
Qed.

(** X15. A VIX series that [load_vix] has fetched and written, from a feed
    whose only value column is VIXCLS, is what a later [load_vix] with
    [use_cache] set returns, with no request (the decimal text of a float
    being read back as the float it was written from, as for the
    prices). *)
Theorem vix_series_survives_the_cache config w df w' :
  cache_miss (vix_cache_path config) config w ->
  load_vix config w = (Ok df, w') ->
  (columns df).*1 = ["vix_close"] ->
  forall config2,
    cache_dir config2 = cache_dir config ->
    use_cache config2 = true ->
    load_vix config2 w' = (Ok df, w').
Proof.
  intros Hmiss Hload Hcols config2 Hdir Hc.
  rewrite (load_vix_miss _ _ Hmiss) in Hload.
  apply write_through in Hload as (Hfiles & _ & _ & w1 & Hf & _);
    [|intros r w2; apply fetch_vix_same_files].
  rewrite (load_vix_hit config2 w' (FileCsv (csv_of_frame df)) Hc).
  2:{ unfold vix_cache_path. rewrite Hdir, Hfiles. apply lookup_insert_eq. }
  f_equal. apply fetch_vix_shape in Hf as (Hname & Hdaily & zs & Hzs & _).
  destruct df as [name ix cols]. unfold daily in Hdaily.
  cbn [index_name columns index] in *. subst name.
  destruct cols as [|[k s] [|? ?]]; try done. injection Hcols as ->.
  revert Hzs. labels. intros [= ->].
  unfold read_vix_artifact, read_csv, csv_of_frame.
  cbn [csv_date_label csv_dates csv_columns index_name index columns].
  rewrite decide_True by done. cbn [and_then]. unfold set_index.
  cbn [date_label date_values value_columns]. rewrite decide_True by done. cbn [and_then].
  rewrite (reread_dates _ Hdaily).
  unfold enforce_float64.
  cbn [fmap list_fmap prod_map fst snd id columns index index_name].
  labels. rewrite reread_float64. cbn [columns index index_name]. labels. reflexivity.
Qed.

Lemma vix_series_survives_the_cache_witness :
  cache_miss (vix_cache_path test_config) test_config (world_of (fred (FileCsv vix_feed)) ∅) /\
  exists w',
    load_vix test_config (world_of (fred (FileCsv vix_feed)) ∅) = (Ok vix_filled_frame, w') /\
    load_vix offline_config w' = (Ok vix_filled_frame, w').
Proof.
  assert (cache_miss (vix_cache_path test_config) test_config
            (world_of (fred (FileCsv vix_feed)) ∅))
    as Hm by (right; split; [reflexivity|apply not_elem_of_empty]).
  split; [exact Hm|].
  eexists. split; [vm_compute; reflexivity|].
  exact (vix_series_survives_the_cache test_config (world_of (fred (FileCsv vix_feed)) ∅)
           vix_filled_frame _ Hm ltac:(vm_compute; reflexivity) eq_refl
           offline_config eq_refl eq_refl).
Defined.

(** X16. A ticker spelled VIX in any letter case has the artifact of the VIX
    series as its own: after a load of that ticker has written its prices,
    [load_vix] with the cache enabled reads them, finds no vix_close column
    and raises KeyError, without a request. *)
Theorem ticker_named_vix_shadows_the_vix_series ticker config w df w' :
  upper ticker = "VIX" ->
  cache_miss (ticker_cache_path ticker config) config w ->
  load_ticker ticker config w = (Ok df, w') ->
  ticker_cache_path ticker config = vix_cache_path config /\
  forall config2,
    cache_dir config2 = cache_dir config ->
    use_cache config2 = true ->
    load_vix config2 w' = (Raise (KeyError "vix_close"), w').
Proof.
  intros Hu Hmiss Hload.
  assert (ticker_cache_path ticker config = vix_cache_path config) as Hp.
  { unfold ticker_cache_path, vix_cache_path. by rewrite Hu. }
  split; [exact Hp|]. intros config2 Hdir Hc.
  rewrite (load_ticker_miss _ _ _ Hmiss) in Hload.
  apply write_through in Hload as (Hfiles & _ & _ & w1 & Hf & _);
    [|intros r w2; apply fetch_ticker_same_files].
  rewrite (load_vix_hit config2 w' (FileCsv (csv_of_frame df)) Hc).
  2:{ unfold vix_cache_path. rewrite Hdir, Hfiles.
      fold (vix_cache_path config). rewrite Hp. apply lookup_insert_eq. }
  f_equal. apply fetch_ticker_shape in Hf as (o & c & v & -> & _).
  unfold read_vix_artifact, read_csv, csv_of_frame, price_frame.
  cbn [csv_date_label csv_dates csv_columns index_name index columns].
  rewrite decide_True by done. cbn [and_then]. unfold set_index.
  cbn [date_label date_values value_columns]. rewrite decide_True by done. cbn [and_then].
  unfold enforce_float64.
  cbn [fmap list_fmap prod_map fst snd id columns index index_name].
  labels. reflexivity.
Qed.

Lemma ticker_named_vix_shadows_the_vix_series_witness :
  upper "vix" = "VIX" /\
  cache_miss (ticker_cache_path "vix" test_config) test_config (world_of healthy ∅) /\
  exists w',
    load_ticker "vix" test_config (world_of healthy ∅) = (Ok mgk_frame, w') /\
    load_vix offline_config w' = (Raise (KeyError "vix_close"), w').
Proof.
  assert (cache_miss (ticker_cache_path "vix" test_config) test_config (world_of healthy ∅))
    as Hm by (right; split; [reflexivity|apply not_elem_of_empty]).
  split; [reflexivity|]. split; [exact Hm|].
  eexists. split; [vm_compute; reflexivity|].
  exact (proj2 (ticker_named_vix_shadows_the_vix_series "vix" test_config
                  (world_of healthy ∅) mgk_frame _ eq_refl Hm ltac:(vm_compute; reflexivity))
           offline_config eq_refl eq_refl).
Defined.
